(** * The voting ledger of Proyecto_Blockchain

    A shallow embedding of the two ledger back ends of the repository,
    [src/backend/server.js] (in-memory [DATABASE], module [Server]) and
    [src/backend/backend.js] (JSON file store, module [Backend]), and the
    properties of the voting ledger core proved or refuted on them.

    Modelling conventions.
    - Strings are sequences of ASCII characters; [toLowerCase], [trim],
      [parseInt] follow ECMAScript on such strings.
    - JavaScript numbers that the code handles as identifiers and counters
      are integers; they are modelled by [Z] and [nat] (exact below 2^53),
      and [NaN] is a separate constructor of [JS.number]. The percentage
      of a candidate is computed on binary64 floats as the code does.
    - A request to [server.js] ([req.body], [req.query], the [data]
      argument) is an object whose fields are strings: a
      [gmap string string]. A request to [backend.js] is an object whose
      fields are strings or integers: a [gmap string JS.value].
    - The clock and the UUID generator are oracles, and [parseFloat] is a
      parameter of the one function that calls it; a write of the
      database file is taken to succeed.
    - The HTTP layer, the spreadsheet synchronisation, the socket
      broadcast, the exports and the development routes that replace or
      reset the whole database are outside the model, as are the answers
      of the chart queries and of [getResults] of [backend.js], which
      write nothing. A run is a sequence of requests to the action
      dispatcher, handled one after the other. *)

From Stdlib Require Import ZArith String Ascii List Bool Lia Sorted.
From Stdlib Require Import Floats.PrimFloat Floats.FloatOps Floats.SpecFloat.
From Stdlib Require Import Numbers.Cyclic.Int63.Uint63.
From stdpp Require Import base option list gmap strings fin_maps.

Local Open Scope string_scope.
Local Open Scope Z_scope.

(** ** The fragment of the JavaScript runtime used by the ledger *)

Module JS.

(** Numbers as the ledger meets them: integers, or [NaN]. *)
Inductive number : Type :=
| NaN
| Int (n : Z).

(** Values stored in log records and responses. *)
Inductive value : Type :=
| VStr (s : string)
| VNum (n : Z).

Definition is_upper (c : ascii) : bool :=
  let n := Z.of_nat (nat_of_ascii c) in (65 <=? n) && (n <=? 90).

Definition lower_char (c : ascii) : ascii :=
  if is_upper c then ascii_of_nat (nat_of_ascii c + 32) else c.

(** [String.prototype.toLowerCase] *)
Fixpoint toLowerCase (s : string) : string :=
  match s with
  | EmptyString => EmptyString
  | String c s' => String (lower_char c) (toLowerCase s')
  end.

(** White space and line terminators (TAB, LF, VT, FF, CR, SP). *)
Definition is_space (c : ascii) : bool :=
  let n := Z.of_nat (nat_of_ascii c) in
  ((9 <=? n) && (n <=? 13)) || (n =? 32).

Fixpoint trimStart (s : string) : string :=
  match s with
  | EmptyString => EmptyString
  | String c s' => if is_space c then trimStart s' else s
  end.

Fixpoint trimEnd (s : string) : string :=
  match s with
  | EmptyString => EmptyString
  | String c s' =>
      match trimEnd s' with
      | EmptyString => if is_space c then EmptyString else String c EmptyString
      | t => String c t
      end
  end.

(** [String.prototype.trim] *)
Definition trim (s : string) : string := trimEnd (trimStart s).

(** Truthiness of a string: every string but the empty one. *)
Definition truthy (s : string) : bool := negb (String.eqb s "").

(** [a || b] on possibly absent string fields. *)
Definition or (a b : option string) : option string :=
  match a with
  | Some s => if truthy s then a else b
  | None => b
  end.

(** [a || d] with a string literal [d] as last operand. *)
Definition or_else (a : option string) (d : string) : string :=
  match a with
  | Some s => if truthy s then s else d
  | None => d
  end.

(** Value of a character as a digit in radix [R] (10 or 16). *)
Definition digit (R : Z) (c : ascii) : option Z :=
  let n := Z.of_nat (nat_of_ascii c) in
  if (48 <=? n) && (n <=? 57) then Some (n - 48)
  else if (R =? 16) && (97 <=? n) && (n <=? 102) then Some (n - 87)
  else if (R =? 16) && (65 <=? n) && (n <=? 70) then Some (n - 55)
  else None.

(** The longest prefix of radix-[R] digits, read as a number; [None] when
    the prefix is empty. *)
Fixpoint digits (R : Z) (acc : option Z) (s : string) : option Z :=
  match s with
  | EmptyString => acc
  | String c s' =>
      match digit R c with
      | Some d => digits R (Some (R * default 0 acc + d)) s'
      | None => acc
      end
  end.

Definition strip_sign (s : string) : Z * string :=
  match s with
  | String "-" s' => (-1, s')
  | String "+" s' => (1, s')
  | _ => (1, s)
  end.

Definition strip_hex_prefix (s : string) : Z * string :=
  match s with
  | String "0" (String "x" s') => (16, s')
  | String "0" (String "X" s') => (16, s')
  | _ => (10, s)
  end.

(** [parseInt(x)] with no radix argument; an absent [x] reads as the
    string [undefined], which has no digits. *)
Definition parseInt (x : option string) : number :=
  match x with
  | None => NaN
  | Some s =>
      let (sign, s1) := strip_sign (trimStart s) in
      let (R, s2) := strip_hex_prefix s1 in
      match digits R None s2 with
      | Some n => Int (sign * n)
      | None => NaN
      end
  end.

(** [!n] is false exactly on the non-zero integers; [nonzero] returns the
    integer in that case. *)
Definition nonzero (n : number) : option Z :=
  match n with
  | Int z => if z =? 0 then None else Some z
  | NaN => None
  end.

Definition is_hex (c : ascii) : bool :=
  match digit 16 c with Some _ => true | None => false end.

Fixpoint all_hex (n : nat) (s : string) : bool :=
  match n, s with
  | O, EmptyString => true
  | S n', String c s' => is_hex c && all_hex n' s'
  | _, _ => false
  end.

(** [s.match(/^0x[a-fA-F0-9]{40}$/)] *)
Definition is_wallet (s : string) : bool :=
  match s with
  | String "0" (String "x" s') => all_hex 40 s'
  | _ => false
  end.

(** [s.split(',')] *)
Fixpoint split_comma (cur : string) (s : string) : list string :=
  match s with
  | EmptyString => [cur]
  | String c s' =>
      if Ascii.eqb c ","%char then cur :: split_comma "" s'
      else split_comma (cur ++ String c "") s'
  end.

Definition split (s : string) : list string := split_comma "" s.

(** Decimal rendering of an integer, as [String(n)] and template
    literals do. *)
Definition digit_char (d : Z) : ascii := ascii_of_nat (Z.to_nat (48 + d)).

Fixpoint render_pos (fuel : nat) (n : Z) (acc : string) : string :=
  match fuel with
  | O => acc
  | S fuel' =>
      let acc' := String (digit_char (n mod 10)) acc in
      if n / 10 =? 0 then acc' else render_pos fuel' (n / 10) acc'
  end.

Definition ToString (n : Z) : string :=
  if n <? 0 then "-" ++ render_pos (Z.to_nat (- n)) (- n) ""
  else render_pos (S (Z.to_nat n)) n "".

(** Truthiness of a present value: a non-empty string or a non-zero
    number; [truthy_value] returns the operand when it is truthy. *)
Definition truthy_value (x : option value) : option value :=
  match x with
  | Some (VStr s) => if truthy s then x else None
  | Some (VNum n) => if n =? 0 then None else x
  | None => None
  end.

(** [String(v)] *)
Definition String_ (v : value) : string :=
  match v with
  | VStr s => s
  | VNum n => ToString n
  end.

Fixpoint all_digits (s : string) : bool :=
  match s with
  | EmptyString => true
  | String c s' =>
      match digit 10 c with Some _ => all_digits s' | None => false end
  end.

(** [Number(s)] on the strings that are, between white space, empty or a
    signed decimal integer literal; [None] on every other string
    (fractions, exponents, other radices, [Infinity], non-numeric text),
    which this development does not interpret. *)
Definition StringToNumber (s : string) : option Z :=
  let t := trim s in
  if String.eqb t "" then Some 0
  else
    let (sign, u) := strip_sign t in
    if truthy u && all_digits u
    then option_map (Z.mul sign) (digits 10 None u)
    else None.

(** [Number(v)] *)
Definition ToNumber (v : value) : option Z :=
  match v with
  | VNum n => Some n
  | VStr s => StringToNumber s
  end.

(** [Number.isSafeInteger(n)] on an integer: the integers below 2^53 in
    absolute value, which a JSON number, [Number] and [String] carry
    without rounding and which [String] writes in plain decimal. *)
Definition isSafeInteger (n : Z) : bool := (Z.abs n <? 2 ^ 53)%Z.

(** A counter as a double: [of_uint63] is exact below 2^53. *)
Definition to_float (n : nat) : float :=
  PrimFloat.of_uint63 (Uint63.of_Z (Z.of_nat n)).

Definition two_digits (n : Z) : string :=
  String (digit_char (n / 10)) (String (digit_char (n mod 10)) "").

(** [x.toFixed(2)] for a finite [x >= 0]: the integer [n] for which
    [n / 100 - x] is closest to zero, the larger one on a tie, printed
    with two decimals. *)
Definition toFixed2 (x : float) : string :=
  let n :=
    match Prim2SF x with
    | S754_finite false m e =>
        if 0 <=? e then Z.pos m * 2 ^ e * 100
        else (2 * (Z.pos m * 100) + 2 ^ (- e)) / (2 * 2 ^ (- e))
    | _ => 0
    end in
  ToString (n / 100) ++ "." ++ two_digits (n mod 100).

(** [array.sort(cmp)]. The sort is stable: elements that compare equal
    keep their order. With a comparator that orders the elements
    consistently the result is the list obtained by inserting the elements
    one after the other, each behind the elements that do not come after
    it. *)
Fixpoint insert_sorted {A : Type} (cmp : A -> A -> Z) (x : A) (l : list A) : list A :=
  match l with
  | [] => [x]
  | y :: l' => if cmp y x <=? 0 then y :: insert_sorted cmp x l' else x :: y :: l'
  end.

Definition sort {A : Type} (cmp : A -> A -> Z) (l : list A) : list A :=
  foldl (fun sorted x => insert_sorted cmp x sorted) [] l.

(** [x || 0] on a number: [0] when [x] is [NaN] or a zero. *)
Definition float_or_zero (x : float) : float :=
  if PrimFloat.is_nan x || PrimFloat.is_zero x then PrimFloat.zero else x.

End JS.

(** ** [src/backend/server.js]: the in-memory ledger *)

Module Server.
Import JS.

Module Voter.
Record t : Type := mk {
  walletAddress : string; name : string; idNumber : string;
  email : string; registeredAt : string; status : string }.
End Voter.

Module Election.
Record t : Type := mk {
  electionId : Z; title : string; description : string;
  startDate : string; endDate : string; status : string;
  totalVotes : nat; createdAt : string; contractAddress : string }.
End Election.

Module Candidate.
Record t : Type := mk {
  electionId : Z; candidateId : Z; name : string; party : string;
  votes : nat; percentage : string; addedAt : string }.
End Candidate.

Module Vote.
Record t : Type := mk {
  txHash : string; walletAddress : string; electionId : Z;
  candidateId : Z; timestamp : string; blockNumber : value;
  gasUsed : value; status : string }.
End Vote.

Module Block.
Record t : Type := mk {
  timestamp : string; action : string; details : gmap string value;
  hash : string; blockNumber : nat }.
End Block.

Module AuditEntry.
Record t : Type := mk {
  timestamp : string; action : string; user : string;
  details : gmap string value; status : string; error : string }.
End AuditEntry.

Module Stats.
Record t : Type := mk {
  totalVoters : nat; totalElections : nat; totalVotes : nat;
  totalCandidates : nat; lastUpdate : string }.
End Stats.

Module RelayerEntry.
Record t : Type := mk {
  timestamp : string; from : string; action : string;
  status : string; txHash : string; gasUsed : value }.
End RelayerEntry.

(** The global [DATABASE] object. [stats] is [None] for the initial [{}]. *)
Record DB : Type := mkDB {
  voters : list Voter.t;
  elections : list Election.t;
  candidates : list Candidate.t;
  votes : list Vote.t;
  blockchain : list Block.t;
  audit : list AuditEntry.t;
  stats : option Stats.t;
  relayerLog : list RelayerEntry.t }.

Definition set_voters (f : list Voter.t -> list Voter.t) (d : DB) : DB :=
  mkDB (f (voters d)) (elections d) (candidates d) (votes d)
       (blockchain d) (audit d) (stats d) (relayerLog d).
Definition set_elections (f : list Election.t -> list Election.t) (d : DB) : DB :=
  mkDB (voters d) (f (elections d)) (candidates d) (votes d)
       (blockchain d) (audit d) (stats d) (relayerLog d).
Definition set_candidates (f : list Candidate.t -> list Candidate.t) (d : DB) : DB :=
  mkDB (voters d) (elections d) (f (candidates d)) (votes d)
       (blockchain d) (audit d) (stats d) (relayerLog d).
Definition set_votes (f : list Vote.t -> list Vote.t) (d : DB) : DB :=
  mkDB (voters d) (elections d) (candidates d) (f (votes d))
       (blockchain d) (audit d) (stats d) (relayerLog d).
Definition set_blockchain (f : list Block.t -> list Block.t) (d : DB) : DB :=
  mkDB (voters d) (elections d) (candidates d) (votes d)
       (f (blockchain d)) (audit d) (stats d) (relayerLog d).
Definition set_audit (f : list AuditEntry.t -> list AuditEntry.t) (d : DB) : DB :=
  mkDB (voters d) (elections d) (candidates d) (votes d)
       (blockchain d) (f (audit d)) (stats d) (relayerLog d).
Definition set_stats (s : option Stats.t) (d : DB) : DB :=
  mkDB (voters d) (elections d) (candidates d) (votes d)
       (blockchain d) (audit d) s (relayerLog d).
Definition set_relayerLog (f : list RelayerEntry.t -> list RelayerEntry.t) (d : DB) : DB :=
  mkDB (voters d) (elections d) (candidates d) (votes d)
       (blockchain d) (audit d) (stats d) (f (relayerLog d)).

(** [array.push(x)] *)
Definition push {A : Type} (x : A) (l : list A) : list A := l ++ [x].

(** What the server sees of the world: its [DATABASE], the file
    [data/database.json] as last written ([None]: no file), and how many
    times the clock and the UUID generator have been read. *)
Record World : Type := mkWorld {
  DATABASE : DB;
  file : option DB;
  dates : nat;
  uuids : nat }.

Definition DATABASE0 : DB := mkDB [] [] [] [] [] [] None [].
Definition boot : World := mkWorld DATABASE0 None 0 0.

(** Statements either complete with a value or throw [new Error(message)];
    effects on the world made before a throw stay. *)
Inductive outcome (A : Type) : Type :=
| Return (a : A)
| Throw (message : string).
Arguments Return {A} a.
Arguments Throw {A} message.

Definition M (A : Type) : Type := World -> outcome A * World.

#[export] Instance M_ret : MRet M := fun A a w => (Return a, w).
#[export] Instance M_bind : MBind M := fun A B f m w =>
  match m w with
  | (Return a, w') => f a w'
  | (Throw e, w') => (Throw e, w')
  end.

Definition throw {A : Type} (message : string) : M A :=
  fun w => (Throw message, w).

(** [try { body } catch (err) { handler(err.message) }] *)
Definition try_catch {A : Type} (body : M A) (handler : string -> M A) : M A :=
  fun w =>
    match body w with
    | (Return a, w') => (Return a, w')
    | (Throw e, w') => handler e w'
    end.

(** [if (c) throw ...] and other one-armed conditionals. *)
Definition when (c : bool) (m : M unit) : M unit :=
  if c then m else mret tt.

Definition get : M DB := fun w => (Return (DATABASE w), w).
Definition modify (f : DB -> DB) : M unit :=
  fun w => (Return tt, mkWorld (f (DATABASE w)) (file w) (dates w) (uuids w)).

(** Response objects [{ success, ... }] of the actions. *)
Module ElectionView.
Record t : Type := mk {
  ElectionID : Z; Title : string; Description : string;
  StartDate : string; EndDate : string; Status : string;
  TotalVotes : nat; ContractAddress : string }.
End ElectionView.

Module CandidateView.
Record t : Type := mk {
  CandidateID : Z; Name : string; Party : string;
  Votes : nat; Percentage : string }.
End CandidateView.

Inductive Response : Type :=
| Failure (error : string)
| Initialized (message : string)
| Registered (message : string) (wallet : string)
| ElectionCreated (message : string) (electionId : Z)
| CandidateAdded (message : string) (candidateId : Z)
| VoteRecorded (message : string) (txHash : string)
| ActiveElections (elections : list ElectionView.t)
| Candidates (candidates : list CandidateView.t)
| StatsOf (stats : Stats.t)
| Undefined.

Definition success (r : Response) : bool :=
  match r with
  | Failure _ | Undefined => false
  | _ => true
  end.

Definition error (r : Response) : option string :=
  match r with
  | Failure e => Some e
  | _ => None
  end.

Record Config : Type := mkConfig {
  ADMIN_ADDRESSES : list string;
  VOTING_CONTRACT_ADDRESS : string }.

(** The actions of the dispatch table but [getResults], which answers
    with a response of its own shape and is modelled apart. *)
Module Action.
Inductive t : Type :=
| init
| registerVoter
| createElection
| addCandidate
| recordVote
| castVote
| getActiveElections
| getCandidates
| getStats
| logRelayer.
End Action.

Section WithEnvironment.
(** [process.env], the successive readings of
    [new Date().toISOString()] and the successive [uuidv4()] draws. *)
Variable env : gmap string string.
Variable clock : nat -> string.
Variable uuid : nat -> string.

Definition CONFIG : Config := {|
  ADMIN_ADDRESSES :=
    (fun a => trim (toLowerCase a))
      <$> split (or_else (env !! "ADMIN_ADDRESSES") "");
  VOTING_CONTRACT_ADDRESS := or_else (env !! "VOTING_CONTRACT_ADDRESS") "" |}.

Definition new_Date : M string :=
  fun w => (Return (clock (dates w)),
            mkWorld (DATABASE w) (file w) (S (dates w)) (uuids w)).

Definition uuidv4 : M string :=
  fun w => (Return (uuid (uuids w)),
            mkWorld (DATABASE w) (file w) (dates w) (S (uuids w))).

(** [saveDatabase]: the snapshot [JSON.stringify(DATABASE)] is taken at
    the call and replaces the file (the code only logs a failed write; here
    the write succeeds). *)
Definition saveDatabase : M unit :=
  fun w => (Return tt, mkWorld (DATABASE w) (Some (DATABASE w)) (dates w) (uuids w)).

(** [loadDatabase]: with no readable file the current structure stays. *)
Definition loadDatabase : M unit :=
  fun w => (Return tt,
            mkWorld (default (DATABASE w) (file w)) (file w) (dates w) (uuids w)).

Definition logBlockchain (action : string) (details : gmap string value) : M unit :=
  hash ← uuidv4;
  db ← get;
  let blockNumber := length (blockchain db) in
  timestamp ← new_Date;
  modify (set_blockchain (push (Block.mk timestamp action details hash blockNumber))).

Definition logAudit (action user : string) (details : gmap string value)
    (status error : string) : M unit :=
  timestamp ← new_Date;
  modify (set_audit (push (AuditEntry.mk timestamp action user details status error))).

Definition getStats : M Response :=
  db ← get;
  lastUpdate ← new_Date;
  mret (StatsOf (Stats.mk (length (voters db)) (length (elections db))
                          (length (votes db)) (length (candidates db)) lastUpdate)).

Definition updateStats : M unit :=
  r ← getStats;
  match r with
  | StatsOf s => modify (set_stats (Some s))
  | _ => mret tt
  end.

Definition initializeSystem : M Response :=
  try_catch
    (loadDatabase;;
     db ← get;
     when (length (blockchain db) =? 0)%nat
       (timestamp ← new_Date;
        hash ← uuidv4;
        modify (set_blockchain (push
          (Block.mk timestamp "GENESIS"
             {[ "message" := VStr "Sistema inicializado" ]} hash 0))));;
     updateStats;;
     saveDatabase;;
     mret (Initialized "✅ Sistema inicializado correctamente"))
    (fun err => mret (Failure err)).

Definition registerVoter (data : gmap string string) : M Response :=
  try_catch
    (let wallet := trim (toLowerCase
       (or_else (or (data !! "walletAddress") (data !! "wallet")) "")) in
     let name := trim (or_else (data !! "name") "") in
     let idNumber := trim (or_else (or (data !! "idNumber") (data !! "dni")) "") in
     let email := trim (or_else (data !! "email") "") in
     when (negb (truthy wallet) || negb (truthy name) || negb (truthy idNumber))
       (throw "Datos incompletos: wallet, nombre y DNI son obligatorios");;
     when (negb (is_wallet wallet))
       (throw "Dirección de wallet inválida");;
     db ← get;
     let existing := List.find
       (fun v => String.eqb (toLowerCase (Voter.walletAddress v)) wallet) (voters db) in
     when (bool_decide (is_Some existing))
       (throw "Votante ya registrado con esta wallet");;
     registeredAt ← new_Date;
     let voter := Voter.mk wallet name idNumber email registeredAt "Activo" in
     modify (set_voters (push voter));;
     logBlockchain "registerVoter" {[ "wallet" := VStr wallet; "name" := VStr name ]};;
     logAudit "registerVoter" wallet
       {[ "name" := VStr name; "idNumber" := VStr idNumber ]} "success" "";;
     updateStats;;
     saveDatabase;;
     mret (Registered "✅ Votante registrado correctamente" wallet))
    (fun err =>
       logAudit "registerVoter" (or_else (data !! "walletAddress") "unknown")
         (VStr <$> data) "error" err;;
       mret (Failure err)).

Definition quote : string := String (ascii_of_nat 34) EmptyString.

Definition createElection (data : gmap string string) : M Response :=
  try_catch
    (let admin := trim (toLowerCase (or_else (data !! "adminAddress") "")) in
     let title := trim (or_else (data !! "title") "") in
     let description := trim (or_else (data !! "description") "") in
     let startDate := or_else (data !! "startDate") "" in
     let endDate := or_else (data !! "endDate") "" in
     when (negb (truthy admin) || negb (truthy title))
       (throw "Dirección de admin y título son obligatorios");;
     when (negb (bool_decide (admin ∈ ADMIN_ADDRESSES CONFIG)))
       (throw "No autorizado: dirección no es admin");;
     db ← get;
     let electionId := Z.of_nat (length (elections db)) + 1 in
     createdAt ← new_Date;
     let election := Election.mk electionId title description startDate endDate
                       "Activa" 0 createdAt (VOTING_CONTRACT_ADDRESS CONFIG) in
     modify (set_elections (push election));;
     logBlockchain "createElection"
       {[ "admin" := VStr admin; "title" := VStr title;
          "electionId" := VNum electionId ]};;
     logAudit "createElection" admin
       {[ "title" := VStr title; "electionId" := VNum electionId ]} "success" "";;
     updateStats;;
     saveDatabase;;
     mret (ElectionCreated
             ("✅ Elección " ++ quote ++ title ++ quote ++ " creada con ID: "
                ++ ToString electionId)
             electionId))
    (fun err =>
       logAudit "createElection" (or_else (data !! "adminAddress") "unknown")
         (VStr <$> data) "error" err;;
       mret (Failure err)).

(** Past the guard [!electionId || !name] the identifier is a non-zero
    integer; the match names it. *)
Definition addCandidate (data : gmap string string) : M Response :=
  try_catch
    (let electionId := parseInt (or (data !! "electionId") (data !! "election")) in
     let name := trim (or_else (data !! "name") "") in
     let party := trim (or_else (or (data !! "party") (data !! "proposal")) "") in
     match nonzero electionId, truthy name with
     | Some electionId, true =>
         db ← get;
         let election := List.find
           (fun e => Election.electionId e =? electionId) (elections db) in
         when (negb (bool_decide (is_Some election)))
           (throw "Elección no encontrada");;
         let existingCandidates :=
           filter (fun c => Candidate.electionId c = electionId) (candidates db) in
         let candidateId := Z.of_nat (length existingCandidates) + 1 in
         addedAt ← new_Date;
         let candidate := Candidate.mk electionId candidateId name party 0 "0%" addedAt in
         modify (set_candidates (push candidate));;
         logBlockchain "addCandidate"
           {[ "electionId" := VNum electionId; "candidateId" := VNum candidateId;
              "name" := VStr name; "party" := VStr party ]};;
         logAudit "addCandidate" "system"
           {[ "electionId" := VNum electionId; "name" := VStr name ]} "success" "";;
         saveDatabase;;
         mret (CandidateAdded "✅ Candidato agregado" candidateId)
     | _, _ => throw "Election ID y nombre son obligatorios"
     end)
    (fun err =>
       logAudit "addCandidate" "system" (VStr <$> data) "error" err;;
       mret (Failure err)).

(** [voteCounts[v.candidateId] = (voteCounts[v.candidateId] || 0) + 1]
    over the votes of the election. *)
Definition voteCounts (electionId : Z) (vs : list Vote.t) : gmap Z nat :=
  foldl (fun counts v =>
           <[ Vote.candidateId v :=
                (default 0 (counts !! Vote.candidateId v) + 1)%nat ]> counts)
        ∅
        (filter (fun v => Vote.electionId v = electionId) vs).

(** [((count / totalVotes) * 100).toFixed(2)], or ['0'] with no votes,
    followed by the per-cent sign. *)
Definition percentage_of (count totalVotes : nat) : string :=
  (if (0 <? totalVotes)%nat
   then toFixed2 (PrimFloat.mul (PrimFloat.div (to_float count) (to_float totalVotes))
                                (to_float 100))
   else "0") ++ "%".

(** [updateCandidateVotes(electionId)]: the candidate objects of the
    election are updated in place, so the change shows in
    [DATABASE.candidates]. *)
Definition updateCandidateVotes (electionId : Z) : M unit :=
  db ← get;
  let counts := voteCounts electionId (votes db) in
  let totalVotes := foldl (fun a b => (a + b)%nat) 0%nat (map_to_list counts).*2 in
  modify (set_candidates (fmap (fun candidate =>
    if bool_decide (Candidate.electionId candidate = electionId) then
      let count := default 0%nat (counts !! Candidate.candidateId candidate) in
      Candidate.mk (Candidate.electionId candidate) (Candidate.candidateId candidate)
        (Candidate.name candidate) (Candidate.party candidate)
        count (percentage_of count totalVotes) (Candidate.addedAt candidate)
    else candidate))).

(** Assignment to a field of the first element that [find] returns. *)
Fixpoint update_first {A : Type} (p : A -> bool) (f : A -> A) (l : list A) : list A :=
  match l with
  | [] => []
  | x :: l' => if p x then f x :: l' else x :: update_first p f l'
  end.

Definition updateElectionTotalVotes (electionId : Z) : M unit :=
  db ← get;
  let totalVotes := length (filter (fun v => Vote.electionId v = electionId) (votes db)) in
  modify (set_elections (update_first
    (fun e => Election.electionId e =? electionId)
    (fun election =>
       Election.mk (Election.electionId election) (Election.title election)
         (Election.description election) (Election.startDate election)
         (Election.endDate election) (Election.status election)
         totalVotes (Election.createdAt election)
         (Election.contractAddress election)))).

(** The recomputation of the tallies of an election, as [recordVote]
    runs it after the append. *)
Definition recompute (electionId : Z) : M unit :=
  updateCandidateVotes electionId;;
  updateElectionTotalVotes electionId.

(** [data.blockNumber || 0] *)
Definition or_zero (a : option string) : value :=
  match a with
  | Some s => if truthy s then VStr s else VNum 0
  | None => VNum 0
  end.

Definition recordVote (data : gmap string string) : M Response :=
  try_catch
    (let txHash := or_else (or (data !! "txHash") (data !! "transactionHash")) "" in
     let wallet := trim (toLowerCase
       (or_else (or (or (data !! "walletAddress") (data !! "voter")) (data !! "from")) "")) in
     let electionId := parseInt (data !! "electionId") in
     let candidateId := parseInt (data !! "candidateId") in
     let blockNumber := or_zero (data !! "blockNumber") in
     let gasUsed := or_zero (data !! "gasUsed") in
     match truthy wallet, nonzero electionId, nonzero candidateId with
     | true, Some electionId, Some candidateId =>
         db ← get;
         let hasVoted := existsb
           (fun v => String.eqb (toLowerCase (Vote.walletAddress v)) wallet
                     && (Vote.electionId v =? electionId)) (votes db) in
         when hasVoted
           (throw "El votante ya emitió su voto en esta elección");;
         let candidate := List.find
           (fun c => (Candidate.electionId c =? electionId)
                     && (Candidate.candidateId c =? candidateId)) (candidates db) in
         when (negb (bool_decide (is_Some candidate)))
           (throw "Candidato no encontrado");;
         timestamp ← new_Date;
         let vote := Vote.mk txHash wallet electionId candidateId timestamp
                       blockNumber gasUsed "Confirmado" in
         modify (set_votes (push vote));;
         updateCandidateVotes electionId;;
         updateElectionTotalVotes electionId;;
         logBlockchain "castVote"
           {[ "wallet" := VStr wallet; "electionId" := VNum electionId;
              "candidateId" := VNum candidateId; "txHash" := VStr txHash ]};;
         logAudit "castVote" wallet
           {[ "electionId" := VNum electionId; "candidateId" := VNum candidateId ]}
           "success" "";;
         updateStats;;
         saveDatabase;;
         mret (VoteRecorded "🗳️ Voto registrado correctamente" txHash)
     | _, _, _ => throw "Datos incompletos para registrar voto"
     end)
    (fun err =>
       logAudit "recordVote" (or_else (data !! "walletAddress") "unknown")
         (VStr <$> data) "error" err;;
       mret (Failure err)).

Definition getActiveElections : M Response :=
  try_catch
    (db ← get;
     let activeElections :=
       (fun e => ElectionView.mk (Election.electionId e) (Election.title e)
                   (Election.description e) (Election.startDate e)
                   (Election.endDate e) (Election.status e)
                   (Election.totalVotes e) (Election.contractAddress e))
         <$> filter (fun e => Election.status e = "Activa") (elections db) in
     mret (ActiveElections activeElections))
    (fun err => mret (Failure err)).

Definition getCandidates (data : gmap string string) : M Response :=
  try_catch
    (match nonzero (parseInt (data !! "electionId")) with
     | Some electionId =>
         db ← get;
         let electionCandidates :=
           (fun c => CandidateView.mk (Candidate.candidateId c) (Candidate.name c)
                       (Candidate.party c) (Candidate.votes c)
                       (Candidate.percentage c))
             <$> filter (fun c => Candidate.electionId c = electionId) (candidates db) in
         mret (Candidates electionCandidates)
     | None => throw "Election ID es obligatorio"
     end)
    (fun err => mret (Failure err)).

Definition logRelayer (data : gmap string string) : M Response :=
  timestamp ← new_Date;
  modify (set_relayerLog (push
    (RelayerEntry.mk timestamp (or_else (data !! "from") "")
       (or_else (data !! "action") "") (or_else (data !! "status") "")
       (or_else (data !! "txHash") "") (or_zero (data !! "gasUsed")))));;
  saveDatabase;;
  mret Undefined.

Definition handleAction (action : Action.t) (data : gmap string string) : M Response :=
  match action with
  | Action.init => initializeSystem
  | Action.registerVoter => registerVoter data
  | Action.createElection => createElection data
  | Action.addCandidate => addCandidate data
  | Action.recordVote => recordVote data
  | Action.castVote => recordVote data
  | Action.getActiveElections => getActiveElections
  | Action.getCandidates => getCandidates data
  | Action.getStats => getStats
  | Action.logRelayer => logRelayer data
  end.

(** A run of the server: the requests are handled one after the other
    (each handler is synchronous). *)
Definition step (w : World) (req : Action.t * gmap string string) : World :=
  (handleAction req.1 req.2 w).2.

Definition run (reqs : list (Action.t * gmap string string)) (w : World) : World :=
  foldl step w reqs.

Definition response (m : M Response) (w : World) : option Response :=
  match (m w).1 with
  | Return r => Some r
  | Throw _ => None
  end.

(** The wallet that [registerVoter] and [recordVote] read from a
    request. *)
Definition voter_wallet (data : gmap string string) : string :=
  trim (toLowerCase (or_else (or (data !! "walletAddress") (data !! "wallet")) "")).

Definition vote_wallet (data : gmap string string) : string :=
  trim (toLowerCase
    (or_else (or (or (data !! "walletAddress") (data !! "voter")) (data !! "from")) "")).

(** The outcome of an action whose [try] block threw [err]: the
    [catch] block logs to the audit and answers with the failure. *)
Definition failed (action user : string) (data : gmap string string) (err : string)
    (w : World) : outcome Response * World :=
  (Return (Failure err),
   mkWorld (set_audit (push (AuditEntry.mk (clock (dates w)) action user
                               (VStr <$> data) "error" err)) (DATABASE w))
           (file w) (S (dates w)) (uuids w)).

Definition reachable (w : World) : Prop :=
  exists reqs, w = run reqs boot.

End WithEnvironment.

(** *** Notions used to state the properties of the ledger *)

(** The votes of the ledger for an election, and for one of its
    candidates; the candidates of an election. *)
Definition votes_of (e : Z) (vs : list Vote.t) : list Vote.t :=
  filter (fun v => Vote.electionId v = e) vs.

Definition votes_for (e c : Z) (vs : list Vote.t) : list Vote.t :=
  filter (fun v => Vote.electionId v = e /\ Vote.candidateId v = c) vs.

Definition candidates_of (e : Z) (cs : list Candidate.t) : list Candidate.t :=
  filter (fun c => Candidate.electionId c = e) cs.

(** A wallet has a vote in an election of the ledger. *)
Definition has_voted (wallet : string) (e : Z) (vs : list Vote.t) : Prop :=
  exists v, v ∈ vs /\ toLowerCase (Vote.walletAddress v) = wallet /\ Vote.electionId v = e.

(** The candidate list and the election list after the two updates of
    [recompute], as functions of the ledger. *)
Definition recount (e : Z) (vs : list Vote.t) (cs : list Candidate.t) : list Candidate.t :=
  let counts := voteCounts e vs in
  let totalVotes := foldl (fun a b => (a + b)%nat) 0%nat (map_to_list counts).*2 in
  (fun candidate =>
     if bool_decide (Candidate.electionId candidate = e) then
       let count := default 0%nat (counts !! Candidate.candidateId candidate) in
       Candidate.mk (Candidate.electionId candidate) (Candidate.candidateId candidate)
         (Candidate.name candidate) (Candidate.party candidate)
         count (percentage_of count totalVotes) (Candidate.addedAt candidate)
     else candidate) <$> cs.

Definition retotal (e : Z) (vs : list Vote.t) (es : list Election.t) : list Election.t :=
  update_first (fun el => Election.electionId el =? e)
    (fun election =>
       Election.mk (Election.electionId election) (Election.title election)
         (Election.description election) (Election.startDate election)
         (Election.endDate election) (Election.status election)
         (length (filter (fun v => Vote.electionId v = e) vs))
         (Election.createdAt election) (Election.contractAddress election)) es.

Definition recomputed (e : Z) (d : DB) : DB :=
  set_elections (retotal e (votes d)) (set_candidates (recount e (votes d)) d).

(** The tail of every successful mutation: a block, an audit entry and
    fresh statistics. *)
Definition committed (s : option Stats.t) (a : AuditEntry.t) (b : Block.t) (d : DB) : DB :=
  set_stats s (set_audit (push a) (set_blockchain (push b) d)).

(** The test [hasVoted] of [recordVote], and its search for the
    candidate. *)
Definition hasVoted (wallet : string) (e : Z) (vs : list Vote.t) : bool :=
  existsb (fun v => String.eqb (toLowerCase (Vote.walletAddress v)) wallet
                    && (Vote.electionId v =? e)) vs.

Definition has_candidate (e c : Z) (cs : list Candidate.t) : bool :=
  existsb (fun x => (Candidate.electionId x =? e) && (Candidate.candidateId x =? c)) cs.

Definition has_election (e : Z) (es : list Election.t) : bool :=
  existsb (fun el => Election.electionId el =? e) es.

(** The test [existing] of [registerVoter]. *)
Definition is_registered (wallet : string) (vs : list Voter.t) : bool :=
  existsb (fun v => String.eqb (toLowerCase (Voter.walletAddress v)) wallet) vs.

(** The window of the spec read on the dates of an election of
    [server.js], where the empty string stands for an absent date:
    [startAt <= now <= endAt]. [getTime] reads a date string as
    milliseconds. *)
Definition window_of (getTime : value -> number) (now : Z) (startDate endDate : string)
    : Prop :=
  (startDate = "" \/ exists t, getTime (VStr startDate) = Int t /\ t <= now)
  /\ (endDate = "" \/ exists t, getTime (VStr endDate) = Int t /\ now <= t).

(** The mutating actions of the dispatch table. *)
Definition mutating (action : Action.t) : bool :=
  match action with
  | Action.registerVoter | Action.createElection | Action.addCandidate
  | Action.recordVote | Action.castVote => true
  | _ => false
  end.

(** What a mutating action writes to the two logs: one audit entry, and
    one numbered block when it succeeds. *)
Definition logs (w : World) (r : Response) (w' : World) : Prop :=
  (exists a, audit (DATABASE w') = (audit (DATABASE w) ++ [a])%list)
  /\ if success r
     then exists b, blockchain (DATABASE w') = (blockchain (DATABASE w) ++ [b])%list
                    /\ Block.blockNumber b = length (blockchain (DATABASE w))
     else blockchain (DATABASE w') = blockchain (DATABASE w).

(** Candidates and elections with their derived fields erased. *)
Definition bare_candidate (c : Candidate.t) : Candidate.t :=
  Candidate.mk (Candidate.electionId c) (Candidate.candidateId c) (Candidate.name c)
    (Candidate.party c) 0 "" (Candidate.addedAt c).

Definition bare_election (el : Election.t) : Election.t :=
  Election.mk (Election.electionId el) (Election.title el) (Election.description el)
    (Election.startDate el) (Election.endDate el) (Election.status el) 0
    (Election.createdAt el) (Election.contractAddress el).

(** The invariant of the database along a run of the server. *)
Record consistent (d : DB) : Prop := {
  elections_dense : forall i el,
    elections d !! i = Some el -> Election.electionId el = Z.of_nat (S i);
  candidates_dense : forall e i c,
    candidates_of e (candidates d) !! i = Some c ->
    Candidate.candidateId c = Z.of_nat (S i);
  candidates_owned : forall c,
    c ∈ candidates d ->
    exists el, el ∈ elections d /\ Election.electionId el = Candidate.electionId c;
  votes_refer : forall v,
    v ∈ votes d ->
    exists c, c ∈ candidates d /\ Candidate.electionId c = Vote.electionId v
              /\ Candidate.candidateId c = Vote.candidateId v;
  votes_normal : forall v,
    v ∈ votes d -> toLowerCase (Vote.walletAddress v) = Vote.walletAddress v;
  votes_once : forall i j v1 v2,
    votes d !! i = Some v1 -> votes d !! j = Some v2 ->
    Vote.walletAddress v1 = Vote.walletAddress v2 ->
    Vote.electionId v1 = Vote.electionId v2 -> i = j;
  candidate_tally : forall c,
    c ∈ candidates d ->
    Candidate.votes c
    = length (votes_for (Candidate.electionId c) (Candidate.candidateId c) (votes d));
  election_tally : forall el,
    el ∈ elections d ->
    Election.totalVotes el = length (votes_of (Election.electionId el) (votes d));
  blocks_numbered : forall i b,
    blockchain d !! i = Some b -> Block.blockNumber b = i;
  elections_active : forall el,
    el ∈ elections d -> Election.status el = "Activa" }.

(** The file holds the database as of the last successful mutation:
    only audit entries of failed actions may be missing from it. *)
Definition synced (w : World) : Prop :=
  forall d, file w = Some d -> exists a, d = set_audit (fun _ => a) (DATABASE w).

Definition world_ok (w : World) : Prop :=
  consistent (DATABASE w) /\ synced w.

(** The transitions of the world that one request can cause. *)
Inductive effect (w w' : World) : Prop :=
| effect_read :
    DATABASE w' = DATABASE w -> file w' = file w -> effect w w'
| effect_failed (a : AuditEntry.t) :
    DATABASE w' = set_audit (push a) (DATABASE w) -> file w' = file w ->
    AuditEntry.status a = "error" ->
    effect w w'
| effect_voter (voter : Voter.t) s a b :
    DATABASE w' = committed s a b (set_voters (push voter) (DATABASE w)) ->
    file w' = Some (DATABASE w') ->
    Block.blockNumber b = length (blockchain (DATABASE w)) ->
    effect w w'
| effect_election (election : Election.t) s a b :
    DATABASE w' = committed s a b (set_elections (push election) (DATABASE w)) ->
    file w' = Some (DATABASE w') ->
    Block.blockNumber b = length (blockchain (DATABASE w)) ->
    Election.electionId election = Z.of_nat (length (elections (DATABASE w))) + 1 ->
    Election.totalVotes election = 0%nat ->
    Election.status election = "Activa" ->
    effect w w'
| effect_candidate (candidate : Candidate.t) s a b :
    DATABASE w' = committed s a b (set_candidates (push candidate) (DATABASE w)) ->
    file w' = Some (DATABASE w') ->
    Block.blockNumber b = length (blockchain (DATABASE w)) ->
    (exists el, el ∈ elections (DATABASE w)
                /\ Election.electionId el = Candidate.electionId candidate) ->
    Candidate.candidateId candidate
    = Z.of_nat (length (candidates_of (Candidate.electionId candidate)
                                      (candidates (DATABASE w)))) + 1 ->
    Candidate.votes candidate = 0%nat ->
    effect w w'
| effect_vote (vote : Vote.t) s a b :
    DATABASE w' = committed s a b
                    (recomputed (Vote.electionId vote) (set_votes (push vote) (DATABASE w))) ->
    file w' = Some (DATABASE w') ->
    Block.blockNumber b = length (blockchain (DATABASE w)) ->
    (exists c, c ∈ candidates (DATABASE w)
               /\ Candidate.electionId c = Vote.electionId vote
               /\ Candidate.candidateId c = Vote.candidateId vote) ->
    toLowerCase (Vote.walletAddress vote) = Vote.walletAddress vote ->
    ~ has_voted (Vote.walletAddress vote) (Vote.electionId vote) (votes (DATABASE w)) ->
    effect w w'
| effect_init s :
    DATABASE w' = set_stats s (default (DATABASE w) (file w)) ->
    file w' = Some (DATABASE w') ->
    blockchain (default (DATABASE w) (file w)) <> [] ->
    effect w w'
| effect_genesis s b :
    DATABASE w' = set_stats s (set_blockchain (push b) (default (DATABASE w) (file w))) ->
    file w' = Some (DATABASE w') ->
    blockchain (default (DATABASE w) (file w)) = [] ->
    Block.blockNumber b = 0%nat ->
    effect w w'
| effect_relayer r :
    DATABASE w' = set_relayerLog (push r) (DATABASE w) ->
    file w' = Some (DATABASE w') ->
    effect w w'.

(** *** The results of an election, and the start of the server *)

Module ResultRow.
Record t : Type := mk {
  name : string; party : string; votes : nat; percentage : float }.
End ResultRow.

Module ResultElection.
Record t : Type := mk { id : Z; title : string; totalVotes : nat }.
End ResultElection.

(** The response of [getResults]. *)
Inductive Results : Type :=
| ResultsFailure (error : string)
| ResultsOf (election : ResultElection.t) (candidates : list ResultRow.t).

Section WithParseFloat.
(** [parseFloat] of the runtime, on the stored percentage strings. *)
Variable parseFloat : string -> float.

Definition getResults (data : gmap string string) : M Results :=
  try_catch
    (match nonzero (parseInt (data !! "electionId")) with
     | Some electionId =>
         db ← get;
         match List.find (fun e => Election.electionId e =? electionId) (elections db) with
         | Some election =>
             let results :=
               sort (fun a b => Z.of_nat (ResultRow.votes b) - Z.of_nat (ResultRow.votes a))
                 ((fun c => ResultRow.mk (Candidate.name c) (Candidate.party c)
                              (Candidate.votes c)
                              (float_or_zero (parseFloat (Candidate.percentage c))))
                    <$> filter (fun c => Candidate.electionId c = electionId)
                               (candidates db)) in
             mret (ResultsOf
                     (ResultElection.mk (Election.electionId election)
                        (Election.title election) (Election.totalVotes election))
                     results)
         | None => throw "Elección no encontrada"
         end
     | None => throw "Election ID es obligatorio"
     end)
    (fun err => mret (ResultsFailure err)).

End WithParseFloat.

(** A new process starts from the initial [DATABASE]; the file is as the
    last write left it, and the oracles go on. *)
Definition restart (w : World) : World :=
  mkWorld DATABASE0 (file w) (dates w) (uuids w).

(** [startServer], up to [app.listen]: the world once the server of a new
    process is ready. *)
Definition startServer (clock uuid : nat -> string) (w : World) : World :=
  (initializeSystem clock uuid (restart w)).2.

(** *** Notions used to state further properties of the server *)

(** The row of [getResults] for a candidate. *)
Definition result_row (parseFloat : string -> float) (c : Candidate.t) : ResultRow.t :=
  ResultRow.mk (Candidate.name c) (Candidate.party c) (Candidate.votes c)
    (float_or_zero (parseFloat (Candidate.percentage c))).

(** What [registerVoter] lets into the registry. *)
Definition valid_voter (v : Voter.t) : Prop :=
  is_wallet (Voter.walletAddress v) = true
  /\ toLowerCase (Voter.walletAddress v) = Voter.walletAddress v
  /\ Voter.name v <> "" /\ Voter.idNumber v <> ""
  /\ Voter.status v = "Activo".

(** Statistics that count the four collections of a database. *)
Definition fresh (st : Stats.t) (d : DB) : Prop :=
  Stats.totalVoters st = length (voters d)
  /\ Stats.totalElections st = length (elections d)
  /\ Stats.totalVotes st = length (votes d)
  /\ Stats.totalCandidates st = length (candidates d).

(** The cached [DATABASE.stats]: exact on voters, elections and votes;
    the candidates may have grown since ([addCandidate] does not refresh
    the cache). *)
Definition stats_ok (d : DB) : Prop :=
  match stats d with
  | None => voters d = [] /\ elections d = [] /\ candidates d = [] /\ votes d = []
  | Some st =>
      Stats.totalVoters st = length (voters d)
      /\ Stats.totalElections st = length (elections d)
      /\ Stats.totalVotes st = length (votes d)
      /\ (Stats.totalCandidates st <= length (candidates d))%nat
  end.

Record registry_ok (d : DB) : Prop := {
  voters_valid : Forall valid_voter (voters d);
  voters_distinct : NoDup (Voter.walletAddress <$> voters d) }.

(** The file lags behind the memory by audit entries of failed actions
    only; with no file, nothing but such entries is in memory. *)
Definition flushed (w : World) : Prop :=
  exists l,
    Forall (fun a => AuditEntry.status a = "error") l
    /\ DATABASE w
       = set_audit (fun saved => (saved ++ l)%list) (default DATABASE0 (file w)).

(** The transitions of the world that one request can cause, with what
    the guards of the action establish. [admins] is
    [CONFIG.ADMIN_ADDRESSES]. *)
Inductive transition (admins : list string) (w w' : World) : Prop :=
| transition_read :
    DATABASE w' = DATABASE w -> file w' = file w -> transition admins w w'
| transition_failed (a : AuditEntry.t) :
    DATABASE w' = set_audit (push a) (DATABASE w) -> file w' = file w ->
    transition admins w w'
| transition_voter (voter : Voter.t) st a b :
    DATABASE w' = committed (Some st) a b (set_voters (push voter) (DATABASE w)) ->
    file w' = Some (DATABASE w') ->
    valid_voter voter ->
    is_registered (Voter.walletAddress voter) (voters (DATABASE w)) = false ->
    fresh st (DATABASE w') ->
    transition admins w w'
| transition_election (election : Election.t) st a b admin :
    DATABASE w' = committed (Some st) a b (set_elections (push election) (DATABASE w)) ->
    file w' = Some (DATABASE w') ->
    admin ∈ admins -> admin <> "" ->
    fresh st (DATABASE w') ->
    transition admins w w'
| transition_candidate (candidate : Candidate.t) a b :
    DATABASE w' = committed (stats (DATABASE w)) a b
                    (set_candidates (push candidate) (DATABASE w)) ->
    file w' = Some (DATABASE w') ->
    has_election (Candidate.electionId candidate) (elections (DATABASE w)) = true ->
    transition admins w w'
| transition_vote (vote : Vote.t) st a b :
    DATABASE w' = committed (Some st) a b
                    (recomputed (Vote.electionId vote) (set_votes (push vote) (DATABASE w))) ->
    file w' = Some (DATABASE w') ->
    has_candidate (Vote.electionId vote) (Vote.candidateId vote)
                  (candidates (DATABASE w)) = true ->
    fresh st (DATABASE w') ->
    transition admins w w'
| transition_init st (genesis : list Block.t) :
    DATABASE w' = set_stats (Some st)
                    (set_blockchain (fun chain => (chain ++ genesis)%list)
                       (default (DATABASE w) (file w))) ->
    file w' = Some (DATABASE w') ->
    fresh st (DATABASE w') ->
    transition admins w w'
| transition_relayer r :
    DATABASE w' = set_relayerLog (push r) (DATABASE w) ->
    file w' = Some (DATABASE w') ->
    transition admins w w'.

(** A database holds what an earlier one held: every collection but the
    audit log has only grown at its end, the cached tallies apart. *)
Definition extends (d d' : DB) : Prop :=
  voters d `prefix_of` voters d'
  /\ (bare_election <$> elections d) `prefix_of` (bare_election <$> elections d')
  /\ (bare_candidate <$> candidates d) `prefix_of` (bare_candidate <$> candidates d')
  /\ votes d `prefix_of` votes d'
  /\ blockchain d `prefix_of` blockchain d'
  /\ relayerLog d `prefix_of` relayerLog d'.

(** What holds of the world after every run from the start. *)
Definition tidy (w : World) : Prop :=
  world_ok w /\ registry_ok (DATABASE w) /\ stats_ok (DATABASE w) /\ flushed w.

End Server.

(** ** [src/backend/backend.js]: the JSON file store

    A request body is an object whose fields are strings or integers.
    Handlers that convert an identifier with [Number] answer [None] on a
    request whose identifier [JS.StringToNumber] does not interpret. *)

Module Backend.
Import JS.

Module Voter.
Record t : Type := mk {
  VoterID : Z; Wallet : value; Name : value; IDNumber : value;
  Email : value; RegisteredAt : string; IP : value }.
End Voter.

Module Election.
Record t : Type := mk {
  ElectionID : Z; Title : value; Description : value;
  StartDate : option value; EndDate : option value;
  CreatedAt : string; TotalVotes : nat }.
End Election.

Module Candidate.
Record t : Type := mk {
  CandidateID : Z; ElectionID : Z; Name : value; Party : value;
  Votes : nat; CreatedAt : string }.
End Candidate.

Module Vote.
Record t : Type := mk {
  VoteID : Z; Wallet : value; ElectionID : Z; CandidateID : Z;
  Timestamp : string }.
End Vote.

(** [data] holds the object [{ electionId, candidateId }] that the code
    stores as JSON text. *)
Module Activity.
Record t : Type := mk {
  time : string; type : string; data : gmap string value }.
End Activity.

(** The content of [database.json]; every request reads it with
    [readDB] and writes it back with [writeDB]. *)
Record DB : Type := mkDB {
  voters : list Voter.t;
  elections : list Election.t;
  candidates : list Candidate.t;
  votes : list Vote.t;
  sysActivity : list Activity.t }.

Definition DEFAULT_DB : DB := mkDB [] [] [] [] [].

Definition push {A : Type} (x : A) (l : list A) : list A := l ++ [x].

Inductive Response : Type :=
| Failure (error : string)
| TooManyRequests
| VoterRegistered (voter : Voter.t)
| ActiveElections (elections : list Election.t)
| Candidates (candidates : list Candidate.t)
| ElectionCreated (election : Election.t)
| CandidateAdded (candidate : Candidate.t)
| VoteCast (vote : Vote.t)
| StatsOf (totalVoters totalElections totalVotes totalCandidates : nat).

Definition success (r : Response) : bool :=
  match r with
  | Failure _ | TooManyRequests => false
  | _ => true
  end.

(** [Math.max(...l)] of a non-empty list. *)
Definition Math_max (l : list Z) : Z :=
  match l with
  | [] => 0
  | x :: l' => foldl Z.max x l'
  end.

(** [nextId(collection, keyName)], on the list of the [keyName] fields. *)
Definition nextId (ids : list Z) : Z :=
  match ids with
  | [] => 1
  | _ => Math_max ids + 1
  end.

(** [a || d] *)
Definition or_value (a : option value) (d : value) : value :=
  default d (truthy_value a).

(** Bounds of the activity window: [-Infinity], [Infinity], or the
    result of [getTime()], which is [NaN] on an invalid date. *)
Inductive bound : Type :=
| MinusInfinity
| PlusInfinity
| Time (t : number).

(** [a <= b] on such numbers: false as soon as one side is [NaN]. *)
Definition le (a b : bound) : bool :=
  match a, b with
  | Time NaN, _ | _, Time NaN => false
  | MinusInfinity, _ => true
  | _, PlusInfinity => true
  | Time (Int x), Time (Int y) => x <=? y
  | _, _ => false
  end.

(** The clock at a request: [Date.now()] and
    [new Date().toISOString()]. *)
Record Clock : Type := mkClock { now : Z; iso : string }.

Section WithDates.
(** [new Date(x).getTime()]: how a stored date value reads as
    milliseconds; [NaN] for an invalid date. *)
Variable getTime : value -> number.

Definition registerVoter (clk : Clock) (body : gmap string value) (db : DB)
    : Response * DB :=
  match truthy_value (body !! "walletAddress"), truthy_value (body !! "name"),
        truthy_value (body !! "idNumber") with
  | Some walletAddress, Some name, Some idNumber =>
      let walletLower := toLowerCase (String_ walletAddress) in
      match List.find
              (fun v => String.eqb
                 (toLowerCase (String_ (or_value (Some (Voter.Wallet v)) (VStr ""))))
                 walletLower) (voters db) with
      | Some _ => (Failure "Wallet ya registrada", db)
      | None =>
          let VoterID := nextId (Voter.VoterID <$> voters db) in
          let voter := Voter.mk VoterID walletAddress name idNumber
                         (or_value (body !! "email") (VStr "")) (iso clk)
                         (or_value (body !! "ipAddress") (VStr "")) in
          (VoterRegistered voter,
           mkDB (push voter (voters db)) (elections db) (candidates db)
                (votes db) (sysActivity db))
      end
  | _, _, _ => (Failure "Campos incompletos", db)
  end.

Definition getActiveElections (clk : Clock) (db : DB) : Response * DB :=
  let active := filter (fun e =>
    let start := match truthy_value (Election.StartDate e) with
                 | Some d => Time (getTime d) | None => MinusInfinity end in
    let end_ := match truthy_value (Election.EndDate e) with
                | Some d => Time (getTime d) | None => PlusInfinity end in
    le start (Time (Int (now clk))) && le (Time (Int (now clk))) end_ = true)
    (elections db) in
  (ActiveElections active, db).

Definition getCandidates (body : gmap string value) (db : DB) : Response * DB :=
  let electionId := body !! "electionId" in
  (Candidates
     (filter (fun c => Some (ToString (Candidate.ElectionID c)) = String_ <$> electionId)
             (candidates db)), db).

Definition createElection (clk : Clock) (body : gmap string value) (db : DB)
    : Response * DB :=
  let id := nextId (Election.ElectionID <$> elections db) in
  let e := Election.mk id
             (or_value (body !! "title") (VStr ("Elección " ++ ToString id)))
             (or_value (body !! "description") (VStr ""))
             (truthy_value (body !! "startDate"))
             (truthy_value (body !! "endDate"))
             (iso clk) 0 in
  (ElectionCreated e,
   mkDB (voters db) (push e (elections db)) (candidates db) (votes db)
        (sysActivity db)).

Definition addCandidate (clk : Clock) (body : gmap string value) (db : DB)
    : option (Response * DB) :=
  match truthy_value (body !! "electionId"), truthy_value (body !! "name") with
  | Some electionId, Some name =>
      let id := nextId (Candidate.CandidateID <$> candidates db) in
      ElectionID ← ToNumber electionId;
      let c := Candidate.mk id ElectionID name
                 (or_value (body !! "party") (VStr "")) 0 (iso clk) in
      Some (CandidateAdded c,
            mkDB (voters db) (elections db) (push c (candidates db)) (votes db)
                 (sysActivity db))
  | _, _ => Some (Failure "electionId y name requeridos", db)
  end.

(** Assignment to a field of the first element that [find] returns. *)
Fixpoint update_first {A : Type} (p : A -> bool) (f : A -> A) (l : list A) : list A :=
  match l with
  | [] => []
  | x :: l' => if p x then f x :: l' else x :: update_first p f l'
  end.

Definition castVote (clk : Clock) (body : gmap string value) (db : DB)
    : option (Response * DB) :=
  match truthy_value (body !! "walletAddress"), truthy_value (body !! "electionId"),
        truthy_value (body !! "candidateId") with
  | Some walletAddress, Some electionId, Some candidateId =>
      let walletLower := toLowerCase (String_ walletAddress) in
      match List.find
              (fun v => String.eqb
                   (toLowerCase (String_ (or_value (Some (Vote.Wallet v)) (VStr ""))))
                   walletLower
                 && String.eqb (ToString (Vote.ElectionID v)) (String_ electionId))
              (votes db) with
      | Some _ => Some (Failure "Ya votó", db)
      | None =>
          let VoteID := nextId (Vote.VoteID <$> votes db) in
          ElectionID ← ToNumber electionId;
          CandidateID ← ToNumber candidateId;
          let vote := Vote.mk VoteID walletAddress ElectionID CandidateID (iso clk) in
          let votes' := push vote (votes db) in
          let candidates' := update_first
            (fun c => String.eqb (ToString (Candidate.CandidateID c)) (String_ candidateId))
            (fun cand => Candidate.mk (Candidate.CandidateID cand)
               (Candidate.ElectionID cand) (Candidate.Name cand) (Candidate.Party cand)
               (Candidate.Votes cand + 1) (Candidate.CreatedAt cand))
            (candidates db) in
          let elections' := update_first
            (fun e => String.eqb (ToString (Election.ElectionID e)) (String_ electionId))
            (fun elect => Election.mk (Election.ElectionID elect) (Election.Title elect)
               (Election.Description elect) (Election.StartDate elect)
               (Election.EndDate elect) (Election.CreatedAt elect)
               (Election.TotalVotes elect + 1))
            (elections db) in
          let activity := Activity.mk (iso clk) "vote"
            {[ "electionId" := electionId; "candidateId" := candidateId ]} in
          Some (VoteCast vote,
                mkDB (voters db) elections' candidates' votes'
                     (push activity (sysActivity db)))
      end
  | _, _, _ => Some (Failure "Faltan datos", db)
  end.

Definition getStats (db : DB) : Response * DB :=
  (StatsOf (length (voters db)) (length (elections db)) (length (votes db))
           (length (candidates db)), db).

(** The server between requests: the file and the [lastCall] table of
    the anti-spam filter. *)
Record World : Type := mkWorld {
  file : DB;
  lastCall : gmap string Z }.

Definition boot : World := mkWorld DEFAULT_DB ∅.

Definition LIMIT_MS : Z := 800.

(** [antiSpam(action)] *)
Definition antiSpam (clk : Clock) (action : string) (w : World) : bool * World :=
  if negb (truthy action) then (true, w)
  else
    match lastCall w !! action with
    | Some t =>
        if negb (t =? 0) && (now clk - t <? LIMIT_MS) then (false, w)
        else (true, mkWorld (file w) (<[ action := now clk ]> (lastCall w)))
    | None => (true, mkWorld (file w) (<[ action := now clk ]> (lastCall w)))
    end.

(** [app.post('/api', ...)]; [getResults] and [getChartData] are not
    modelled ([None]). *)
Definition api (clk : Clock) (action : string) (body : gmap string value) (w : World)
    : option (Response * World) :=
  let (ok, w) := antiSpam clk action w in
  if negb ok then Some (TooManyRequests, w)
  else
    let db := file w in
    let written (r : Response * DB) := (r.1, mkWorld r.2 (lastCall w)) in
    if String.eqb action "registerVoter" then Some (written (registerVoter clk body db))
    else if String.eqb action "getActiveElections" then Some (written (getActiveElections clk db))
    else if String.eqb action "getCandidates" then Some (written (getCandidates body db))
    else if String.eqb action "createElection" then Some (written (createElection clk body db))
    else if String.eqb action "addCandidate" then written <$> addCandidate clk body db
    else if String.eqb action "castVote" then written <$> castVote clk body db
    else if String.eqb action "getResults" then None
    else if String.eqb action "getStats" then Some (written (getStats db))
    else if String.eqb action "getChartData" then None
    else Some (Failure "Acción no soportada", w).

(** What a request to [/api] leaves behind. [getResults] and
    [getChartData], whose answers are not modelled, read the file and
    write nothing: past the request filter they leave the file as it is.
    [None] when [addCandidate] or [castVote] is sent an identifier that
    [ToNumber] does not interpret. *)
Definition step (clk : Clock) (action : string) (body : gmap string value) (w : World)
    : option World :=
  if String.eqb action "getResults" || String.eqb action "getChartData"
  then Some (antiSpam clk action w).2
  else snd <$> api clk action body w.

(** A run of the server: the requests reach [/api] one after the other,
    each with the clock at its arrival. *)
Fixpoint run (reqs : list (Clock * string * gmap string value)) (w : World)
    : option World :=
  match reqs with
  | [] => Some w
  | (clk, action, body) :: reqs' =>
      match step clk action body w with
      | Some w' => run reqs' w'
      | None => None
      end
  end.

End WithDates.

(** *** Notions used to state the properties of the store *)

Definition votes_of (e : Z) (vs : list Vote.t) : list Vote.t :=
  filter (fun v => Vote.ElectionID v = e) vs.

Definition candidates_of (e : Z) (cs : list Candidate.t) : list Candidate.t :=
  filter (fun c => Candidate.ElectionID c = e) cs.

(** The window of the spec, [startAt <= now <= endAt], on a stored
    election: a date that is absent (or falsy) bounds nothing. *)
Definition in_window (getTime : value -> number) (now : Z) (e : Election.t) : Prop :=
  match truthy_value (Election.StartDate e) with
  | None => True
  | Some d => exists t, getTime d = Int t /\ t <= now
  end
  /\ match truthy_value (Election.EndDate e) with
     | None => True
     | Some d => exists t, getTime d = Int t /\ now <= t
     end.

(** The tally equalities of the spec for one election of the store. *)
Definition tally_consistent (db : DB) (e : Election.t) : Prop :=
  sum_list_with Candidate.Votes (candidates_of (Election.ElectionID e) (candidates db))
  = Election.TotalVotes e
  /\ Election.TotalVotes e = length (votes_of (Election.ElectionID e) (votes db)).

(** The requests whose identifiers are interpreted: [electionId] and
    [candidateId], when present, are integers or strings that read as
    signed decimal integers. *)
Definition integer_id (x : option value) : bool :=
  match x with
  | Some v => match ToNumber v with Some _ => true | None => false end
  | None => true
  end.

Definition integer_ids (body : gmap string value) : bool :=
  integer_id (body !! "electionId") && integer_id (body !! "candidateId").

(** Identifiers handed out from the empty collection: 1, 2, ..., n in
    the order of the records. *)
Definition dense (ids : list Z) : Prop :=
  ids = Z.of_nat <$> seq 1 (length ids).

(** The votes of the store that name a candidate identifier. *)
Definition votes_naming (c : Z) (vs : list Vote.t) : list Vote.t :=
  filter (fun v => Vote.CandidateID v = c) vs.

(** What holds of the store after every run from the empty file. *)
Record store_ok (db : DB) : Prop := {
  voter_ids : dense (Voter.VoterID <$> voters db);
  election_ids : dense (Election.ElectionID <$> elections db);
  candidate_ids : dense (Candidate.CandidateID <$> candidates db);
  vote_ids : dense (Vote.VoteID <$> votes db);
  election_counts :
    Forall (fun e => (Election.TotalVotes e
                      <= length (votes_of (Election.ElectionID e) (votes db)))%nat)
           (elections db);
  candidate_counts :
    Forall (fun c => (Candidate.Votes c
                      <= length (votes_naming (Candidate.CandidateID c) (votes db)))%nat)
           (candidates db) }.

End Backend.

(** ** Concrete requests, used to run the two models *)

Module Scenario.
Import JS.

Definition wallet_a : string := "0x00000000000000000000000000000000000000A1".
Definition admin : string := "0x00000000000000000000000000000000000000AD".
Definition epoch : string := "1970-01-01T00:00:00.000Z".

Definition env : gmap string string := {[ "ADMIN_ADDRESSES" := admin ]}.
Definition clock (n : nat) : string := "t" ++ ToString (Z.of_nat n).
Definition uuid (n : nat) : string := "u" ++ ToString (Z.of_nat n).

(** A reading of dates that knows the epoch only: [new Date(epoch).getTime()]
    is 0, and [new Date(n).getTime()] is [n]. *)
Definition getTime (v : value) : number :=
  match v with
  | VNum n => Int n
  | VStr s => if String.eqb s epoch then Int 0 else NaN
  end.

(** Requests to [server.js]. *)
Definition register_a : gmap string string :=
  {[ "walletAddress" := wallet_a; "name" := "Ana"; "idNumber" := "12345678" ]}.
Definition create_e1 : gmap string string :=
  {[ "adminAddress" := admin; "title" := "E1" ]}.
Definition create_past : gmap string string :=
  {[ "adminAddress" := admin; "title" := "E0"; "endDate" := epoch ]}.
Definition create_no_admin : gmap string string := {[ "title" := "E1" ]}.
Definition add_alice : gmap string string := {[ "electionId" := "1"; "name" := "Alice" ]}.
Definition add_bob : gmap string string := {[ "electionId" := "1"; "name" := "Bob" ]}.
Definition vote_a_alice : gmap string string :=
  {[ "walletAddress" := wallet_a; "electionId" := "1"; "candidateId" := "1" ]}.
Definition vote_a_nobody : gmap string string :=
  {[ "walletAddress" := wallet_a; "electionId" := "7"; "candidateId" := "3" ]}.

Definition setup : list (Server.Action.t * gmap string string) :=
  [ (Server.Action.createElection, create_e1);
    (Server.Action.addCandidate, add_alice);
    (Server.Action.addCandidate, add_bob) ].

(** Requests to [backend.js]. *)
Definition clk : Backend.Clock := Backend.mkClock 1700000000000 "2023-11-14T22:13:20.000Z".

Definition later : Backend.Clock := Backend.mkClock 1700000001000 "2023-11-14T22:13:21.000Z".

Definition b_create (title : string) : gmap string value := {[ "title" := VStr title ]}.
Definition b_get (electionId : value) : gmap string value :=
  {[ "electionId" := electionId ]}.
Definition b_add (e : Z) (name : string) : gmap string value :=
  {[ "electionId" := VNum e; "name" := VStr name ]}.
Definition b_cast (electionId candidateId : value) : gmap string value :=
  {[ "walletAddress" := VStr wallet_a; "electionId" := electionId;
     "candidateId" := candidateId ]}.

(** The store after [createElection] and [addCandidate] for one election
    with one candidate. *)
Definition b_one_election : Backend.DB :=
  let db1 := (Backend.createElection clk (b_create "E1") Backend.DEFAULT_DB).2 in
  match Backend.addCandidate clk (b_add 1 "Alice") db1 with
  | Some (_, db2) => db2
  | None => db1
  end.

(** Five requests to [/api]: an election, a candidate, two casts of
    [wallet_a], the second a second later with the election written [01],
    and a query of the results. *)
Definition b_requests : list (Backend.Clock * string * gmap string value) :=
  [ (clk, "createElection", b_create "E1");
    (clk, "addCandidate", b_add 1 "Alice");
    (clk, "castVote", b_cast (VNum 1) (VNum 1));
    (later, "castVote", b_cast (VStr "01") (VNum 1));
    (later, "getResults", b_get (VNum 1)) ].

(** Two requests that come between two casts. *)
Definition b_between : list (Backend.Clock * string * gmap string value) :=
  [ (later, "createElection", b_create "E2");
    (later, "getChartData", b_get (VNum 1)) ].

(** The store after two [createElection]. *)
Definition b_two_elections : Backend.DB :=
  (Backend.createElection clk (b_create "E2")
     (Backend.createElection clk (b_create "E1") Backend.DEFAULT_DB).2).2.

End Scenario.

(** * Properties *)

(** ** Facts about the runtime fragment *)

Section RuntimeFacts.
Import JS.

Lemma lower_char_idem c : lower_char (lower_char c) = lower_char c.
Proof. destruct c as [[] [] [] [] [] [] [] []]; reflexivity. Qed.

Lemma toLowerCase_idem s : toLowerCase (toLowerCase s) = toLowerCase s.
Proof.
  induction s as [|c s IH]; cbn; [done|].
  by rewrite lower_char_idem, IH.
Qed.

Lemma lowered_String c s :
  toLowerCase (String c s) = String c s <-> lower_char c = c /\ toLowerCase s = s.
Proof.
  cbn. split.
  - intros [= H1 H2]. done.
  - intros [H1 H2]. by rewrite H1, H2.
Qed.

Lemma trimStart_lowered s : toLowerCase s = s -> toLowerCase (trimStart s) = trimStart s.
Proof.
  induction s as [|c s IH]; cbn [trimStart]; [done|]. intros H.
  destruct (is_space c); [|done].
  apply IH. by apply lowered_String in H as [_ ?].
Qed.

Lemma trimEnd_lowered s : toLowerCase s = s -> toLowerCase (trimEnd s) = trimEnd s.
Proof.
  induction s as [|c s IH]; cbn [trimEnd]; [done|]. intros H.
  apply lowered_String in H as [Hc Hs]. specialize (IH Hs).
  destruct (trimEnd s) as [|c' t].
  - destruct (is_space c); [done|]. by apply lowered_String.
  - by apply lowered_String.
Qed.

(** A wallet read from a request is its own lower-case form. *)
Lemma trim_toLowerCase_lowered s :
  toLowerCase (trim (toLowerCase s)) = trim (toLowerCase s).
Proof. apply trimEnd_lowered, trimStart_lowered, toLowerCase_idem. Qed.

Lemma truthy_nonempty s : truthy s = true <-> s <> "".
Proof.
  unfold truthy. rewrite negb_true_iff. split.
  - intros H ->. by rewrite String.eqb_refl in H.
  - intros H. by apply String.eqb_neq.
Qed.

Lemma nonzero_Some n z : nonzero n = Some z <-> n = Int z /\ z <> 0.
Proof.
  destruct n as [|m]; cbn.
  - split; [done|intros [? _]; done].
  - destruct (Z.eqb_spec m 0) as [->|Hm].
    + split; [done|]. intros [[= <-] ?]. done.
    + split; [intros [= <-]; done|]. by intros [[= ->] _].
Qed.

Lemma find_existsb {A} (p : A -> bool) (l : list A) :
  bool_decide (is_Some (List.find p l)) = existsb p l.
Proof.
  induction l as [|x l IH]; cbn [List.find existsb].
  - apply bool_decide_eq_false_2. by intros [? ?].
  - destruct (p x); cbn [orb]; [|done].
    by apply bool_decide_eq_true_2.
Qed.

End RuntimeFacts.

(** ** [server.js]: what each action does to the world *)

Section ServerRuns.
Import JS Server.
Variable env : gmap string string.
Variable clock : nat -> string.
Variable uuid : nat -> string.

Abbreviation registerVoter := (registerVoter clock uuid).
Abbreviation createElection := (createElection env clock uuid).
Abbreviation addCandidate := (addCandidate clock uuid).
Abbreviation recordVote := (recordVote clock uuid).
Abbreviation failed := (failed clock).

(** One equation per statement form: how it runs in front of its
    continuation. *)
Lemma try_catch_run {A} (body : M A) h w :
  try_catch body h w
  = match body w with
    | (Return a, w') => (Return a, w')
    | (Throw e, w') => h e w'
    end.
Proof. reflexivity. Qed.

Lemma bind_get {A} (f : DB -> M A) w : (get ≫= f) w = f (DATABASE w) w.
Proof. reflexivity. Qed.

Lemma bind_modify {A} g (f : unit -> M A) w :
  (modify g ≫= f) w = f tt (mkWorld (g (DATABASE w)) (file w) (dates w) (uuids w)).
Proof. reflexivity. Qed.

Lemma bind_when_throw {A} c msg (f : unit -> M A) w :
  c = true -> (when c (throw msg) ≫= f) w = (Throw msg, w).
Proof. intros ->. reflexivity. Qed.

Lemma bind_when_skip {A} c m (f : unit -> M A) w :
  c = false -> (when c m ≫= f) w = f tt w.
Proof. intros ->. reflexivity. Qed.

Lemma bind_new_Date {A} (f : string -> M A) w :
  (new_Date clock ≫= f) w
  = f (clock (dates w)) (mkWorld (DATABASE w) (file w) (S (dates w)) (uuids w)).
Proof. reflexivity. Qed.

Lemma bind_logBlockchain {A} action details (f : unit -> M A) w :
  (logBlockchain clock uuid action details ≫= f) w
  = f tt (mkWorld
            (set_blockchain
               (push (Block.mk (clock (dates w)) action details (uuid (uuids w))
                               (length (blockchain (DATABASE w)))))
               (DATABASE w))
            (file w) (S (dates w)) (S (uuids w))).
Proof. reflexivity. Qed.

Lemma bind_logAudit {A} action user details status error (f : unit -> M A) w :
  (logAudit clock action user details status error ≫= f) w
  = f tt (mkWorld
            (set_audit
               (push (AuditEntry.mk (clock (dates w)) action user details status error))
               (DATABASE w))
            (file w) (S (dates w)) (uuids w)).
Proof. reflexivity. Qed.

Lemma bind_updateStats {A} (f : unit -> M A) w :
  (updateStats clock ≫= f) w
  = f tt (mkWorld
            (set_stats
               (Some (Stats.mk (length (voters (DATABASE w)))
                               (length (elections (DATABASE w)))
                               (length (votes (DATABASE w)))
                               (length (candidates (DATABASE w)))
                               (clock (dates w))))
               (DATABASE w))
            (file w) (S (dates w)) (uuids w)).
Proof. reflexivity. Qed.

Lemma bind_saveDatabase {A} (f : unit -> M A) w :
  (saveDatabase ≫= f) w
  = f tt (mkWorld (DATABASE w) (Some (DATABASE w)) (dates w) (uuids w)).
Proof. reflexivity. Qed.

Lemma bind_loadDatabase {A} (f : unit -> M A) w :
  (loadDatabase ≫= f) w
  = f tt (mkWorld (default (DATABASE w) (file w)) (file w) (dates w) (uuids w)).
Proof. reflexivity. Qed.

Lemma bind_updateCandidateVotes {A} e (f : unit -> M A) w :
  (updateCandidateVotes e ≫= f) w
  = f tt (mkWorld (set_candidates (recount e (votes (DATABASE w))) (DATABASE w))
                  (file w) (dates w) (uuids w)).
Proof. reflexivity. Qed.

Lemma bind_updateElectionTotalVotes {A} e (f : unit -> M A) w :
  (updateElectionTotalVotes e ≫= f) w
  = f tt (mkWorld (set_elections (retotal e (votes (DATABASE w))) (DATABASE w))
                  (file w) (dates w) (uuids w)).
Proof. reflexivity. Qed.

Lemma bind_uuidv4 {A} (f : string -> M A) w :
  (uuidv4 uuid ≫= f) w
  = f (uuid (uuids w)) (mkWorld (DATABASE w) (file w) (dates w) (S (uuids w))).
Proof. reflexivity. Qed.

Lemma bind_when_run {A} c m (f : unit -> M A) w :
  c = true -> (when c m ≫= f) w = (m ≫= f) w.
Proof. intros ->. reflexivity. Qed.

Lemma bind_assoc {A B C} (m : M A) (g : A -> M B) (f : B -> M C) w :
  ((m ≫= g) ≫= f) w = (m ≫= fun x => g x ≫= f) w.
Proof.
  unfold mbind, M_bind. destruct (m w) as [[a|e] w']; reflexivity.
Qed.

Lemma run_mret {A} (a : A) (w : World) : (mret a : M A) w = (Return a, w).
Proof. reflexivity. Qed.

Lemma run_throw {A} msg (w : World) : @throw A msg w = (Throw msg, w).
Proof. reflexivity. Qed.

Lemma failed_run action user data err (w : World) :
  (logAudit clock action user (VStr <$> data) "error" err;; mret (Failure err) : M Response) w
  = failed action user data err w.
Proof. reflexivity. Qed.

End ServerRuns.

(** Runs the statements at the head of the left-hand side, one equation
    each; a guard is decided by a hypothesis on its condition. *)
Ltac guard_known :=
  first [ eassumption | rewrite find_existsb; eassumption ].

Ltac run_statement :=
  lazymatch goal with
  | |- (?m ≫= _) _ = _ =>
      lazymatch m with
      | Server.get => rewrite bind_get
      | Server.modify _ => rewrite bind_modify
      | Server.new_Date _ => rewrite bind_new_Date
      | Server.uuidv4 _ => rewrite bind_uuidv4
      | _ ≫= _ => rewrite bind_assoc
      | Server.logBlockchain _ _ _ _ => rewrite bind_logBlockchain
      | Server.logAudit _ _ _ _ _ _ => rewrite bind_logAudit
      | Server.updateStats _ => rewrite bind_updateStats
      | Server.saveDatabase => rewrite bind_saveDatabase
      | Server.loadDatabase => rewrite bind_loadDatabase
      | Server.updateCandidateVotes _ => rewrite bind_updateCandidateVotes
      | Server.updateElectionTotalVotes _ => rewrite bind_updateElectionTotalVotes
      | Server.when _ (Server.throw _) =>
          first [ rewrite bind_when_skip by guard_known
                | rewrite bind_when_throw by guard_known ]
      | Server.when _ _ =>
          first [ rewrite bind_when_skip by guard_known
                | rewrite bind_when_run by guard_known ]
      end
  | |- mret _ _ = _ => rewrite run_mret
  | |- Server.throw _ _ = _ => rewrite run_throw
  end;
  cbn [Server.DATABASE Server.file Server.dates Server.uuids].

Ltac run_statements := repeat run_statement.

(** Runs the body of a [try] block, then its [catch] block if it threw. *)
Ltac run_try :=
  rewrite try_catch_run;
  lazymatch goal with
  | |- match ?body with _ => _ end = _ =>
      let H := fresh "Hbody" in
      eassert (H : body = _) by (run_statements; reflexivity);
      rewrite H; clear H; cbv beta iota
  end.

Section ServerActions.
Import JS Server.
Variable env : gmap string string.
Variable clock : nat -> string.
Variable uuid : nat -> string.

Lemma recompute_run e w :
  recompute e w
  = (Return tt, mkWorld (recomputed e (DATABASE w)) (file w) (dates w) (uuids w)).
Proof. reflexivity. Qed.

Lemma registerVoter_run data w :
  let wallet := voter_wallet data in
  let name := trim (or_else (data !! "name") "") in
  let idNumber := trim (or_else (or (data !! "idNumber") (data !! "dni")) "") in
  let user := or_else (data !! "walletAddress") "unknown" in
  if negb (truthy wallet) || negb (truthy name) || negb (truthy idNumber) then
    registerVoter clock uuid data w =
      failed clock "registerVoter" user data
        "Datos incompletos: wallet, nombre y DNI son obligatorios" w
  else if negb (is_wallet wallet) then
    registerVoter clock uuid data w =
      failed clock "registerVoter" user data "Dirección de wallet inválida" w
  else if existsb (fun v => String.eqb (toLowerCase (Voter.walletAddress v)) wallet)
                  (voters (DATABASE w)) then
    registerVoter clock uuid data w =
      failed clock "registerVoter" user data "Votante ya registrado con esta wallet" w
  else
    exists voter s a b n,
      let D := committed s a b (set_voters (push voter) (DATABASE w)) in
      registerVoter clock uuid data w =
        (Return (Registered "✅ Votante registrado correctamente" wallet),
         mkWorld D (Some D) n (S (uuids w)))
      /\ Voter.walletAddress voter = wallet
      /\ Block.blockNumber b = length (blockchain (DATABASE w)).
Proof.
  intros wallet name idNumber user.
  destruct (negb (truthy wallet) || negb (truthy name) || negb (truthy idNumber)) eqn:E1;
    [|destruct (negb (is_wallet wallet)) eqn:E2;
      [|destruct (existsb _ _) eqn:E3]];
    unfold registerVoter; cbv zeta;
    fold (voter_wallet data); fold wallet name idNumber user.
  - run_try. apply failed_run.
  - run_try. apply failed_run.
  - run_try. apply failed_run.
  - do 5 eexists. split; [run_try; reflexivity|]. split; reflexivity.
Qed.

Lemma createElection_run data w :
  let admin := trim (toLowerCase (or_else (data !! "adminAddress") "")) in
  let title := trim (or_else (data !! "title") "") in
  let user := or_else (data !! "adminAddress") "unknown" in
  if negb (truthy admin) || negb (truthy title) then
    createElection env clock uuid data w =
      failed clock "createElection" user data
        "Dirección de admin y título son obligatorios" w
  else if negb (bool_decide (admin ∈ ADMIN_ADDRESSES (CONFIG env))) then
    createElection env clock uuid data w =
      failed clock "createElection" user data "No autorizado: dirección no es admin" w
  else
    exists election message s a b n,
      let D := committed s a b (set_elections (push election) (DATABASE w)) in
      createElection env clock uuid data w =
        (Return (ElectionCreated message
                   (Z.of_nat (length (elections (DATABASE w))) + 1)),
         mkWorld D (Some D) n (S (uuids w)))
      /\ Election.electionId election = Z.of_nat (length (elections (DATABASE w))) + 1
      /\ Election.title election = title
      /\ Election.totalVotes election = 0%nat
      /\ Election.status election = "Activa"
      /\ Election.startDate election = or_else (data !! "startDate") ""
      /\ Election.endDate election = or_else (data !! "endDate") ""
      /\ Block.blockNumber b = length (blockchain (DATABASE w)).
Proof.
  intros admin title user.
  destruct (negb (truthy admin) || negb (truthy title)) eqn:E1;
    [|destruct (negb (bool_decide (admin ∈ ADMIN_ADDRESSES (CONFIG env)))) eqn:E2];
    unfold createElection; cbv zeta; fold admin title user.
  - run_try. apply failed_run.
  - run_try. apply failed_run.
  - do 6 eexists. split; [run_try; reflexivity|]. repeat split; reflexivity.
Qed.

Lemma addCandidate_run data w :
  let name := trim (or_else (data !! "name") "") in
  match nonzero (parseInt (or (data !! "electionId") (data !! "election"))), truthy name with
  | Some e, true =>
      if negb (existsb (fun el => Election.electionId el =? e) (elections (DATABASE w))) then
        addCandidate clock uuid data w =
          failed clock "addCandidate" "system" data "Elección no encontrada" w
      else
        exists candidate a b n,
          let D := committed (stats (DATABASE w)) a b
                     (set_candidates (push candidate) (DATABASE w)) in
          addCandidate clock uuid data w =
            (Return (CandidateAdded "✅ Candidato agregado"
                       (Z.of_nat (length (candidates_of e (candidates (DATABASE w)))) + 1)),
             mkWorld D (Some D) n (S (uuids w)))
          /\ Candidate.electionId candidate = e
          /\ Candidate.candidateId candidate
             = Z.of_nat (length (candidates_of e (candidates (DATABASE w)))) + 1
          /\ Candidate.votes candidate = 0%nat
          /\ Block.blockNumber b = length (blockchain (DATABASE w))
  | _, _ =>
      addCandidate clock uuid data w =
        failed clock "addCandidate" "system" data "Election ID y nombre son obligatorios" w
  end.
Proof.
  intros name.
  destruct (nonzero _) as [e|] eqn:E1;
    [destruct (truthy name) eqn:E2;
      [destruct (negb (existsb _ _)) eqn:E3|]|];
    unfold addCandidate; cbv zeta; fold name; rewrite ?E1, ?E2.
  - run_try. apply failed_run.
  - do 4 eexists. split; [run_try; reflexivity|]. repeat split; reflexivity.
  - run_try. apply failed_run.
  - run_try. apply failed_run.
Qed.

Lemma recordVote_run data w :
  let wallet := vote_wallet data in
  let user := or_else (data !! "walletAddress") "unknown" in
  match truthy wallet, nonzero (parseInt (data !! "electionId")),
        nonzero (parseInt (data !! "candidateId")) with
  | true, Some e, Some c =>
      if existsb (fun v => String.eqb (toLowerCase (Vote.walletAddress v)) wallet
                           && (Vote.electionId v =? e)) (votes (DATABASE w)) then
        recordVote clock uuid data w =
          failed clock "recordVote" user data
            "El votante ya emitió su voto en esta elección" w
      else if negb (existsb (fun x => (Candidate.electionId x =? e)
                                      && (Candidate.candidateId x =? c))
                            (candidates (DATABASE w))) then
        recordVote clock uuid data w =
          failed clock "recordVote" user data "Candidato no encontrado" w
      else
        exists vote s a b n,
          let D := committed s a b (recomputed e (set_votes (push vote) (DATABASE w))) in
          recordVote clock uuid data w =
            (Return (VoteRecorded "🗳️ Voto registrado correctamente"
                       (or_else (or (data !! "txHash") (data !! "transactionHash")) "")),
             mkWorld D (Some D) n (S (uuids w)))
          /\ Vote.walletAddress vote = wallet
          /\ Vote.electionId vote = e
          /\ Vote.candidateId vote = c
          /\ Block.blockNumber b = length (blockchain (DATABASE w))
  | _, _, _ =>
      recordVote clock uuid data w =
        failed clock "recordVote" user data "Datos incompletos para registrar voto" w
  end.
Proof.
  intros wallet user.
  destruct (truthy wallet) eqn:E1;
    [destruct (nonzero (parseInt (data !! "electionId"))) as [e|] eqn:E2;
      [destruct (nonzero (parseInt (data !! "candidateId"))) as [c|] eqn:E3;
        [destruct (existsb _ (votes _)) eqn:E4;
          [|destruct (negb (existsb _ (candidates _))) eqn:E5]|]|]|];
    unfold recordVote; cbv zeta;
    fold (vote_wallet data); fold wallet user; rewrite ?E1, ?E2, ?E3.
  - run_try. apply failed_run.
  - run_try. apply failed_run.
  - do 5 eexists. split; [run_try; reflexivity|]. repeat split; reflexivity.
  - run_try. apply failed_run.
  - run_try. apply failed_run.
  - run_try. apply failed_run.
Qed.

End ServerActions.

(** ** [server.js]: the invariant and its preservation *)

(** Reads the fields of an updated database. *)
Ltac fields :=
  cbn [Server.voters Server.elections Server.candidates Server.votes
       Server.blockchain Server.audit Server.stats Server.relayerLog
       Server.set_voters Server.set_elections Server.set_candidates
       Server.set_votes Server.set_blockchain Server.set_audit Server.set_stats
       Server.set_relayerLog Server.committed Server.recomputed] in *.

Section ServerInvariant.
Import JS Server.

Lemma update_first_lookup {A} (p : A -> bool) (f : A -> A) (l : list A) i x :
  update_first p f l !! i = Some x ->
  exists y, l !! i = Some y /\
    ((p y = true /\ x = f y) \/
     (x = y /\ (p y = false \/ exists j y', (j < i)%nat /\ l !! j = Some y' /\ p y' = true))).
Proof.
  revert i. induction l as [|a l IH]; intros i; cbn [update_first]; [done|].
  destruct (p a) eqn:Pa.
  - destruct i as [|i]; cbn.
    + intros [= <-]. exists a. split; [done|]. left. done.
    + intros H. exists x. split; [done|]. right. split; [done|]. right.
      exists 0%nat, a. split; [lia|]. done.
  - destruct i as [|i]; cbn.
    + intros [= <-]. exists a. split; [done|]. right. split; [done|]. by left.
    + intros H. apply IH in H as (y & Hy & Hcase). exists y. split; [done|].
      destruct Hcase as [?|[-> [?|(j & y' & Hj & Hy' & Py')]]]; [by left|right..].
      * split; [done|]. by left.
      * split; [done|]. right. exists (S j), y'. split; [lia|]. done.
Qed.

Lemma update_first_elem {A} (p : A -> bool) (f : A -> A) (l : list A) y :
  y ∈ l -> y ∈ update_first p f l \/ f y ∈ update_first p f l.
Proof.
  induction l as [|a l IH]; cbn [update_first]; [by intros ?%elem_of_nil|].
  intros [->|Hy]%elem_of_cons.
  - destruct (p a); [right|left]; apply elem_of_cons; by left.
  - destruct (p a).
    + left. apply elem_of_cons. by right.
    + destruct (IH Hy); [left|right]; apply elem_of_cons; by right.
Qed.

Lemma votes_of_push e v vs :
  votes_of e (push v vs)
  = if decide (Vote.electionId v = e) then (votes_of e vs ++ [v])%list else votes_of e vs.
Proof.
  unfold votes_of, push. rewrite filter_app.
  destruct (decide (Vote.electionId v = e)).
  - by rewrite (filter_cons_True _ v []).
  - rewrite (filter_cons_False _ v []) by done. by rewrite app_nil_r.
Qed.

Lemma votes_for_push e c v vs :
  votes_for e c (push v vs)
  = if decide (Vote.electionId v = e /\ Vote.candidateId v = c)
    then (votes_for e c vs ++ [v])%list else votes_for e c vs.
Proof.
  unfold votes_for, push. rewrite filter_app.
  destruct (decide (Vote.electionId v = e /\ Vote.candidateId v = c)).
  - by rewrite (filter_cons_True _ v []).
  - rewrite (filter_cons_False _ v []) by done. by rewrite app_nil_r.
Qed.

Lemma candidates_of_push e c cs :
  candidates_of e (push c cs)
  = if decide (Candidate.electionId c = e) then (candidates_of e cs ++ [c])%list
    else candidates_of e cs.
Proof.
  unfold candidates_of, push. rewrite filter_app.
  destruct (decide (Candidate.electionId c = e)).
  - by rewrite (filter_cons_True _ c []).
  - rewrite (filter_cons_False _ c []) by done. by rewrite app_nil_r.
Qed.

(** The vote counters of [updateCandidateVotes] count the ledger. *)
Lemma voteCounts_lookup e c vs :
  default 0%nat (voteCounts e vs !! c) = length (votes_for e c vs).
Proof.
  unfold voteCounts, votes_for.
  assert (G : forall (l : list Vote.t) (m : gmap Z nat),
    default 0%nat (foldl (fun counts v =>
        <[ Vote.candidateId v := (default 0 (counts !! Vote.candidateId v) + 1)%nat ]> counts)
        m l !! c)
    = (default 0%nat (m !! c) + length (filter (fun v => Vote.candidateId v = c) l))%nat).
  { induction l as [|v l IH]; intros m; [cbn; lia|]. cbn [foldl].
    rewrite IH. destruct (decide (Vote.candidateId v = c)) as [Heq|Hne].
    - rewrite filter_cons_True by done. rewrite Heq, lookup_insert_eq. cbn. lia.
    - rewrite lookup_insert_ne, filter_cons_False by done. lia. }
  rewrite G, lookup_empty. cbn. rewrite list_filter_filter.
  f_equal. apply list_filter_iff. tauto.
Qed.

Lemma foldl_add_sum (l : list nat) (a : nat) :
  foldl (fun a b => (a + b)%nat) a l = (a + sum_list l)%nat.
Proof.
  revert a; induction l as [|x l IH]; intros a; cbn; [lia|]. rewrite IH. lia.
Qed.

(** [Object.values(voteCounts).reduce(...)] is the number of votes of the
    election. *)
Lemma voteCounts_total e vs :
  foldl (fun a b => (a + b)%nat) 0%nat (map_to_list (voteCounts e vs)).*2
  = length (votes_of e vs).
Proof.
  rewrite foldl_add_sum. cbn. unfold voteCounts, votes_of.
  assert (G : forall (l : list Vote.t) (m : gmap Z nat),
    sum_list (map_to_list (foldl (fun counts v =>
        <[ Vote.candidateId v := (default 0 (counts !! Vote.candidateId v) + 1)%nat ]> counts)
        m l)).*2
    = (sum_list (map_to_list m).*2 + length l)%nat).
  { induction l as [|v l IH]; intros m; cbn; [lia|].
    rewrite IH. set (k := Vote.candidateId v).
    destruct (m !! k) as [x|] eqn:E; cbn.
    - rewrite <- (insert_delete_eq m k (x + 1)%nat).
      rewrite <- (insert_delete_id m k x E) at 2.
      rewrite !map_to_list_insert by apply lookup_delete_eq. cbn. lia.
    - rewrite map_to_list_insert by done. cbn. lia. }
  rewrite G, map_to_list_empty. cbn. done.
Qed.

(** [recount] keeps the identity of every candidate and sets its counter
    from the ledger. *)
Lemma recount_elem e vs cs c' :
  c' ∈ recount e vs cs <->
  exists c, c ∈ cs /\ bare_candidate c' = bare_candidate c /\
    ((Candidate.electionId c = e /\
      Candidate.votes c' = length (votes_for e (Candidate.candidateId c) vs) /\
      Candidate.percentage c'
      = percentage_of (length (votes_for e (Candidate.candidateId c) vs))
                      (length (votes_of e vs)))
     \/ (Candidate.electionId c <> e /\ c' = c)).
Proof.
  unfold recount. rewrite list_elem_of_fmap. split.
  - intros (c & -> & Hc). exists c. split; [done|]. case_bool_decide.
    + split; [done|]. left. cbn. rewrite voteCounts_lookup, voteCounts_total. done.
    + split; [done|]. by right.
  - intros (c & Hc & Hb & Hcase). exists c. split; [|done].
    case_bool_decide; destruct Hcase as [(He & Hv & Hp)|[Hne ->]]; try done.
    cbv zeta. rewrite voteCounts_lookup, voteCounts_total, <- Hp, <- Hv.
    destruct c', c; cbn in *. by simplify_eq.
Qed.

Lemma candidates_of_recount e' e vs cs :
  candidates_of e' (recount e vs cs) = recount e vs (candidates_of e' cs).
Proof.
  unfold candidates_of, recount. cbv zeta.
  induction cs as [|c cs IH]; [done|].
  rewrite fmap_cons.
  destruct (decide (Candidate.electionId c = e')) as [Hc|Hc].
  - rewrite (filter_cons_True _ c) by done. rewrite fmap_cons, <- IH.
    apply filter_cons_True. by case_bool_decide.
  - rewrite (filter_cons_False _ c) by done. rewrite <- IH.
    apply filter_cons_False. by case_bool_decide.
Qed.

Lemma recount_lookup e vs cs i c' :
  recount e vs cs !! i = Some c' ->
  exists c, cs !! i = Some c /\ bare_candidate c' = bare_candidate c.
Proof.
  unfold recount. cbv zeta. rewrite list_lookup_fmap.
  destruct (cs !! i) as [c|]; [|done]. cbn. intros [= <-].
  exists c. split; [done|]. by case_bool_decide.
Qed.

Lemma consistent_ext d d' :
  elections d' = elections d -> candidates d' = candidates d ->
  votes d' = votes d -> blockchain d' = blockchain d ->
  consistent d -> consistent d'.
Proof.
  intros He Hc Hv Hb [H1 H2 H3 H4 H5 H6 H7 H8 H9 H10].
  split; rewrite ?He, ?Hc, ?Hv, ?Hb; assumption.
Qed.

Lemma consistent_set_audit f d : consistent d -> consistent (set_audit f d).
Proof. apply consistent_ext; reflexivity. Qed.

Lemma consistent_set_stats s d : consistent d -> consistent (set_stats s d).
Proof. apply consistent_ext; reflexivity. Qed.

Lemma consistent_set_voters f d : consistent d -> consistent (set_voters f d).
Proof. apply consistent_ext; reflexivity. Qed.

Lemma consistent_set_relayerLog f d : consistent d -> consistent (set_relayerLog f d).
Proof. apply consistent_ext; reflexivity. Qed.

Lemma consistent_block d b :
  consistent d -> Block.blockNumber b = length (blockchain d) ->
  consistent (set_blockchain (push b) d).
Proof.
  intros [H1 H2 H3 H4 H5 H6 H7 H8 H9 H10] Hb. split; try assumption.
  fields. unfold push. intros i b' [[_ Hi]|[-> <-]]%lookup_snoc_Some; [by apply H9|done].
Qed.

Lemma consistent_committed s a b d :
  consistent d -> Block.blockNumber b = length (blockchain d) ->
  consistent (committed s a b d).
Proof.
  intros Hd Hb. unfold committed.
  by apply consistent_set_stats, consistent_set_audit, consistent_block.
Qed.

Lemma dense_bound (d : DB) el :
  consistent d -> el ∈ elections d ->
  1 <= Election.electionId el <= Z.of_nat (length (elections d)).
Proof.
  intros Hd (i & Hi)%list_elem_of_lookup.
  rewrite (elections_dense d Hd i el Hi).
  apply lookup_lt_Some in Hi. lia.
Qed.

Lemma candidate_bound (d : DB) c :
  consistent d -> c ∈ candidates d ->
  1 <= Candidate.candidateId c
    <= Z.of_nat (length (candidates_of (Candidate.electionId c) (candidates d))).
Proof.
  intros Hd Hc.
  assert (Hin : c ∈ candidates_of (Candidate.electionId c) (candidates d)).
  { apply list_elem_of_filter. done. }
  apply list_elem_of_lookup in Hin as (i & Hi).
  rewrite (candidates_dense d Hd _ i c Hi).
  apply lookup_lt_Some in Hi. lia.
Qed.

Lemma consistent_election d el :
  consistent d ->
  Election.electionId el = Z.of_nat (length (elections d)) + 1 ->
  Election.totalVotes el = 0%nat ->
  Election.status el = "Activa" ->
  consistent (set_elections (push el) d).
Proof.
  intros Hd Hid Htot Hst. pose proof Hd as [H1 H2 H3 H4 H5 H6 H7 H8 H9 H10].
  split; try assumption; fields; unfold push.
  - intros i el' [[_ Hi]|[-> <-]]%lookup_snoc_Some; [by apply H1|]. lia.
  - intros c Hc. destruct (H3 c Hc) as (el' & Hel' & Heq).
    exists el'. split; [|done]. apply elem_of_app. by left.
  - intros el' [Hel'|Hnew%list_elem_of_singleton]%elem_of_app; [by apply H8|].
    subst el'. rewrite Htot. symmetry. apply length_zero_iff_nil.
    apply elem_of_nil_inv. intros v [Hv Hin]%list_elem_of_filter.
    destruct (H4 v Hin) as (c & Hc & Hce & _).
    destruct (H3 c Hc) as (el' & Hel' & Heq).
    pose proof (dense_bound d el' Hd Hel'). lia.
  - intros el' [Hel'|Hnew%list_elem_of_singleton]%elem_of_app; [by apply H10|].
    by subst el'.
Qed.

Lemma consistent_candidate d c :
  consistent d ->
  (exists el, el ∈ elections d /\ Election.electionId el = Candidate.electionId c) ->
  Candidate.candidateId c
  = Z.of_nat (length (candidates_of (Candidate.electionId c) (candidates d))) + 1 ->
  Candidate.votes c = 0%nat ->
  consistent (set_candidates (push c) d).
Proof.
  intros Hd Hel Hid Hv. pose proof Hd as [H1 H2 H3 H4 H5 H6 H7 H8 H9 H10].
  split; try assumption; fields.
  - intros e i c'. rewrite candidates_of_push. case_decide as He.
    + intros [[_ Hi]|[-> <-]]%lookup_snoc_Some; [by eapply H2|]. subst e. lia.
    + apply H2.
  - unfold push. intros c' [Hc'|Hnew%list_elem_of_singleton]%elem_of_app; [by apply H3|].
    by subst c'.
  - intros v Hin. destruct (H4 v Hin) as (c' & Hc' & ?). exists c'.
    split; [|done]. apply elem_of_app. by left.
  - unfold push. intros c' [Hc'|Hnew%list_elem_of_singleton]%elem_of_app; [by apply H7|].
    subst c'. rewrite Hv. symmetry. apply length_zero_iff_nil.
    apply elem_of_nil_inv. intros v [[Hve Hvc] Hin]%list_elem_of_filter.
    destruct (H4 v Hin) as (c' & Hc' & Hce & Hcc).
    pose proof (candidate_bound d c' Hd Hc') as Hb.
    rewrite Hce, Hve in Hb. lia.
Qed.

Lemma consistent_vote d v :
  consistent d ->
  (exists c, c ∈ candidates d /\ Candidate.electionId c = Vote.electionId v
             /\ Candidate.candidateId c = Vote.candidateId v) ->
  toLowerCase (Vote.walletAddress v) = Vote.walletAddress v ->
  ~ has_voted (Vote.walletAddress v) (Vote.electionId v) (votes d) ->
  consistent (recomputed (Vote.electionId v) (set_votes (push v) d)).
Proof.
  intros Hd Hcand Hlow Hnew. pose proof Hd as [H1 H2 H3 H4 H5 H6 H7 H8 H9 H10].
  set (e := Vote.electionId v) in *.
  assert (Hkeep : forall c, c ∈ candidates d ->
            exists c', c' ∈ recount e (push v (votes d)) (candidates d)
                       /\ bare_candidate c' = bare_candidate c).
  { intros c Hc. unfold recount. cbv zeta. eexists. split.
    - apply list_elem_of_fmap. exists c. split; [reflexivity|done].
    - by case_bool_decide. }
  split; fields.
  - intros i el (y & Hy & Hcase)%update_first_lookup.
    rewrite <- (H1 i y Hy). by destruct Hcase as [[_ ->]|[-> _]].
  - intros e' i c'. rewrite candidates_of_recount.
    intros (c & Hc & Hb)%recount_lookup.
    rewrite <- (H2 e' i c Hc). by injection Hb.
  - intros c' (c & Hc & Hb & _)%recount_elem.
    destruct (H3 c Hc) as (el & Hel & Heq).
    assert (Candidate.electionId c' = Candidate.electionId c) as -> by by injection Hb.
    destruct (update_first_elem (fun el => Election.electionId el =? e)
      (fun election =>
         Election.mk (Election.electionId election) (Election.title election)
           (Election.description election) (Election.startDate election)
           (Election.endDate election) (Election.status election)
           (length (filter (fun v => Vote.electionId v = e) (push v (votes d))))
           (Election.createdAt election) (Election.contractAddress election))
      (elections d) el Hel) as [Hin|Hin]; eexists; (split; [exact Hin|done]).
  - unfold push at 1. intros v' [Hv'|Hlast%list_elem_of_singleton]%elem_of_app.
    + destruct (H4 v' Hv') as (c & Hc & Hce & Hcc).
      destruct (Hkeep c Hc) as (c' & Hc' & Hb). exists c'. split; [done|].
      injection Hb as -> ->. done.
    + subst v'. destruct Hcand as (c & Hc & Hce & Hcc).
      destruct (Hkeep c Hc) as (c' & Hc' & Hb). exists c'. split; [done|].
      injection Hb as -> ->. done.
  - unfold push. intros v' [Hv'|Hlast%list_elem_of_singleton]%elem_of_app; [by apply H5|].
    by subst v'.
  - unfold push. intros i j v1 v2 [[_ Hi]|[-> <-]]%lookup_snoc_Some [[_ Hj]|[-> <-]]%lookup_snoc_Some Hw He;
      [by eapply H6| | |done]; exfalso; apply Hnew.
    + exists v1. split; [by eapply list_elem_of_lookup_2|]. split; [|done].
      rewrite <- Hw. apply H5. by eapply list_elem_of_lookup_2.
    + exists v2. split; [by eapply list_elem_of_lookup_2|]. split; [|done].
      rewrite Hw. apply H5. by eapply list_elem_of_lookup_2.
  - intros c' (c & Hc & Hb & Hcase)%recount_elem.
    assert (Candidate.electionId c' = Candidate.electionId c
            /\ Candidate.candidateId c' = Candidate.candidateId c) as [-> ->]
      by (by injection Hb).
    destruct Hcase as [(He & Hv & _)|[Hne ->]].
    + rewrite Hv, He. done.
    + rewrite (H7 c Hc), votes_for_push. case_decide as Hd'; [|done].
      destruct Hd' as [Hd' _]. done.
  - intros el (i & Hi)%list_elem_of_lookup.
    apply update_first_lookup in Hi as (y & Hy & Hcase).
    pose proof (H1 i y Hy) as Hidy.
    destruct Hcase as [[Py ->]|[-> [Py|(j & y' & Hj & Hy' & Py')]]]; cbn.
    + apply Z.eqb_eq in Py. rewrite Py. done.
    + apply Z.eqb_neq in Py.
      rewrite (H8 y) by by eapply list_elem_of_lookup_2.
      rewrite votes_of_push. case_decide; [done|done].
    + apply Z.eqb_eq in Py'. pose proof (H1 j y' Hy') as Hidy'.
      destruct (decide (Election.electionId y = e)) as [Heq|Hneq].
      * lia.
      * rewrite (H8 y) by by eapply list_elem_of_lookup_2.
        rewrite votes_of_push. by case_decide.
  - assumption.
  - intros el (i & Hi)%list_elem_of_lookup.
    apply update_first_lookup in Hi as (y & Hy & Hcase).
    rewrite <- (H10 y) by by eapply list_elem_of_lookup_2.
    by destruct Hcase as [[_ ->]|[-> _]].
Qed.

End ServerInvariant.

(** ** [server.js]: every request is one of the transitions *)

Section ServerSteps.
Import JS Server.
Variable env : gmap string string.
Variable clock : nat -> string.
Variable uuid : nat -> string.

Abbreviation step := (step env clock uuid).
Abbreviation run := (run env clock uuid).
Abbreviation handleAction := (handleAction env clock uuid).

Lemma existsb_has_voted wallet e vs :
  existsb (fun v => String.eqb (toLowerCase (Vote.walletAddress v)) wallet
                    && (Vote.electionId v =? e)) vs = true
  <-> has_voted wallet e vs.
Proof.
  unfold has_voted. rewrite existsb_exists. split.
  - intros (v & Hin & [Hw He]%andb_true_iff). exists v.
    apply String.eqb_eq in Hw. apply Z.eqb_eq in He.
    split; [by apply list_elem_of_In|done].
  - intros (v & Hin & Hw & He). exists v. split; [by apply list_elem_of_In|].
    apply andb_true_iff. split; [by apply String.eqb_eq|by apply Z.eqb_eq].
Qed.

Lemma existsb_candidate e c cs :
  existsb (fun x => (Candidate.electionId x =? e) && (Candidate.candidateId x =? c)) cs = true
  <-> exists x, x ∈ cs /\ Candidate.electionId x = e /\ Candidate.candidateId x = c.
Proof.
  rewrite existsb_exists. split.
  - intros (x & Hin & [H1 H2]%andb_true_iff). exists x.
    apply Z.eqb_eq in H1, H2. split; [by apply list_elem_of_In|done].
  - intros (x & Hin & H1 & H2). exists x. split; [by apply list_elem_of_In|].
    apply andb_true_iff. split; by apply Z.eqb_eq.
Qed.

Lemma existsb_election e es :
  existsb (fun el => Election.electionId el =? e) es = true
  <-> exists el, el ∈ es /\ Election.electionId el = e.
Proof.
  rewrite existsb_exists. split.
  - intros (x & Hin & H1). exists x. apply Z.eqb_eq in H1.
    split; [by apply list_elem_of_In|done].
  - intros (x & Hin & H1). exists x. split; [by apply list_elem_of_In|].
    by apply Z.eqb_eq.
Qed.

Lemma failed_effect action user data err w :
  effect w (failed clock action user data err w).2.
Proof. eapply effect_failed; reflexivity. Qed.

Lemma registerVoter_effect data w : effect w (registerVoter clock uuid data w).2.
Proof.
  pose proof (registerVoter_run clock uuid data w) as H. cbv zeta in H.
  repeat case_match; try (rewrite H; apply failed_effect).
  destruct H as (voter & s & a & b & n & -> & _ & Hb).
  eapply effect_voter; [reflexivity|reflexivity|exact Hb].
Qed.

Lemma createElection_effect data w : effect w (createElection env clock uuid data w).2.
Proof.
  pose proof (createElection_run env clock uuid data w) as H. cbv zeta in H.
  repeat case_match; try (rewrite H; apply failed_effect).
  destruct H as (el & m & s & a & b & n & -> & Hid & _ & Htot & Hst & _ & _ & Hb).
  eapply effect_election; [reflexivity|reflexivity|exact Hb|exact Hid|exact Htot|exact Hst].
Qed.

Lemma addCandidate_effect data w : effect w (addCandidate clock uuid data w).2.
Proof.
  pose proof (addCandidate_run clock uuid data w) as H. cbv zeta in H.
  repeat case_match; try (rewrite H; apply failed_effect).
  destruct H as (c & a & b & n & -> & He & Hid & Hv & Hb).
  eapply effect_candidate; [reflexivity|reflexivity|exact Hb| |by rewrite He|exact Hv].
  rewrite He. apply existsb_election.
  match goal with E : negb _ = false |- _ => by apply negb_false_iff in E end.
Qed.

Lemma recordVote_effect data w : effect w (recordVote clock uuid data w).2.
Proof.
  pose proof (recordVote_run clock uuid data w) as H. cbv zeta in H.
  repeat case_match; try (rewrite H; apply failed_effect).
  destruct H as (v & s & a & b & n & -> & Hw & He & Hc & Hb).
  eapply (effect_vote _ _ v); rewrite ?He, ?Hw, ?Hc; [reflexivity|reflexivity|exact Hb|..].
  - apply existsb_candidate.
    match goal with E : negb _ = false |- _ => by apply negb_false_iff in E end.
  - apply trim_toLowerCase_lowered.
  - intros Hv%existsb_has_voted. congruence.
Qed.

Lemma initializeSystem_run w :
  let D0 := default (DATABASE w) (file w) in
  exists s n m,
    if (length (blockchain D0) =? 0)%nat then
      exists b,
        let D := set_stats s (set_blockchain (push b) D0) in
        initializeSystem clock uuid w
        = (Return (Initialized "✅ Sistema inicializado correctamente"),
           mkWorld D (Some D) n m)
        /\ Block.blockNumber b = 0%nat
    else
      let D := set_stats s D0 in
      initializeSystem clock uuid w
      = (Return (Initialized "✅ Sistema inicializado correctamente"),
         mkWorld D (Some D) n m).
Proof.
  intros D0. subst D0.
  destruct (length (blockchain (default (DATABASE w) (file w))) =? 0)%nat eqn:E;
    unfold initializeSystem.
  - do 4 eexists. split; [run_try; reflexivity|reflexivity].
  - do 3 eexists. run_try. reflexivity.
Qed.

Lemma initializeSystem_effect w : effect w (initializeSystem clock uuid w).2.
Proof.
  destruct (initializeSystem_run w) as (s & n & m & H). cbv zeta in H.
  destruct (length _ =? 0)%nat eqn:E.
  - destruct H as (b & -> & Hb). apply Nat.eqb_eq, length_zero_iff_nil in E.
    eapply effect_genesis; cbn; [reflexivity|reflexivity|exact E|exact Hb].
  - rewrite H. apply Nat.eqb_neq in E.
    eapply effect_init; cbn; [reflexivity|reflexivity|].
    intros Hnil. by rewrite Hnil in E.
Qed.

Lemma step_effect w req : effect w (step w req).
Proof.
  destruct req as [[] data]; unfold Server.step; cbn [fst snd Server.handleAction].
  - apply initializeSystem_effect.
  - apply registerVoter_effect.
  - apply createElection_effect.
  - apply addCandidate_effect.
  - apply recordVote_effect.
  - apply recordVote_effect.
  - by apply effect_read.
  - unfold getCandidates. rewrite try_catch_run.
    destruct (nonzero _); by apply effect_read.
  - by apply effect_read.
  - by eapply effect_relayer.
Qed.

End ServerSteps.

(** ** [server.js]: the invariant holds along every run *)

Section ServerRunsOk.
Import JS Server.
Variable env : gmap string string.
Variable clock : nat -> string.
Variable uuid : nat -> string.

Lemma synced_loaded w :
  synced w -> exists a, default (DATABASE w) (file w) = set_audit (fun _ => a) (DATABASE w).
Proof.
  intros Hs. destruct (file w) as [d|] eqn:E; cbn.
  - by apply Hs.
  - exists (audit (DATABASE w)). by destruct (DATABASE w).
Qed.

Lemma synced_saved w : file w = Some (DATABASE w) -> synced w.
Proof.
  intros E d. rewrite E. intros [= <-]. exists (audit (DATABASE w)).
  by destruct (DATABASE w).
Qed.

Lemma synced_effect w w' : synced w -> effect w w' -> synced w'.
Proof.
  intros Hs [Hd Hf|a Hd Hf _| | | | | | |]; try (by apply synced_saved).
  - intros d. rewrite Hf, Hd. apply Hs.
  - intros d. rewrite Hf, Hd. intros (a0 & ->)%Hs. by exists a0.
Qed.

Lemma consistent_effect w w' :
  synced w -> consistent (DATABASE w) -> effect w w' -> consistent (DATABASE w').
Proof.
  intros Hs Hc.
  assert (Hl : consistent (default (DATABASE w) (file w))).
  { destruct (synced_loaded w Hs) as (a & ->). by apply consistent_set_audit. }
  intros [-> _|a -> _ _|v s a b -> _ Hb|el s a b -> _ Hb Hid Htot Hst
          |c s a b -> _ Hb Hel Hid Hv|v s a b -> _ Hb Hcand Hlow Hnew
          |s -> _ _|s b -> _ Hnil Hb|r -> _].
  - done.
  - by apply consistent_set_audit.
  - apply consistent_committed; [|done]. by apply consistent_set_voters.
  - apply consistent_committed; [|done]. by apply consistent_election.
  - apply consistent_committed; [|done]. by apply consistent_candidate.
  - apply consistent_committed; [|done]. by apply consistent_vote.
  - by apply consistent_set_stats.
  - apply consistent_set_stats, consistent_block; [done|]. by rewrite Hnil.
  - by apply consistent_set_relayerLog.
Qed.

Lemma world_ok_step w req : world_ok w -> world_ok (step env clock uuid w req).
Proof.
  intros [Hc Hs]. pose proof (step_effect env clock uuid w req) as He.
  split; [by eapply consistent_effect|by eapply synced_effect].
Qed.

Lemma run_cons req reqs w :
  run env clock uuid (req :: reqs) w = run env clock uuid reqs (step env clock uuid w req).
Proof. reflexivity. Qed.

Lemma run_snoc reqs req w :
  run env clock uuid (reqs ++ [req]) w = step env clock uuid (run env clock uuid reqs w) req.
Proof. unfold Server.run. by rewrite foldl_snoc. Qed.

Lemma world_ok_run reqs w : world_ok w -> world_ok (run env clock uuid reqs w).
Proof.
  revert w. induction reqs as [|req reqs IH]; intros w Hw; [done|].
  rewrite run_cons. apply IH. by apply world_ok_step.
Qed.

Lemma world_ok_boot : world_ok boot.
Proof.
  split; [|done]. split; cbn; try done; by intros ? ?%elem_of_nil.
Qed.

Lemma reachable_ok w : reachable env clock uuid w -> world_ok w.
Proof. intros (reqs & ->). apply world_ok_run, world_ok_boot. Qed.

(** The ledger and the registry only grow. *)
Lemma votes_effect w w' :
  synced w -> effect w w' ->
  exists l, votes (DATABASE w') = (votes (DATABASE w) ++ l)%list.
Proof.
  intros Hs He. destruct (synced_loaded w Hs) as (a0 & Hl).
  destruct He as [-> _|a -> _ _|v s a b -> _ Hb|el s a b -> _ Hb Hid Htot Hst
          |c s a b -> _ Hb Hel Hid Hv|v s a b -> _ Hb Hcand Hlow Hnew
          |s -> _ _|s b -> _ Hnil Hb|r -> _]; cbn; rewrite ?Hl;
    try (exists []; by rewrite app_nil_r).
  by exists [v].
Qed.


Lemma votes_run reqs w :
  synced w ->
  synced (run env clock uuid reqs w)
  /\ exists l, votes (DATABASE (run env clock uuid reqs w)) = (votes (DATABASE w) ++ l)%list.
Proof.
  revert w. induction reqs as [|req reqs IH]; intros w Hs.
  - split; [done|]. exists []. by rewrite app_nil_r.
  - rewrite run_cons. pose proof (step_effect env clock uuid w req) as He.
    destruct (IH _ (synced_effect _ _ Hs He)) as (Hs' & l & ->).
    split; [done|]. destruct (votes_effect _ _ Hs He) as (l0 & ->).
    exists (l0 ++ l)%list. by rewrite app_assoc.
Qed.


End ServerRunsOk.

(** ** [server.js]: tallies *)

Section ServerTally.
Import JS Server.
Variable env : gmap string string.
Variable clock : nat -> string.
Variable uuid : nat -> string.

Lemma sum_indicator_absent (k : Z) (ids : list Z) :
  k ∉ ids ->
  sum_list_with (fun i => if decide (k = i) then 1%nat else 0%nat) ids = 0%nat.
Proof.
  induction ids as [|j ids IH]; [done|]. intros Hni. cbn.
  rewrite decide_False by (intros ->; apply Hni; by left).
  apply IH. intros ?. apply Hni. by right.
Qed.

Lemma sum_indicator (k : Z) (ids : list Z) :
  NoDup ids -> k ∈ ids ->
  sum_list_with (fun i => if decide (k = i) then 1%nat else 0%nat) ids = 1%nat.
Proof.
  induction 1 as [|i ids Hni Hnd IH]; [by intros ?%elem_of_nil|].
  cbn. intros [->|Hin]%elem_of_cons.
  - rewrite decide_True by done. rewrite sum_indicator_absent by done. done.
  - rewrite decide_False by (intros ->; done). by rewrite IH.
Qed.

Lemma sum_filter_cons {A} (key : A -> Z) (ids : list Z) (x : A) (l : list A) :
  sum_list_with (fun k => length (filter (fun y => key y = k) (x :: l))) ids
  = (sum_list_with (fun k => if decide (key x = k) then 1%nat else 0%nat) ids
     + sum_list_with (fun k => length (filter (fun y => key y = k) l)) ids)%nat.
Proof.
  induction ids as [|k ids IH]; [done|]. cbn [sum_list_with]. rewrite IH.
  destruct (decide (key x = k)) as [Hk|Hk].
  - rewrite filter_cons_True by done. cbn [length]. lia.
  - rewrite filter_cons_False by done. lia.
Qed.

Lemma sum_by_key {A} (key : A -> Z) (ids : list Z) (l : list A) :
  NoDup ids -> (forall x, x ∈ l -> key x ∈ ids) ->
  sum_list_with (fun k => length (filter (fun x => key x = k) l)) ids = length l.
Proof.
  intros Hnd. induction l as [|x l IH]; intros Hin.
  - clear Hnd Hin. induction ids as [|k ids IHk]; [done|]. cbn in *. done.
  - rewrite sum_filter_cons, sum_indicator; [|done|apply Hin; by left].
    rewrite IH by (intros; apply Hin; by right). done.
Qed.

Lemma candidate_ids_dense d e :
  consistent d ->
  Candidate.candidateId <$> candidates_of e (candidates d)
  = Z.of_nat <$> seq 1 (length (candidates_of e (candidates d))).
Proof.
  intros Hd. apply list_eq. intros i.
  rewrite !list_lookup_fmap.
  destruct (candidates_of e (candidates d) !! i) as [c|] eqn:E; cbn.
  - rewrite (candidates_dense d Hd e i c E).
    rewrite lookup_seq_lt by (by eapply lookup_lt_Some). done.
  - rewrite lookup_seq_ge; [done|]. by apply lookup_ge_None.
Qed.

Lemma candidate_ids_NoDup d e :
  consistent d -> NoDup (Candidate.candidateId <$> candidates_of e (candidates d)).
Proof.
  intros Hd. rewrite candidate_ids_dense by done.
  apply NoDup_fmap_2; [apply _|apply NoDup_seq].
Qed.

(** The counters of the candidates of an election add up to the ledger's
    votes for the election. *)
Lemma tally_sum d e :
  consistent d ->
  sum_list_with Candidate.votes (candidates_of e (candidates d))
  = length (votes_of e (votes d)).
Proof.
  intros Hd.
  rewrite <- (sum_by_key Vote.candidateId
                (Candidate.candidateId <$> candidates_of e (candidates d))
                (votes_of e (votes d)) (candidate_ids_NoDup d e Hd)).
  - assert (Hc : forall c, c ∈ candidates_of e (candidates d) ->
              Candidate.votes c
              = length (filter (fun x => Vote.candidateId x = Candidate.candidateId c)
                               (votes_of e (votes d)))).
    { intros c [He Hin]%list_elem_of_filter.
      rewrite (candidate_tally d Hd c Hin), He. unfold votes_for, votes_of.
      rewrite list_filter_filter. f_equal. apply list_filter_iff. tauto. }
    induction (candidates_of e (candidates d)) as [|c cs IH]; [done|].
    cbn. rewrite Hc by (by left). f_equal. apply IH. intros; apply Hc. by right.
  - intros v [He Hin]%list_elem_of_filter.
    destruct (votes_refer d Hd v Hin) as (c & Hc & Hce & Hcc).
    apply list_elem_of_fmap. exists c. split; [done|].
    apply list_elem_of_filter. split; [congruence|done].
Qed.

End ServerTally.

(** ** [server.js]: what a response tells about the action *)

Section ServerResponses.
Import JS Server.
Variable env : gmap string string.
Variable clock : nat -> string.
Variable uuid : nat -> string.

Lemma failed_inv action user data err w r w' :
  failed clock action user data err w = (Return r, w') ->
  r = Failure err
  /\ DATABASE w' = set_audit
       (push (AuditEntry.mk (clock (dates w)) action user (VStr <$> data) "error" err))
       (DATABASE w)
  /\ file w' = file w.
Proof. unfold failed. intros [= <- <-]. done. Qed.

(** A successful [recordVote] passed every guard and appended one vote. *)
Lemma recordVote_success data w r w' :
  recordVote clock uuid data w = (Return r, w') -> success r = true ->
  exists e c vote s a b,
    nonzero (parseInt (data !! "electionId")) = Some e
    /\ nonzero (parseInt (data !! "candidateId")) = Some c
    /\ truthy (vote_wallet data) = true
    /\ Vote.walletAddress vote = vote_wallet data
    /\ Vote.electionId vote = e /\ Vote.candidateId vote = c
    /\ DATABASE w' = committed s a b (recomputed e (set_votes (push vote) (DATABASE w)))
    /\ file w' = Some (DATABASE w')
    /\ Block.blockNumber b = length (blockchain (DATABASE w)).
Proof.
  intros Hrun Hok. pose proof (recordVote_run clock uuid data w) as H. cbv zeta in H.
  repeat case_match;
    try (rewrite H in Hrun; apply failed_inv in Hrun as (-> & _); discriminate).
  destruct H as (v & s & a & b & n & H & Hw & He & Hc & Hb).
  rewrite H in Hrun. injection Hrun as <- <-.
  exists z, z0, v, s, a, b. repeat split; done.
Qed.


(** Every mutating action returns a response: no exception leaves it. *)
Lemma mutation_returns action data w :
  action ∈ [Action.registerVoter; Action.createElection; Action.addCandidate;
            Action.recordVote; Action.castVote] ->
  exists r w', handleAction env clock uuid action data w = (Return r, w').
Proof.
  intros Ha.
  assert (Hf : forall a u e, exists r w',
             failed clock a u data e w = (Return r, w')) by (intros; by eexists _, _).
  repeat (apply elem_of_cons in Ha as [->|Ha]); [..|by apply elem_of_nil in Ha];
    cbn [Server.handleAction].
  - pose proof (registerVoter_run clock uuid data w) as H. cbv zeta in H.
    repeat case_match; try (rewrite H; apply Hf).
    destruct H as (? & ? & ? & ? & ? & -> & _). by eexists _, _.
  - pose proof (createElection_run env clock uuid data w) as H. cbv zeta in H.
    repeat case_match; try (rewrite H; apply Hf).
    destruct H as (? & ? & ? & ? & ? & ? & -> & _). by eexists _, _.
  - pose proof (addCandidate_run clock uuid data w) as H. cbv zeta in H.
    repeat case_match; try (rewrite H; apply Hf).
    destruct H as (? & ? & ? & ? & -> & _). by eexists _, _.
  - pose proof (recordVote_run clock uuid data w) as H. cbv zeta in H.
    repeat case_match; try (rewrite H; apply Hf).
    destruct H as (? & ? & ? & ? & ? & -> & _). by eexists _, _.
  - pose proof (recordVote_run clock uuid data w) as H. cbv zeta in H.
    repeat case_match; try (rewrite H; apply Hf).
    destruct H as (? & ? & ? & ? & ? & -> & _). by eexists _, _.
Qed.

End ServerResponses.

(** ** [server.js]: casting votes *)

Section ServerCast.
Import JS Server.
Variable env : gmap string string.
Variable clock : nat -> string.
Variable uuid : nat -> string.

Lemma hasVoted_spec wallet e vs : hasVoted wallet e vs = true <-> has_voted wallet e vs.
Proof. apply existsb_has_voted. Qed.

Lemma has_candidate_spec e c cs :
  has_candidate e c cs = true
  <-> exists x, x ∈ cs /\ Candidate.electionId x = e /\ Candidate.candidateId x = c.
Proof. apply existsb_candidate. Qed.

Lemma has_election_spec e es :
  has_election e es = true <-> exists el, el ∈ es /\ Election.electionId el = e.
Proof. apply existsb_election. Qed.

Lemma hasVoted_app wallet e vs l :
  hasVoted wallet e vs = true -> hasVoted wallet e (vs ++ l)%list = true.
Proof. unfold hasVoted. rewrite existsb_app. by intros ->. Qed.

(** A cast by a wallet that already has a vote in the election fails and
    leaves the ledger as it is. *)
Lemma recordVote_already_voted data w e :
  nonzero (parseInt (data !! "electionId")) = Some e ->
  hasVoted (vote_wallet data) e (votes (DATABASE w)) = true ->
  exists err w',
    recordVote clock uuid data w = (Return (Failure err), w')
    /\ votes (DATABASE w') = votes (DATABASE w)
    /\ (err = "El votante ya emitió su voto en esta elección"
        \/ err = "Datos incompletos para registrar voto")
    /\ (truthy (vote_wallet data) = true ->
        is_Some (nonzero (parseInt (data !! "candidateId"))) ->
        err = "El votante ya emitió su voto en esta elección").
Proof.
  intros He Hv. pose proof (recordVote_run clock uuid data w) as H. cbv zeta in H.
  rewrite He in H. unfold hasVoted in Hv. rewrite Hv in H.
  destruct (truthy (vote_wallet data));
    [destruct (nonzero (parseInt (data !! "candidateId")))|];
    rewrite H; eexists _, _; (split; [reflexivity|]); (split; [reflexivity|]);
    split; try (by left); try (by right); try done.
Qed.

(** The one-vote rule of [recordVote]: after a successful cast, every later
    cast of the same wallet in the same election fails, whatever requests
    came in between, and appends nothing. *)
Lemma recordVote_one_vote data1 w r1 w1 reqs data2 :
  recordVote clock uuid data1 w = (Return r1, w1) -> success r1 = true ->
  vote_wallet data2 = vote_wallet data1 ->
  nonzero (parseInt (data2 !! "electionId")) = nonzero (parseInt (data1 !! "electionId")) ->
  let w2 := run env clock uuid reqs w1 in
  exists err w3,
    recordVote clock uuid data2 w2 = (Return (Failure err), w3)
    /\ votes (DATABASE w3) = votes (DATABASE w2)
    /\ (is_Some (nonzero (parseInt (data2 !! "candidateId"))) ->
        err = "El votante ya emitió su voto en esta elección").
Proof.
  intros Hrun Hok Hw He w2.
  destruct (recordVote_success clock uuid data1 w r1 w1 Hrun Hok)
    as (e & c & v & s & a & b & He1 & Hc1 & Ht & Hvw & Hve & Hvc & HD & Hf & Hb).
  assert (Hs : synced w1) by (by apply synced_saved).
  destruct (votes_run env clock uuid reqs w1 Hs) as (_ & l & Hl). fold w2 in Hl.
  assert (Hv : hasVoted (vote_wallet data2) e (votes (DATABASE w2)) = true).
  { rewrite Hl. apply hasVoted_app. rewrite HD. fields. unfold push.
    apply hasVoted_spec. exists v. split; [apply elem_of_app; right; by left|].
    split; [|done]. rewrite Hw, Hvw. apply trim_toLowerCase_lowered. }
  rewrite He1 in He.
  destruct (recordVote_already_voted data2 w2 e He Hv) as (err & w3 & H3 & Hv3 & _ & Herr).
  exists err, w3. split; [done|]. split; [done|].
  intros Hc. apply Herr; [|done]. by rewrite Hw.
Qed.

(** The ledger of a run never holds two votes of one wallet in one
    election. *)
Lemma run_one_vote reqs i j v1 v2 :
  let d := DATABASE (run env clock uuid reqs boot) in
  votes d !! i = Some v1 -> votes d !! j = Some v2 ->
  toLowerCase (Vote.walletAddress v1) = toLowerCase (Vote.walletAddress v2) ->
  Vote.electionId v1 = Vote.electionId v2 -> i = j.
Proof.
  intros d Hi Hj Hw He.
  destruct (world_ok_run env clock uuid reqs boot world_ok_boot) as [Hd _]. fold d in Hd.
  eapply (votes_once d Hd); [done|done| |done].
  rewrite <- (votes_normal d Hd v1), <- (votes_normal d Hd v2);
    [done|by eapply list_elem_of_lookup_2..].
Qed.


(** C3, on [server.js]. Along every run, a cast whose [electionId] names no
    election of the catalog, or whose pair of identifiers names no
    candidate, fails with one of the three messages of [recordVote] and
    appends no vote; the message is [Candidato no encontrado] when the
    request is complete and the wallet has no vote in the election. *)
Theorem recordVote_referential_integrity reqs data :
  let w := run env clock uuid reqs boot in
  let eid := nonzero (parseInt (data !! "electionId")) in
  let cid := nonzero (parseInt (data !! "candidateId")) in
  (forall e, eid = Some e -> has_election e (elections (DATABASE w)) = false)
  \/ (forall e c, eid = Some e -> cid = Some c ->
        has_candidate e c (candidates (DATABASE w)) = false) ->
  exists err w',
    recordVote clock uuid data w = (Return (Failure err), w')
    /\ votes (DATABASE w') = votes (DATABASE w)
    /\ (err = "Candidato no encontrado"
        \/ err = "Datos incompletos para registrar voto"
        \/ err = "El votante ya emitió su voto en esta elección")
    /\ (forall e c, eid = Some e -> cid = Some c ->
        truthy (vote_wallet data) = true ->
        hasVoted (vote_wallet data) e (votes (DATABASE w)) = false ->
        err = "Candidato no encontrado").
Proof.
  intros w eid cid Hno.
  destruct (world_ok_run env clock uuid reqs boot world_ok_boot) as [Hd _]. fold w in Hd.
  assert (Hnc : forall e c, eid = Some e -> cid = Some c ->
                  has_candidate e c (candidates (DATABASE w)) = false).
  { destruct Hno as [Hne|Hnc]; [|done]. intros e c He Hc.
    apply not_true_iff_false. intros (x & Hx & Hxe & Hxc)%has_candidate_spec.
    destruct (candidates_owned _ Hd x Hx) as (el & Hel & Heq).
    specialize (Hne e He). apply not_true_iff_false in Hne. apply Hne.
    apply has_election_spec. exists el. split; [done|congruence]. }
  pose proof (recordVote_run clock uuid data w) as H. cbv zeta in H.
  fold eid cid in H.
  destruct (truthy (vote_wallet data)) eqn:Ht;
    [destruct eid as [e|] eqn:He; [destruct cid as [c|] eqn:Hc|]|].
  - destruct (existsb _ (votes _)) eqn:Hv.
    + rewrite H. eexists _, _. split; [reflexivity|]. split; [reflexivity|].
      split; [by right; right|]. intros e' c' [= <-] _ _ Hnv.
      unfold hasVoted in Hnv. congruence.
    + specialize (Hnc e c eq_refl eq_refl). unfold has_candidate in Hnc.
      rewrite Hnc in H. cbn [negb] in H. rewrite H.
      eexists _, _. split; [reflexivity|]. split; [reflexivity|].
      split; [by left|done].
  - rewrite H. eexists _, _. split; [reflexivity|]. split; [reflexivity|].
    split; [by right; left|]. done.
  - rewrite H. eexists _, _. split; [reflexivity|]. split; [reflexivity|].
    split; [by right; left|]. done.
  - rewrite H. eexists _, _. split; [reflexivity|]. split; [reflexivity|].
    split; [by right; left|]. done.
Qed.

End ServerCast.

(** ** [server.js]: tallies, candidate numbers and the recomputation *)

Section ServerLedger.
Import JS Server.
Variable env : gmap string string.
Variable clock : nat -> string.
Variable uuid : nat -> string.

(** C2, on [server.js]. After any run of requests, for every election the
    counters of its candidates add up to its [totalVotes], which is the
    number of ledger votes for the election, and the counter of every
    candidate is the number of ledger votes for its pair of identifiers. *)
Theorem tally_consistency reqs :
  let d := DATABASE (run env clock uuid reqs boot) in
  (forall el, el ∈ elections d ->
     sum_list_with Candidate.votes (candidates_of (Election.electionId el) (candidates d))
     = Election.totalVotes el
     /\ Election.totalVotes el = length (votes_of (Election.electionId el) (votes d)))
  /\ (forall c, c ∈ candidates d ->
        Candidate.votes c
        = length (votes_for (Candidate.electionId c) (Candidate.candidateId c) (votes d))).
Proof.
  intros d.
  destruct (world_ok_run env clock uuid reqs boot world_ok_boot) as [Hd _]. fold d in Hd.
  split.
  - intros el Hel. rewrite (tally_sum d _ Hd). split; [|by apply election_tally].
    symmetry. by apply election_tally.
  - intros c Hc. by apply candidate_tally.
Qed.

(** C6, on [server.js]. [addCandidate] on an existing election gives the
    new candidate the number of candidates of that election plus one and
    appends it; so along every run the candidate identifiers of each
    election are 1, 2, ..., n in order, whatever the other elections
    hold. *)
Theorem candidate_numbering :
  (forall data w e,
     nonzero (parseInt (or (data !! "electionId") (data !! "election"))) = Some e ->
     truthy (trim (or_else (data !! "name") "")) = true ->
     has_election e (elections (DATABASE w)) = true ->
     exists w' c,
       addCandidate clock uuid data w
       = (Return (CandidateAdded "✅ Candidato agregado" (Candidate.candidateId c)), w')
       /\ candidates (DATABASE w') = (candidates (DATABASE w) ++ [c])%list
       /\ Candidate.electionId c = e
       /\ Candidate.candidateId c
          = Z.of_nat (length (candidates_of e (candidates (DATABASE w)))) + 1)
  /\ (forall reqs e,
        let d := DATABASE (run env clock uuid reqs boot) in
        Candidate.candidateId <$> candidates_of e (candidates d)
        = Z.of_nat <$> seq 1 (length (candidates_of e (candidates d)))).
Proof.
  split.
  - intros data w e He Hn Hel.
    pose proof (addCandidate_run clock uuid data w) as H. cbv zeta in H.
    unfold has_election in Hel. rewrite He, Hn, Hel in H. cbn [negb] in H.
    destruct H as (c & a & b & n & H & Hce & Hcc & _).
    eexists _, c. rewrite Hcc. split; [exact H|]. done.
  - intros reqs e d.
    destruct (world_ok_run env clock uuid reqs boot world_ok_boot) as [Hd _].
    by apply candidate_ids_dense.
Qed.

Lemma recount_idem e vs cs : recount e vs (recount e vs cs) = recount e vs cs.
Proof.
  unfold recount. cbv zeta. rewrite <- list_fmap_compose. apply list_fmap_ext.
  intros i c _. unfold compose. destruct (decide (Candidate.electionId c = e)) as [Hc|Hc].
  - rewrite (bool_decide_eq_true_2 _ Hc).
    cbn [Candidate.electionId Candidate.candidateId Candidate.name Candidate.party
         Candidate.addedAt].
    by rewrite (bool_decide_eq_true_2 _ Hc).
  - by rewrite !(bool_decide_eq_false_2 _ Hc).
Qed.

Lemma retotal_idem e vs es : retotal e vs (retotal e vs es) = retotal e vs es.
Proof.
  unfold retotal. induction es as [|el es IH]; [done|]. cbn [update_first].
  destruct (Election.electionId el =? e) eqn:E; cbn [update_first Election.electionId].
  - by rewrite E.
  - by rewrite E, IH.
Qed.

Lemma recomputed_idem e d : recomputed e (recomputed e d) = recomputed e d.
Proof.
  unfold recomputed. destruct d. unfold set_elections, set_candidates. fields.
  by rewrite recount_idem, retotal_idem.
Qed.

Lemma recount_bare e vs cs1 cs2 :
  bare_candidate <$> cs1 = bare_candidate <$> cs2 ->
  candidates_of e (recount e vs cs1) = candidates_of e (recount e vs cs2).
Proof.
  revert cs2. induction cs1 as [|c1 cs1 IH]; intros [|c2 cs2]; try done.
  rewrite !fmap_cons. intros [= He Hc Hn Hp Ha Hrest].
  unfold candidates_of, recount in *. cbv zeta in *. rewrite !fmap_cons.
  specialize (IH cs2 Hrest).
  destruct (decide (Candidate.electionId c1 = e)) as [H1|H1].
  - rewrite !bool_decide_eq_true_2 by congruence.
    rewrite !filter_cons_True by (cbn; congruence).
    rewrite IH. f_equal. rewrite He, Hc, Hn, Hp, Ha. done.
  - rewrite !bool_decide_eq_false_2 by congruence.
    rewrite !filter_cons_False by congruence. done.
Qed.

Lemma retotal_bare e vs es1 es2 :
  bare_election <$> es1 = bare_election <$> es2 ->
  List.find (fun el => Election.electionId el =? e) (retotal e vs es1)
  = List.find (fun el => Election.electionId el =? e) (retotal e vs es2).
Proof.
  revert es2. induction es1 as [|x1 es1 IH]; intros [|x2 es2]; try done.
  rewrite !fmap_cons. intros [= Hi Ht Hd Hs He Hst Hc Hca Hrest].
  unfold retotal in *. cbn [update_first]. rewrite <- Hi.
  destruct (Election.electionId x1 =? e) eqn:E; cbn [List.find Election.electionId].
  - rewrite <- ?Hi, ?E. destruct x1, x2; cbn in *. by simplify_eq.
  - rewrite <- ?Hi, ?E. by apply IH.
Qed.

Lemma find_retotal e vs es el :
  List.find (fun el => Election.electionId el =? e) (retotal e vs es) = Some el ->
  Election.totalVotes el = length (votes_of e vs).
Proof.
  unfold retotal. induction es as [|x es IH]; [done|]. cbn [update_first].
  destruct (Election.electionId x =? e) eqn:E; cbn [List.find Election.electionId];
    rewrite E.
  - by intros [= <-].
  - apply IH.
Qed.

Lemma retotal_bare_fmap e vs es : bare_election <$> retotal e vs es = bare_election <$> es.
Proof.
  unfold retotal. induction es as [|el es IH]; [done|]. cbn [update_first].
  destruct (Election.electionId el =? e); rewrite !fmap_cons; [reflexivity|by rewrite IH].
Qed.

Lemma recount_bare_fmap e vs cs : bare_candidate <$> recount e vs cs = bare_candidate <$> cs.
Proof.
  unfold recount. cbv zeta. rewrite <- list_fmap_compose. apply list_fmap_ext.
  intros i c _. unfold compose. by case_bool_decide.
Qed.

(** C8. Running [recompute] for an election twice is running it once. What
    it leaves for the election is the same from any two worlds with the
    same ledger whose candidates and elections differ at most in the cached
    fields. It returns, touches neither the ledger nor the file, changes
    nothing of the candidates and the elections but their cached fields,
    and the fields it writes are the counts of the ledger: the votes of a
    candidate of the election, its percentage over the votes of the
    election, and the total of the election. *)
Theorem recompute_idempotent :
  (forall e w, recompute e (recompute e w).2 = recompute e w)
  /\ (forall e w1 w2,
        votes (DATABASE w1) = votes (DATABASE w2) ->
        bare_candidate <$> candidates (DATABASE w1)
        = bare_candidate <$> candidates (DATABASE w2) ->
        bare_election <$> elections (DATABASE w1)
        = bare_election <$> elections (DATABASE w2) ->
        candidates_of e (candidates (DATABASE (recompute e w1).2))
        = candidates_of e (candidates (DATABASE (recompute e w2).2))
        /\ List.find (fun el => Election.electionId el =? e)
                     (elections (DATABASE (recompute e w1).2))
           = List.find (fun el => Election.electionId el =? e)
                       (elections (DATABASE (recompute e w2).2)))
  /\ (forall e w,
        let d := DATABASE w in
        let d' := DATABASE (recompute e w).2 in
        (recompute e w).1 = Return tt
        /\ votes d' = votes d
        /\ file (recompute e w).2 = file w
        /\ bare_candidate <$> candidates d' = bare_candidate <$> candidates d
        /\ bare_election <$> elections d' = bare_election <$> elections d
        /\ (forall c, c ∈ candidates_of e (candidates d') ->
              Candidate.votes c = length (votes_for e (Candidate.candidateId c) (votes d))
              /\ Candidate.percentage c
                 = percentage_of (length (votes_for e (Candidate.candidateId c) (votes d)))
                                 (length (votes_of e (votes d))))
        /\ (forall el,
              List.find (fun el => Election.electionId el =? e) (elections d') = Some el ->
              Election.totalVotes el = length (votes_of e (votes d)))).
Proof.
  split; [|split].
  - intros e w. rewrite !recompute_run. cbn [snd DATABASE file dates uuids].
    by rewrite recomputed_idem.
  - intros e w1 w2 Hv Hc He. rewrite !recompute_run. cbn [snd DATABASE].
    unfold recomputed. fields. rewrite Hv. split.
    + by apply recount_bare.
    + by apply retotal_bare.
  - intros e w d d'. unfold d', d. rewrite recompute_run. cbn [fst snd DATABASE file].
    unfold recomputed. fields.
    split; [done|]. split; [done|]. split; [done|].
    split; [apply recount_bare_fmap|]. split; [apply retotal_bare_fmap|]. split.
    + intros c [He (c0 & Hc0 & Hb & Hcase)%recount_elem]%list_elem_of_filter.
      assert (Candidate.electionId c = Candidate.electionId c0
              /\ Candidate.candidateId c = Candidate.candidateId c0) as [Hce Hcc]
        by (by injection Hb).
      destruct Hcase as [(_ & Hv & Hp)|[Hne _]]; [|congruence].
      by rewrite Hcc.
    + intros el Hf. by apply find_retotal in Hf.
Qed.

End ServerLedger.

(** ** [server.js]: audit trail, registration, election creation *)

Section ServerAudit.
Import JS Server.
Variable env : gmap string string.
Variable clock : nat -> string.
Variable uuid : nat -> string.

Lemma failed_logged action user data err w :
  exists r w', failed clock action user data err w = (Return r, w') /\ logs w r w'.
Proof.
  eexists _, _. split; [reflexivity|]. split; [by eexists|reflexivity].
Qed.

Lemma mutation_logs action data w :
  mutating action = true ->
  exists r w', handleAction env clock uuid action data w = (Return r, w') /\ logs w r w'.
Proof.
  intros Ha.
  destruct action; try discriminate; cbn [Server.handleAction].
  - pose proof (registerVoter_run clock uuid data w) as H. cbv zeta in H.
    repeat case_match; try (rewrite H; apply failed_logged).
    destruct H as (v & s & a & b & n & -> & _ & Hb). eexists _, _.
    split; [reflexivity|]. split; [by eexists|]. cbn [success]. by exists b.
  - pose proof (createElection_run env clock uuid data w) as H. cbv zeta in H.
    repeat case_match; try (rewrite H; apply failed_logged).
    destruct H as (el & m & s & a & b & n & -> & _ & _ & _ & _ & _ & _ & Hb).
    eexists _, _. split; [reflexivity|]. split; [by eexists|]. cbn [success]. by exists b.
  - pose proof (addCandidate_run clock uuid data w) as H. cbv zeta in H.
    repeat case_match; try (rewrite H; apply failed_logged).
    destruct H as (c & a & b & n & -> & _ & _ & _ & Hb).
    eexists _, _. split; [reflexivity|]. split; [by eexists|]. cbn [success]. by exists b.
  - pose proof (recordVote_run clock uuid data w) as H. cbv zeta in H.
    repeat case_match; try (rewrite H; apply failed_logged).
    destruct H as (v & s & a & b & n & -> & _ & _ & _ & Hb).
    eexists _, _. split; [reflexivity|]. split; [by eexists|]. cbn [success]. by exists b.
  - pose proof (recordVote_run clock uuid data w) as H. cbv zeta in H.
    repeat case_match; try (rewrite H; apply failed_logged).
    destruct H as (v & s & a & b & n & -> & _ & _ & _ & Hb).
    eexists _, _. split; [reflexivity|]. split; [by eexists|]. cbn [success]. by exists b.
Qed.

(** C4, as the code has it. Every mutating action of [server.js] returns a
    response (no exception reaches the caller) and appends exactly one
    entry to [DATABASE.audit], whether it succeeds or fails; these entries
    carry no number. A successful action also appends one entry to
    [DATABASE.blockchain], numbered with the length of the chain before it,
    and a failed one appends none; so along every run the block numbers
    are 0, 1, 2, ... in order. *)
Theorem audit_trail :
  (forall action data w,
     mutating action = true ->
     exists r w',
       handleAction env clock uuid action data w = (Return r, w')
       /\ (exists a, audit (DATABASE w') = (audit (DATABASE w) ++ [a])%list)
       /\ if success r
          then exists b,
                 blockchain (DATABASE w') = (blockchain (DATABASE w) ++ [b])%list
                 /\ Block.blockNumber b = length (blockchain (DATABASE w))
          else blockchain (DATABASE w') = blockchain (DATABASE w))
  /\ (forall reqs,
        Block.blockNumber <$> blockchain (DATABASE (run env clock uuid reqs boot))
        = seq 0 (length (blockchain (DATABASE (run env clock uuid reqs boot))))).
Proof.
  split.
  - intros action data w Ha. apply (mutation_logs action data w Ha).
  - intros reqs.
    destruct (world_ok_run env clock uuid reqs boot world_ok_boot) as [Hd _].
    apply list_eq. intros i. rewrite list_lookup_fmap.
    destruct (blockchain _ !! i) as [b|] eqn:E; cbn.
    + rewrite (blocks_numbered _ Hd i b E).
      rewrite lookup_seq_lt by (by eapply lookup_lt_Some). done.
    + rewrite lookup_seq_ge; [done|]. by apply lookup_ge_None.
Qed.




(** C10, as the code has it. [createElection] succeeds only for a request
    whose [adminAddress], lower-cased and trimmed, is one of the configured
    admin addresses. With a title, an absent (or blank) [adminAddress]
    fails with the message of the first guard, and a present one that is no
    admin fails with [No autorizado]; neither appends an election. *)
Theorem createElection_admin_gated data w :
  let admin := trim (toLowerCase (or_else (data !! "adminAddress") "")) in
  let title := trim (or_else (data !! "title") "") in
  exists r w',
    createElection env clock uuid data w = (Return r, w')
    /\ (success r = true -> admin ∈ ADMIN_ADDRESSES (CONFIG env))
    /\ (truthy title = true -> admin = "" ->
        r = Failure "Dirección de admin y título son obligatorios"
        /\ elections (DATABASE w') = elections (DATABASE w))
    /\ (truthy title = true -> admin <> "" -> admin ∉ ADMIN_ADDRESSES (CONFIG env) ->
        r = Failure "No autorizado: dirección no es admin"
        /\ elections (DATABASE w') = elections (DATABASE w)).
Proof.
  intros admin title.
  pose proof (createElection_run env clock uuid data w) as H. cbv zeta in H.
  fold admin title in H.
  destruct (negb (truthy admin) || negb (truthy title)) eqn:E1;
    [|destruct (negb (bool_decide (admin ∈ ADMIN_ADDRESSES (CONFIG env)))) eqn:E2].
  - rewrite H. eexists _, _. split; [reflexivity|]. split; [done|]. split.
    + done.
    + intros Ht Ha%truthy_nonempty. rewrite Ht, Ha in E1. discriminate.
  - rewrite H. eexists _, _. split; [reflexivity|]. split; [done|]. split.
    + intros Ht ->. cbn in E1. discriminate.
    + done.
  - destruct H as (el & m & s & a & b & n & -> & _). eexists _, _.
    split; [reflexivity|]. apply negb_false_iff, bool_decide_eq_true in E2.
    split; [done|]. split.
    + intros _ ->. cbn in E1. discriminate.
    + done.
Qed.

(** The server's [getActiveElections] lists the elections whose status is
    [Activa], which along a run is every election of the catalog. *)
Lemma getActiveElections_all reqs :
  let w := run env clock uuid reqs boot in
  exists l,
    getActiveElections w = (Return (ActiveElections l), w)
    /\ ElectionView.ElectionID <$> l = Election.electionId <$> elections (DATABASE w)
    /\ ElectionView.StartDate <$> l = Election.startDate <$> elections (DATABASE w)
    /\ ElectionView.EndDate <$> l = Election.endDate <$> elections (DATABASE w).
Proof.
  intros w. eexists. split; [reflexivity|].
  destruct (world_ok_run env clock uuid reqs boot world_ok_boot) as [Hd _]. fold w in Hd.
  assert (Hall : filter (fun e => Election.status e = "Activa") (elections (DATABASE w))
                 = elections (DATABASE w)).
  { pose proof (elections_active _ Hd) as Ha.
    induction (elections (DATABASE w)) as [|el es IH]; [done|].
    rewrite filter_cons_True by (apply Ha; by left).
    f_equal. apply IH. intros; apply Ha. by right. }
  rewrite Hall, <- !list_fmap_compose. done.
Qed.

End ServerAudit.

(** ** [backend.js]: registration and the activity window *)

Section BackendFacts.
Import JS Backend.

Lemma or_value_truthy v d : truthy_value (Some v) = Some v -> or_value (Some v) d = v.
Proof. unfold or_value. by intros ->. Qed.

Lemma truthy_value_Some x v : truthy_value x = Some v -> x = Some v.
Proof.
  destruct x as [[s|n]|]; cbn; [destruct (truthy s)|destruct (n =? 0)|]; congruence.
Qed.




(** [castVote] of [backend.js] reads [db.votes] only before it appends:
    with the three fields present and no vote of the wallet stored under
    the election as written, the vote is appended, whatever [db.voters]
    holds. *)
Lemma backend_castVote_ignores_registry clk body db wa e c E C :
  truthy_value (body !! "walletAddress") = Some wa ->
  truthy_value (body !! "electionId") = Some e ->
  truthy_value (body !! "candidateId") = Some c ->
  ToNumber e = Some E -> ToNumber c = Some C ->
  existsb (fun v => String.eqb
               (toLowerCase (String_ (or_value (Some (Vote.Wallet v)) (VStr ""))))
               (toLowerCase (String_ wa))
             && String.eqb (ToString (Vote.ElectionID v)) (String_ e)) (votes db) = false ->
  exists v db',
    castVote clk body db = Some (VoteCast v, db')
    /\ votes db' = (votes db ++ [v])%list
    /\ Vote.Wallet v = wa /\ Vote.ElectionID v = E /\ Vote.CandidateID v = C
    /\ voters db' = voters db
    /\ forall registry,
         castVote clk body
           (mkDB registry (elections db) (candidates db) (votes db) (sysActivity db))
         = Some (VoteCast v,
                 mkDB registry (elections db') (candidates db') (votes db') (sysActivity db')).
Proof.
  intros Hwa He Hc HE HC Hnone.
  assert (Hfind : forall vs, vs = votes db ->
    List.find (fun v => String.eqb
                 (toLowerCase (String_ (or_value (Some (Vote.Wallet v)) (VStr ""))))
                 (toLowerCase (String_ wa))
               && String.eqb (ToString (Vote.ElectionID v)) (String_ e)) vs = None).
  { intros vs ->. destruct (List.find _ _) eqn:F; [|done].
    apply find_some in F as [Hin Hp]. apply not_true_iff_false in Hnone.
    exfalso. apply Hnone, existsb_exists. eauto. }
  unfold castVote. rewrite Hwa, He, Hc. cbn [votes]. rewrite (Hfind _ eq_refl), HE, HC.
  cbn [mbind option_bind]. eexists _, _. split; [reflexivity|]. repeat split.
Qed.

Lemma le_finite x y : le (Time (Int x)) (Time y) = true <-> exists t, y = Int t /\ x <= t.
Proof.
  destruct y as [|t]; cbn.
  - split; [done|]. by intros (? & ? & _).
  - rewrite Z.leb_le. split; [by exists t|]. by intros (? & [= <-] & ?).
Qed.

Lemma finite_le x y : le (Time x) (Time (Int y)) = true <-> exists t, x = Int t /\ t <= y.
Proof.
  destruct x as [|t]; cbn.
  - split; [done|]. by intros (? & ? & _).
  - rewrite Z.leb_le. split; [by exists t|]. by intros (? & [= <-] & ?).
Qed.

(** The list of [getActiveElections] holds exactly the stored elections
    whose window contains the time of the request. *)
Lemma backend_getActiveElections_window getTime clk db :
  exists l,
    getActiveElections getTime clk db = (ActiveElections l, db)
    /\ forall e, e ∈ l <-> e ∈ elections db /\ in_window getTime (now clk) e.
Proof.
  eexists. split; [reflexivity|]. intros e. rewrite list_elem_of_filter.
  unfold in_window. rewrite andb_true_iff.
  destruct (truthy_value (Election.StartDate e)) as [d1|];
    destruct (truthy_value (Election.EndDate e)) as [d2|];
    rewrite ?finite_le, ?le_finite; cbn [le]; tauto.
Qed.

End BackendFacts.

(** ** Properties that hold of both back ends, or of one only *)


(** C7, as the code has it. The handler of [backend.js] lists exactly the
    stored elections with [startAt <= now <= endAt], an absent date
    bounding nothing. [getActiveElections] of [server.js] reads no clock:
    it lists the elections whose status is [Activa], which along every run
    is each election of the catalog, whatever its dates. *)
Theorem active_elections :
  (forall getTime clk db,
     exists l,
       Backend.getActiveElections getTime clk db = (Backend.ActiveElections l, db)
       /\ forall e, e ∈ l <->
            e ∈ Backend.elections db /\ Backend.in_window getTime (Backend.now clk) e)
  /\ (forall env clock uuid reqs,
        exists l,
          Server.getActiveElections (Server.run env clock uuid reqs Server.boot)
          = (Server.Return (Server.ActiveElections l),
             Server.run env clock uuid reqs Server.boot)
          /\ Server.ElectionView.ElectionID <$> l
             = Server.Election.electionId
                 <$> Server.elections
                       (Server.DATABASE (Server.run env clock uuid reqs Server.boot))).
Proof.
  split.
  - apply backend_getActiveElections_window.
  - intros env clock uuid reqs.
    destruct (getActiveElections_all env clock uuid reqs) as (l & H & Hid & _).
    by exists l.
Qed.

(** ** The two models at concrete requests *)

Section Concrete.
Import JS Scenario.

(** C1, failing input. [castVote] of [backend.js] stores
    [Number(electionId)] and compares [String(electionId)]: after a vote of
    a wallet in election 1, the same request is refused, and the request
    with the election written [01] is accepted, through the handler and
    through [POST /api] a second later; the ledger then holds two votes of
    the wallet in election 1. *)
Theorem castVote_double_vote :
  exists v1 db1 v2 db2,
    Backend.castVote clk (b_cast (VNum 1) (VNum 1)) b_one_election
    = Some (Backend.VoteCast v1, db1)
    /\ Backend.castVote later (b_cast (VNum 1) (VNum 1)) db1
       = Some (Backend.Failure "Ya votó", db1)
    /\ Backend.castVote later (b_cast (VStr "01") (VNum 1)) db1
       = Some (Backend.VoteCast v2, db2)
    /\ Backend.votes db2 = [v1; v2]
    /\ Backend.Vote.Wallet v1 = Backend.Vote.Wallet v2
    /\ Backend.Vote.ElectionID v1 = 1
    /\ Backend.Vote.ElectionID v2 = 1
    /\ exists w1 w2,
         Backend.api getTime clk "castVote" (b_cast (VNum 1) (VNum 1))
           (Backend.mkWorld b_one_election ∅)
         = Some (Backend.VoteCast v1, w1)
         /\ Backend.api getTime later "castVote" (b_cast (VStr "01") (VNum 1)) w1
            = Some (Backend.VoteCast v2, w2)
         /\ Backend.file w2 = db2.
Proof.
  eexists _, _, _, _.
  split; [vm_compute; reflexivity|].
  split; [vm_compute; reflexivity|].
  split; [vm_compute; reflexivity|].
  do 4 (split; [reflexivity|]).
  eexists _, _.
  split; [vm_compute; reflexivity|].
  split; [vm_compute; reflexivity|]. reflexivity.
Qed.

(** C2 fails on [backend.js]: a cast naming a candidate that does not exist
    succeeds, counts for the election and for no candidate. *)
Lemma tally_consistency_counterexample :
  exists vote db el,
    Backend.castVote clk (b_cast (VNum 1) (VNum 99)) b_one_election
    = Some (Backend.VoteCast vote, db)
    /\ el ∈ Backend.elections db
    /\ Backend.Election.TotalVotes el = 1%nat
    /\ sum_list_with Backend.Candidate.Votes
         (Backend.candidates_of (Backend.Election.ElectionID el) (Backend.candidates db))
       = 0%nat
    /\ ~ Backend.tally_consistent db el.
Proof.
  eexists _, _, _.
  split; [vm_compute; reflexivity|].
  split; [apply list_elem_of_here|].
  split; [reflexivity|]. split; [reflexivity|].
  intros [H _]. vm_compute in H. discriminate.
Qed.

(** C3 fails on [backend.js]: with no election and no candidate in the
    store, a cast succeeds and appends its vote. *)
Lemma referential_integrity_counterexample :
  exists vote db,
    Backend.elections Backend.DEFAULT_DB = []
    /\ Backend.candidates Backend.DEFAULT_DB = []
    /\ Backend.castVote clk (b_cast (VNum 7) (VNum 3)) Backend.DEFAULT_DB
       = Some (Backend.VoteCast vote, db)
    /\ Backend.votes db = [vote].
Proof.
  eexists _, _. split; [reflexivity|]. split; [reflexivity|].
  split; [vm_compute; reflexivity|]. reflexivity.
Qed.

(** C4 as stated fails on [server.js]: a failed registration appends an
    audit entry, which carries no number, and appends nothing to the
    numbered chain. *)
Lemma audit_trail_counterexample :
  exists err w',
    Server.registerVoter clock uuid ∅ Server.boot = (Server.Return (Server.Failure err), w')
    /\ length (Server.audit (Server.DATABASE w')) = 1%nat
    /\ Server.blockchain (Server.DATABASE w') = [].
Proof.
  eexists _, _. split; [vm_compute; reflexivity|]. split; reflexivity.
Qed.

(** C6 fails on [backend.js]: the first candidate of election 2 gets the
    identifier 2, one past the largest identifier of all candidates. *)
Lemma candidate_numbering_counterexample :
  exists c1 db1 c2 db2,
    Backend.addCandidate clk (b_add 1 "Alice") b_two_elections
    = Some (Backend.CandidateAdded c1, db1)
    /\ Backend.candidates_of 2 (Backend.candidates db1) = []
    /\ Backend.addCandidate clk (b_add 2 "Bob") db1
       = Some (Backend.CandidateAdded c2, db2)
    /\ Backend.Candidate.ElectionID c2 = 2
    /\ Backend.Candidate.CandidateID c2 = 2.
Proof.
  eexists _, _, _, _.
  split; [vm_compute; reflexivity|].
  split; [vm_compute; reflexivity|].
  split; [vm_compute; reflexivity|].
  split; reflexivity.
Qed.

(** C7 fails on [server.js]: an election that ended at the epoch is listed
    long after. *)
Lemma active_elections_counterexample :
  exists l v w',
    Server.getActiveElections
      (Server.run env clock uuid [(Server.Action.createElection, create_past)] Server.boot)
    = (Server.Return (Server.ActiveElections l), w')
    /\ v ∈ l
    /\ Server.ElectionView.ElectionID v = 1
    /\ Server.ElectionView.EndDate v = epoch
    /\ ~ Server.window_of getTime 1700000000000
           (Server.ElectionView.StartDate v) (Server.ElectionView.EndDate v).
Proof.
  eexists _, _, _.
  split; [vm_compute; reflexivity|].
  split; [apply list_elem_of_here|].
  split; [reflexivity|]. split; [reflexivity|].
  intros [_ [H|(t & Ht & Hle)]].
  - discriminate.
  - vm_compute in Ht. injection Ht as <-. lia.
Qed.

(** C10 as stated fails on [server.js]: with a title and no [adminAddress]
    the failure is the one of the first guard, not [No autorizado]. *)
Lemma createElection_counterexample :
  exists w',
    Server.createElection env clock uuid create_no_admin Server.boot
    = (Server.Return (Server.Failure "Dirección de admin y título son obligatorios"), w')
    /\ Server.elections (Server.DATABASE w') = []
    /\ "Dirección de admin y título son obligatorios"
       <> "No autorizado: dirección no es admin".
Proof.
  eexists. split; [vm_compute; reflexivity|]. split; [reflexivity|]. discriminate.
Qed.




(** C3 at a concrete request: a cast in election 7, which the catalog does
    not hold, fails and appends nothing. *)
Lemma recordVote_referential_integrity_witness :
  exists err w',
    Server.recordVote clock uuid vote_a_nobody (Server.run env clock uuid setup Server.boot)
    = (Server.Return (Server.Failure err), w')
    /\ Server.votes (Server.DATABASE w')
       = Server.votes (Server.DATABASE (Server.run env clock uuid setup Server.boot)).
Proof.
  destruct (recordVote_referential_integrity env clock uuid setup vote_a_nobody)
    as (err & w' & H & Hv & _).
  - left. intros e He. vm_compute in He. injection He as <-. vm_compute. reflexivity.
  - exists err, w'. split; [exact H|exact Hv].
Defined.


(** C6 at a concrete request: the second candidate of election 1. *)
Lemma candidate_numbering_witness :
  exists w' c,
    Server.addCandidate clock uuid add_bob
      (Server.run env clock uuid
         [(Server.Action.createElection, create_e1); (Server.Action.addCandidate, add_alice)]
         Server.boot)
    = (Server.Return (Server.CandidateAdded "✅ Candidato agregado" 2), w')
    /\ Server.Candidate.electionId c = 1
    /\ Server.Candidate.candidateId c = 2.
Proof.
  destruct (proj1 (candidate_numbering env clock uuid) add_bob
              (Server.run env clock uuid
                 [(Server.Action.createElection, create_e1);
                  (Server.Action.addCandidate, add_alice)] Server.boot) 1)
    as (w' & c & H & _ & He & Hc); [vm_compute; reflexivity..|].
  exists w', c. rewrite Hc in H. split; [exact H|]. split; [exact He|exact Hc].
Defined.

(** C10 at concrete requests: the configured admin creates an election. *)
Lemma createElection_admin_gated_witness :
  exists r w',
    Server.createElection env clock uuid create_e1 Server.boot = (Server.Return r, w')
    /\ Server.success r = true
    /\ toLowerCase admin ∈ Server.ADMIN_ADDRESSES (Server.CONFIG env).
Proof.
  destruct (createElection_admin_gated env clock uuid create_e1 Server.boot)
    as (r & w' & H & Hadmin & _).
  exists r, w'. split; [exact H|].
  assert (Hok : Server.success r = true).
  { assert (Hr : (Server.createElection env clock uuid create_e1 Server.boot).1
                 = Server.Return r) by (by rewrite H).
    vm_compute in Hr. injection Hr as <-. reflexivity. }
  split; [exact Hok|]. apply Hadmin, Hok.
Defined.

End Concrete.

(** ** The runtime: integers and their decimal text *)

Section DecimalText.
Import JS.

Lemma append_cons c (s t : string) : String c s ++ t = String c (s ++ t).
Proof. reflexivity. Qed.

Lemma append_assoc (s t u : string) : (s ++ t) ++ u = s ++ (t ++ u).
Proof. induction s as [|c s IH]; [done|]. by rewrite !append_cons, IH. Qed.

Lemma digit_digit_char d : 0 <= d <= 9 -> digit 10 (digit_char d) = Some d.
Proof.
  intros Hd. replace d with (Z.of_nat (Z.to_nat d)) by lia.
  assert (Hn : (Z.to_nat d <= 9)%nat) by lia. revert Hn.
  generalize (Z.to_nat d). intros n Hn.
  do 10 (destruct n as [|n]; [reflexivity|]). lia.
Qed.

Lemma digit_range c d :
  digit 10 c = Some d -> 48 <= Z.of_nat (nat_of_ascii c) <= 57.
Proof.
  unfold digit. generalize (Z.of_nat (nat_of_ascii c)). intros n.
  destruct (48 <=? n) eqn:E1; destruct (n <=? 57) eqn:E2; cbn; try discriminate.
  intros _. apply Z.leb_le in E1, E2. lia.
Qed.

Lemma digit_not_space c d : digit 10 c = Some d -> is_space c = false.
Proof.
  intros H%digit_range. unfold is_space. revert H.
  generalize (Z.of_nat (nat_of_ascii c)). intros n H.
  apply orb_false_iff. split; [apply andb_false_iff; right|]; lia.
Qed.

Lemma strip_sign_digit c d s :
  digit 10 c = Some d -> strip_sign (String c s) = (1, String c s).
Proof.
  destruct c as [[] [] [] [] [] [] [] []]; intros H; vm_compute in H;
    first [discriminate|reflexivity].
Qed.

Lemma strip_hex_prefix_digits c s :
  all_digits (String c s) = true -> strip_hex_prefix (String c s) = (10, String c s).
Proof.
  intros H. destruct c as [[] [] [] [] [] [] [] []]; try reflexivity.
  destruct s as [|c2 s2]; [reflexivity|].
  destruct c2 as [[] [] [] [] [] [] [] []]; try reflexivity;
    vm_compute in H; discriminate.
Qed.

Lemma trimStart_digits s : all_digits s = true -> trimStart s = s.
Proof.
  destruct s as [|c s]; [done|]. cbn.
  destruct (digit 10 c) as [d|] eqn:E; [|discriminate].
  by rewrite (digit_not_space c d E).
Qed.

Lemma trimEnd_digits s : all_digits s = true -> trimEnd s = s.
Proof.
  induction s as [|c s IH]; [done|]. cbn.
  destruct (digit 10 c) as [d|] eqn:E; [|discriminate].
  intros Hs. rewrite (IH Hs). destruct s; [|done].
  by rewrite (digit_not_space c d E).
Qed.

(** Scanning digits goes through a prefix made of digits. *)
Lemma digits_app s t a :
  all_digits s = true -> digits 10 a (s ++ t) = digits 10 (digits 10 a s) t.
Proof.
  revert a. induction s as [|c s IH]; intros a; [done|].
  rewrite append_cons. cbn [all_digits digits].
  destruct (digit 10 c) as [d|]; [|discriminate]. apply IH.
Qed.

Lemma all_digits_app s t :
  all_digits s = true -> all_digits t = true -> all_digits (s ++ t) = true.
Proof.
  induction s as [|c s IH]; [done|]. rewrite append_cons. cbn [all_digits].
  destruct (digit 10 c); [|discriminate]. apply IH.
Qed.

Lemma render_pos_S fuel n acc :
  render_pos (S fuel) n acc
  = if n / 10 =? 0 then String (digit_char (n mod 10)) acc
    else render_pos fuel (n / 10) (String (digit_char (n mod 10)) acc).
Proof. reflexivity. Qed.

Lemma render_pos_app fuel n acc : render_pos fuel n acc = render_pos fuel n "" ++ acc.
Proof.
  revert n acc. induction fuel as [|fuel IH]; intros n acc; [done|].
  rewrite !render_pos_S. destruct (n / 10 =? 0); [done|].
  rewrite IH, (IH _ (String _ "")), append_assoc. done.
Qed.

Lemma render_pos_digits fuel n :
  0 <= n < 10 ^ Z.of_nat (S fuel) ->
  let s := render_pos (S fuel) n "" in
  all_digits s = true /\ digits 10 None s = Some n /\ s <> "".
Proof.
  revert n. induction fuel as [|fuel IH]; intros n Hn.
  - assert (Hq : n / 10 = 0) by (apply Z.div_small; lia).
    cbv zeta. rewrite render_pos_S, Hq. cbn [Z.eqb].
    assert (Hm : n mod 10 = n) by (apply Z.mod_small; lia).
    rewrite Hm. cbn [all_digits digits]. rewrite digit_digit_char by lia.
    cbn. split; [done|]. split; [f_equal; lia|done].
  - cbv zeta. rewrite render_pos_S. destruct (n / 10 =? 0) eqn:Hq.
    + apply Z.eqb_eq in Hq.
      assert (Hm : n mod 10 = n)
        by (pose proof (Z.div_mod n 10 ltac:(lia)); lia).
      rewrite Hm.
      assert (0 <= n <= 9).
      { pose proof (Z.mod_pos_bound n 10 ltac:(lia)). lia. }
      cbn [all_digits digits]. rewrite digit_digit_char by lia.
      cbn. split; [done|]. split; [f_equal; lia|done].
    + rewrite render_pos_app.
      assert (Hb : 0 <= n / 10 < 10 ^ Z.of_nat (S fuel)).
      { split; [apply Z.div_pos; lia|].
        apply Z.div_lt_upper_bound; [lia|].
        replace (Z.of_nat (S (S fuel))) with (Z.succ (Z.of_nat (S fuel))) in Hn by lia.
        rewrite Z.pow_succ_r in Hn by lia. lia. }
      destruct (IH _ Hb) as (Hall & Hval & Hne).
      pose proof (Z.mod_pos_bound n 10 ltac:(lia)) as Hmod.
      split; [|split].
      * apply all_digits_app; [done|]. cbn. by rewrite digit_digit_char by lia.
      * rewrite digits_app by done. rewrite Hval. cbn.
        rewrite digit_digit_char by lia. f_equal.
        pose proof (Z.div_mod n 10 ltac:(lia)). lia.
      * destruct (render_pos (S fuel) (n / 10) ""); [done|discriminate].
Qed.

(** The decimal text of a natural number: digits only, read back as the
    number. *)
Lemma ToString_digits n :
  0 <= n ->
  all_digits (ToString n) = true /\ digits 10 None (ToString n) = Some n
  /\ ToString n <> "".
Proof.
  intros Hn. unfold ToString.
  destruct (n <? 0) eqn:E; [apply Z.ltb_lt in E; lia|].
  apply render_pos_digits. split; [done|].
  replace (Z.of_nat (S (Z.to_nat n))) with (n + 1) by lia.
  pose proof (Z.pow_gt_lin_r 10 (n + 1) ltac:(lia) ltac:(lia)). lia.
Qed.

Lemma ToString_negative n :
  n < 0 ->
  exists s, ToString n = String "-" s
            /\ all_digits s = true /\ digits 10 None s = Some (- n) /\ s <> "".
Proof.
  intros Hn. unfold ToString.
  destruct (n <? 0) eqn:E; [|apply Z.ltb_ge in E; lia].
  exists (render_pos (Z.to_nat (- n)) (- n) ""). split; [done|].
  destruct (Z.to_nat (- n)) as [|fuel] eqn:F; [lia|].
  apply render_pos_digits. split; [lia|].
  rewrite <- F. rewrite Z2Nat.id by lia.
  apply Z.pow_gt_lin_r; lia.
Qed.

(** [parseInt(String(n))] is [n]. *)
Lemma parseInt_ToString n : parseInt (Some (ToString n)) = Int n.
Proof.
  destruct (Z.lt_ge_cases n 0) as [Hn|Hn].
  - destruct (ToString_negative n Hn) as (s & -> & Hall & Hval & Hne).
    unfold parseInt. cbn [trimStart]. change (is_space "-") with false. cbv iota.
    cbn [strip_sign]. destruct s as [|c s]; [done|].
    rewrite strip_hex_prefix_digits by done. rewrite Hval. f_equal. lia.
  - destruct (ToString_digits n Hn) as (Hall & Hval & Hne).
    unfold parseInt. rewrite trimStart_digits by done.
    destruct (ToString n) as [|c s] eqn:E; [done|].
    assert (Hc : exists d, digit 10 c = Some d).
    { cbn in Hall. destruct (digit 10 c); [by eexists|discriminate]. }
    destruct Hc as (d & Hc). rewrite (strip_sign_digit c d s Hc).
    rewrite strip_hex_prefix_digits by done. rewrite Hval. f_equal. lia.
Qed.

(** [Number(String(n))] is [n]. *)
Lemma StringToNumber_ToString n : StringToNumber (ToString n) = Some n.
Proof.
  destruct (Z.lt_ge_cases n 0) as [Hn|Hn].
  - destruct (ToString_negative n Hn) as (s & -> & Hall & Hval & Hne).
    unfold StringToNumber, trim. cbn [trimStart]. change (is_space "-") with false.
    cbv iota. cbn [trimEnd]. rewrite trimEnd_digits by done.
    destruct s as [|c s]; [done|]. cbn [String.eqb]. cbn [strip_sign].
    cbv beta iota. rewrite Hall, Hval. unfold truthy. cbn. f_equal. lia.
  - destruct (ToString_digits n Hn) as (Hall & Hval & Hne).
    unfold StringToNumber, trim.
    rewrite trimStart_digits, trimEnd_digits by done.
    destruct (ToString n) as [|c s] eqn:E; [done|].
    assert (Hc : exists d, digit 10 c = Some d).
    { cbn in Hall. destruct (digit 10 c); [by eexists|discriminate]. }
    destruct Hc as (d & Hc). cbn [String.eqb].
    rewrite (strip_sign_digit c d s Hc). cbv beta iota.
    rewrite Hall, Hval. unfold truthy. cbn. f_equal. lia.
Qed.

Lemma ToString_inj n m : ToString n = ToString m -> n = m.
Proof.
  intros H. pose proof (StringToNumber_ToString n) as Hn.
  rewrite H, StringToNumber_ToString in Hn. congruence.
Qed.

(** An identifier that reads as the text of [n] converts to [n]. *)
Lemma ToNumber_String_ v n : String_ v = ToString n -> ToNumber v = Some n.
Proof.
  destruct v as [s|k]; cbn.
  - intros ->. apply StringToNumber_ToString.
  - by intros ->%ToString_inj.
Qed.

End DecimalText.

(** ** [server.js]: what the guards of each action establish *)

Section ServerTransitions.
Import JS Server.
Variable env : gmap string string.
Variable clock : nat -> string.
Variable uuid : nat -> string.

Lemma fresh_committed st a b d :
  Stats.totalVoters st = length (voters d) ->
  Stats.totalElections st = length (elections d) ->
  Stats.totalVotes st = length (votes d) ->
  Stats.totalCandidates st = length (candidates d) ->
  fresh st (committed (Some st) a b d).
Proof. intros. repeat split; fields; assumption. Qed.

(** A registration that passes the three guards stores the normalised
    request and refreshes the statistics. *)
Lemma registerVoter_stored data w :
  let wallet := voter_wallet data in
  let name := trim (or_else (data !! "name") "") in
  let idNumber := trim (or_else (or (data !! "idNumber") (data !! "dni")) "") in
  negb (truthy wallet) || negb (truthy name) || negb (truthy idNumber) = false ->
  negb (is_wallet wallet) = false ->
  existsb (fun v => String.eqb (toLowerCase (Voter.walletAddress v)) wallet)
          (voters (DATABASE w)) = false ->
  exists st a b n,
    let voter := Voter.mk wallet name idNumber (trim (or_else (data !! "email") ""))
                   (clock (dates w)) "Activo" in
    let D := committed (Some st) a b (set_voters (push voter) (DATABASE w)) in
    registerVoter clock uuid data w
    = (Return (Registered "✅ Votante registrado correctamente" wallet),
       mkWorld D (Some D) n (S (uuids w)))
    /\ fresh st D.
Proof.
  intros wallet name idNumber E1 E2 E3.
  unfold registerVoter; cbv zeta; fold (voter_wallet data); fold wallet name idNumber.
  do 4 eexists. split; [run_try; reflexivity|].
  apply fresh_committed; reflexivity.
Qed.

Lemma registerVoter_transition admins data w :
  transition admins w (registerVoter clock uuid data w).2.
Proof.
  pose proof (registerVoter_run clock uuid data w) as H. cbv zeta in H.
  destruct (negb (truthy (voter_wallet data)) || _ || _) eqn:E1;
    [rewrite H; by eapply transition_failed|].
  destruct (negb (is_wallet (voter_wallet data))) eqn:E2;
    [rewrite H; by eapply transition_failed|].
  destruct (existsb _ _) eqn:E3; [rewrite H; by eapply transition_failed|].
  clear H.
  destruct (registerVoter_stored data w E1 E2 E3) as (st & a & b & n & H & Hst).
  cbv zeta in H, Hst. rewrite H.
  eapply transition_voter; [reflexivity|reflexivity| |exact E3|exact Hst].
  apply orb_false_iff in E1 as [[E1a E1b]%orb_false_iff E1c].
  apply negb_false_iff in E1a, E1b, E1c, E2.
  repeat split; cbn [Voter.walletAddress Voter.name Voter.idNumber Voter.status].
  - exact E2.
  - apply trim_toLowerCase_lowered.
  - by apply truthy_nonempty.
  - by apply truthy_nonempty.
Qed.

Lemma createElection_stored data w :
  let admin := trim (toLowerCase (or_else (data !! "adminAddress") "")) in
  let title := trim (or_else (data !! "title") "") in
  negb (truthy admin) || negb (truthy title) = false ->
  negb (bool_decide (admin ∈ ADMIN_ADDRESSES (CONFIG env))) = false ->
  exists election message st a b n,
    let D := committed (Some st) a b (set_elections (push election) (DATABASE w)) in
    createElection env clock uuid data w
    = (Return (ElectionCreated message (Z.of_nat (length (elections (DATABASE w))) + 1)),
       mkWorld D (Some D) n (S (uuids w)))
    /\ fresh st D.
Proof.
  intros admin title E1 E2.
  unfold createElection; cbv zeta; fold admin title.
  do 6 eexists. split; [run_try; reflexivity|].
  apply fresh_committed; reflexivity.
Qed.

Lemma createElection_transition data w :
  transition (ADMIN_ADDRESSES (CONFIG env)) w (createElection env clock uuid data w).2.
Proof.
  pose proof (createElection_run env clock uuid data w) as H. cbv zeta in H.
  destruct (negb (truthy _) || negb (truthy _)) eqn:E1;
    [rewrite H; by eapply transition_failed|].
  destruct (negb (bool_decide _)) eqn:E2; [rewrite H; by eapply transition_failed|].
  clear H.
  destruct (createElection_stored data w E1 E2) as (el & m & st & a & b & n & H & Hst).
  cbv zeta in H, Hst. rewrite H.
  apply orb_false_iff in E1 as [E1a E1b]. apply negb_false_iff in E1a, E2.
  eapply transition_election; [reflexivity|reflexivity| | |exact Hst].
  - by apply bool_decide_eq_true in E2.
  - by apply truthy_nonempty.
Qed.

Lemma addCandidate_transition admins data w :
  transition admins w (addCandidate clock uuid data w).2.
Proof.
  pose proof (addCandidate_run clock uuid data w) as H. cbv zeta in H.
  repeat case_match; try (rewrite H; by eapply transition_failed).
  destruct H as (c & a & b & n & -> & He & Hid & Hv & Hb).
  eapply transition_candidate; [reflexivity|reflexivity|].
  rewrite He. unfold has_election.
  match goal with E : negb _ = false |- _ => by apply negb_false_iff in E end.
Qed.

Lemma recordVote_stored data w e c :
  truthy (vote_wallet data) = true ->
  nonzero (parseInt (data !! "electionId")) = Some e ->
  nonzero (parseInt (data !! "candidateId")) = Some c ->
  existsb (fun v => String.eqb (toLowerCase (Vote.walletAddress v)) (vote_wallet data)
                    && (Vote.electionId v =? e)) (votes (DATABASE w)) = false ->
  negb (existsb (fun x => (Candidate.electionId x =? e) && (Candidate.candidateId x =? c))
                (candidates (DATABASE w))) = false ->
  exists vote st a b n,
    let D := committed (Some st) a b (recomputed e (set_votes (push vote) (DATABASE w))) in
    recordVote clock uuid data w
    = (Return (VoteRecorded "🗳️ Voto registrado correctamente"
                 (or_else (or (data !! "txHash") (data !! "transactionHash")) "")),
       mkWorld D (Some D) n (S (uuids w)))
    /\ Vote.electionId vote = e /\ Vote.candidateId vote = c
    /\ Stats.totalVoters st = length (voters (DATABASE w))
    /\ Stats.totalElections st = length (retotal e (push vote (votes (DATABASE w)))
                                           (elections (DATABASE w)))
    /\ Stats.totalVotes st = length (push vote (votes (DATABASE w)))
    /\ Stats.totalCandidates st = length (recount e (push vote (votes (DATABASE w)))
                                            (candidates (DATABASE w))).
Proof.
  intros E1 E2 E3 E4 E5.
  unfold recordVote; cbv zeta; fold (vote_wallet data); rewrite E1, E2, E3.
  do 5 eexists. split; [run_try; reflexivity|]. repeat split; reflexivity.
Qed.

Lemma recordVote_transition admins data w :
  transition admins w (recordVote clock uuid data w).2.
Proof.
  pose proof (recordVote_run clock uuid data w) as H. cbv zeta in H.
  destruct (truthy (vote_wallet data)) eqn:E1;
    [|rewrite H; by eapply transition_failed].
  destruct (nonzero (parseInt (data !! "electionId"))) as [e|] eqn:E2;
    [|rewrite H; by eapply transition_failed].
  destruct (nonzero (parseInt (data !! "candidateId"))) as [c|] eqn:E3;
    [|rewrite H; by eapply transition_failed].
  destruct (existsb _ (votes _)) eqn:E4; [rewrite H; by eapply transition_failed|].
  destruct (negb (existsb _ (candidates _))) eqn:E5;
    [rewrite H; by eapply transition_failed|].
  clear H.
  destruct (recordVote_stored data w e c E1 E2 E3 E4 E5)
    as (v & st & a & b & n & H & He & Hc & H1 & H2 & H3 & H4).
  cbv zeta in H. rewrite H.
  eapply (transition_vote _ _ _ v st a b); rewrite ?He, ?Hc; [reflexivity|reflexivity| |].
  - unfold has_candidate. by apply negb_false_iff in E5.
  - cbn [snd DATABASE]. apply fresh_committed; fields; assumption.
Qed.

Lemma initializeSystem_transition admins w :
  transition admins w (initializeSystem clock uuid w).2.
Proof.
  destruct (length (blockchain (default (DATABASE w) (file w))) =? 0)%nat eqn:E.
  - assert (exists st b n m,
      let D := set_stats (Some st)
                 (set_blockchain (fun chain => (chain ++ [b])%list)
                    (default (DATABASE w) (file w))) in
      initializeSystem clock uuid w
      = (Return (Initialized "✅ Sistema inicializado correctamente"),
         mkWorld D (Some D) n m)
      /\ fresh st D) as (st & b & n & m & H & Hst).
    { unfold initializeSystem. do 4 eexists.
      split; [run_try; reflexivity|]. repeat split; reflexivity. }
    cbv zeta in H, Hst. rewrite H.
    eapply (transition_init _ _ _ st [b]); [reflexivity|reflexivity|exact Hst].
  - assert (exists st n m,
      let D := set_stats (Some st) (default (DATABASE w) (file w)) in
      initializeSystem clock uuid w
      = (Return (Initialized "✅ Sistema inicializado correctamente"),
         mkWorld D (Some D) n m)
      /\ fresh st D) as (st & n & m & H & Hst).
    { unfold initializeSystem. do 3 eexists.
      split; [run_try; reflexivity|]. repeat split; reflexivity. }
    cbv zeta in H, Hst. rewrite H.
    eapply (transition_init _ _ _ st []); [|reflexivity|exact Hst].
    cbn [snd DATABASE]. unfold set_stats, set_blockchain. fields.
    by rewrite app_nil_r.
Qed.

Lemma step_transition w req :
  transition (ADMIN_ADDRESSES (CONFIG env)) w (step env clock uuid w req).
Proof.
  destruct req as [[] data]; unfold step; cbn [fst snd handleAction].
  - apply initializeSystem_transition.
  - apply registerVoter_transition.
  - apply createElection_transition.
  - apply addCandidate_transition.
  - apply recordVote_transition.
  - apply recordVote_transition.
  - by apply transition_read.
  - unfold getCandidates. rewrite try_catch_run.
    destruct (nonzero _); by apply transition_read.
  - by apply transition_read.
  - by eapply transition_relayer.
Qed.

End ServerTransitions.

(** ** [server.js]: registry, statistics and file along every run *)

Section ServerRunsTidy.
Import JS Server.
Variable env : gmap string string.
Variable clock : nat -> string.
Variable uuid : nat -> string.

Lemma is_registered_false wallet vs :
  is_registered wallet vs = false ->
  Forall valid_voter vs -> wallet ∉ Voter.walletAddress <$> vs.
Proof.
  intros Hr Hv (v & -> & Hin)%list_elem_of_fmap.
  unfold is_registered in Hr.
  assert (Hx : existsb (fun x => String.eqb (toLowerCase (Voter.walletAddress x))
                                            (Voter.walletAddress v)) vs = true).
  { apply existsb_exists. exists v. split; [by apply list_elem_of_In|].
    rewrite Forall_forall in Hv. destruct (Hv v Hin) as (_ & -> & _).
    apply String.eqb_refl. }
  congruence.
Qed.

Lemma registry_ok_ext d d' :
  voters d' = voters d -> registry_ok d -> registry_ok d'.
Proof. intros Hv [H1 H2]. split; rewrite Hv; assumption. Qed.

Lemma registry_ok_transition admins w w' :
  synced w -> registry_ok (DATABASE w) -> transition admins w w' ->
  registry_ok (DATABASE w').
Proof.
  intros Hs Hr.
  assert (Hl : voters (default (DATABASE w) (file w)) = voters (DATABASE w)).
  { destruct (synced_loaded w Hs) as (a & ->). reflexivity. }
  intros [->|a ->|v st a b -> _ Hv Hreg _|el st a b ad -> _ _ _ _|c a b -> _ _
         |v st a b -> _ _ _|st g -> _ _|r -> _];
    try (eapply registry_ok_ext; [|exact Hr]; fields; done).
  destruct Hr as [H1 H2]. split; fields; unfold push.
  - apply Forall_app. split; [done|]. by apply Forall_singleton.
  - rewrite fmap_app. apply NoDup_app. split; [done|]. split.
    + intros x Hx ->%list_elem_of_singleton.
      by eapply is_registered_false.
    + apply NoDup_singleton.
Qed.

Lemma stats_ok_transition admins w w' :
  synced w -> stats_ok (DATABASE w) -> transition admins w w' ->
  stats_ok (DATABASE w').
Proof.
  intros Hs Hr.
  intros [->|a ->|v st a b -> _ _ _ Hst|el st a b ad -> _ _ _ Hst|c a b -> _ Hel
         |v st a b -> _ _ Hst|st g -> _ Hst|r -> _];
    try done;
    try (destruct Hst as (H1 & H2 & H3 & H4); unfold stats_ok;
         cbn [stats committed set_stats] in *; rewrite H1, H2, H3, H4; done).
  unfold stats_ok in *. fields.
  destruct (stats (DATABASE w)) as [st|].
  - destruct Hr as (H1 & H2 & H3 & H4). repeat split; try done.
    unfold push. rewrite length_app. cbn. lia.
  - destruct Hr as (_ & H2 & _). rewrite H2 in Hel. discriminate.
Qed.

Lemma flushed_saved w : file w = Some (DATABASE w) -> flushed w.
Proof.
  intros E. exists []. split; [done|]. rewrite E. cbn.
  unfold set_audit. rewrite app_nil_r. by destruct (DATABASE w).
Qed.

Lemma flushed_effect w w' : flushed w -> effect w w' -> flushed w'.
Proof.
  intros (l & Hl & HD) [Hd Hf|a Hd Hf Ha| | | | | | |]; try (by apply flushed_saved).
  - exists l. split; [done|]. by rewrite Hf, Hd.
  - exists (l ++ [a])%list. split; [apply Forall_app; split; [done|by apply Forall_singleton]|].
    rewrite Hf, Hd, HD. unfold set_audit, push. cbn. by rewrite app_assoc.
Qed.

Lemma tidy_step w req : tidy w -> tidy (step env clock uuid w req).
Proof.
  intros ([Hc Hs] & Hr & Hst & Hf).
  pose proof (step_effect env clock uuid w req) as He.
  pose proof (step_transition env clock uuid w req) as Ht.
  split; [by apply world_ok_step|].
  split; [by eapply registry_ok_transition|].
  split; [by eapply stats_ok_transition|by eapply flushed_effect].
Qed.

Lemma tidy_run reqs w : tidy w -> tidy (run env clock uuid reqs w).
Proof.
  revert w. induction reqs as [|req reqs IH]; intros w Hw; [done|].
  rewrite run_cons. apply IH. by apply tidy_step.
Qed.

Lemma tidy_boot : tidy boot.
Proof.
  split; [apply world_ok_boot|]. split; [split; cbn; [done|apply NoDup_nil_2]|].
  split; [done|]. exists []. done.
Qed.

End ServerRunsTidy.

(** ** The runtime: sorting by a key, largest first *)

Section SortDescending.
Import JS.
Context {A : Type} (key : A -> Z).

Abbreviation descending := (fun a b : A => key b - key a).
Abbreviation before := (fun a b : A => key b <= key a).

Lemma insert_sorted_Permutation x l : insert_sorted descending x l ≡ₚ x :: l.
Proof.
  induction l as [|y l IH]; [done|]. cbn [insert_sorted].
  destruct (key x - key y <=? 0); [|done].
  rewrite IH. apply Permutation_swap.
Qed.

Lemma sort_foldl_Permutation sorted l :
  foldl (fun sorted x => insert_sorted descending x sorted) sorted l ≡ₚ sorted ++ l.
Proof.
  revert sorted. induction l as [|x l IH]; intros sorted; cbn [foldl].
  - by rewrite app_nil_r.
  - rewrite IH, insert_sorted_Permutation. apply Permutation_middle.
Qed.

Lemma sort_Permutation l : sort descending l ≡ₚ l.
Proof. apply sort_foldl_Permutation. Qed.

Lemma insert_sorted_StronglySorted x l :
  StronglySorted before l -> StronglySorted before (insert_sorted descending x l).
Proof.
  induction 1 as [|y l Hl IH Hy]; cbn [insert_sorted].
  - by repeat constructor.
  - destruct (key x - key y <=? 0) eqn:E.
    + apply Z.leb_le in E. constructor; [done|].
      rewrite insert_sorted_Permutation. constructor; [lia|done].
    + apply Z.leb_gt in E. constructor; [by constructor|].
      constructor; [lia|]. eapply Forall_impl; [exact Hy|]. cbn. intros; lia.
Qed.

Lemma sort_foldl_StronglySorted sorted l :
  StronglySorted before sorted ->
  StronglySorted before (foldl (fun sorted x => insert_sorted descending x sorted) sorted l).
Proof.
  revert sorted. induction l as [|x l IH]; intros sorted Hs; [done|].
  cbn [foldl]. by apply IH, insert_sorted_StronglySorted.
Qed.

Lemma sort_StronglySorted l : StronglySorted before (sort descending l).
Proof. apply sort_foldl_StronglySorted. constructor. Qed.

Lemma filter_none (P : A -> Prop) `{!forall a, Decision (P a)} (l : list A) :
  Forall (fun a => ~ P a) l -> filter P l = [].
Proof.
  induction 1 as [|a l Ha _ IH]; [done|]. by rewrite filter_cons_False.
Qed.

(** The sort keeps the elements of one key in their order. *)
Lemma insert_sorted_stable k x l :
  StronglySorted before l ->
  filter (fun a => key a = k) (insert_sorted descending x l)
  = (filter (fun a => key a = k) l ++ filter (fun a => key a = k) [x])%list.
Proof.
  induction 1 as [|y l Hl IH Hy]; cbn [insert_sorted]; [done|].
  destruct (key x - key y <=? 0) eqn:E.
  - rewrite !(filter_cons _ y), IH. by destruct (decide (key y = k)).
  - apply Z.leb_gt in E. rewrite (filter_cons _ x (y :: l)), (filter_cons _ x []).
    destruct (decide (key x = k)) as [Hx|Hx].
    + rewrite (filter_none _ (y :: l)); [done|].
      constructor; [lia|]. eapply Forall_impl; [exact Hy|]. cbn. intros; lia.
    + by rewrite filter_nil, app_nil_r.
Qed.

Lemma sort_foldl_stable k sorted l :
  StronglySorted before sorted ->
  filter (fun a => key a = k)
         (foldl (fun sorted x => insert_sorted descending x sorted) sorted l)
  = (filter (fun a => key a = k) sorted ++ filter (fun a => key a = k) l)%list.
Proof.
  revert sorted. induction l as [|x l IH]; intros sorted Hs; cbn [foldl].
  - by rewrite filter_nil, app_nil_r.
  - rewrite IH by (by apply insert_sorted_StronglySorted).
    rewrite insert_sorted_stable by done.
    rewrite <- app_assoc. f_equal. by rewrite (filter_cons _ x), (filter_cons _ x), filter_nil;
      destruct (decide (key x = k)).
Qed.

Lemma sort_stable k l :
  filter (fun a => key a = k) (sort descending l) = filter (fun a => key a = k) l.
Proof. unfold sort. rewrite sort_foldl_stable by constructor. done. Qed.

End SortDescending.

(** ** [server.js]: the collections only grow *)

Section ServerExtends.
Import JS Server.
Variable env : gmap string string.
Variable clock : nat -> string.
Variable uuid : nat -> string.

Lemma extends_refl d : extends d d.
Proof. repeat split; reflexivity. Qed.

Lemma extends_trans d1 d2 d3 : extends d1 d2 -> extends d2 d3 -> extends d1 d3.
Proof.
  intros (A1 & A2 & A3 & A4 & A5 & A6) (B1 & B2 & B3 & B4 & B5 & B6).
  repeat split; etrans; eassumption.
Qed.

Lemma extends_effect w w' : synced w -> effect w w' -> extends (DATABASE w) (DATABASE w').
Proof.
  intros Hs He. destruct (synced_loaded w Hs) as (a0 & Hl).
  destruct He as [-> _|a -> _ _|v s a b -> _ Hb|el s a b -> _ Hb Hid Htot Hst
          |c s a b -> _ Hb Hel Hid Hv|v s a b -> _ Hb Hcand Hlow Hnew
          |s -> _ _|s b -> _ Hnil Hb|r -> _]; rewrite ?Hl;
    unfold extends; fields; rewrite ?retotal_bare_fmap, ?recount_bare_fmap;
    unfold push; rewrite ?fmap_app;
    repeat split; first [reflexivity|by apply prefix_app_r].
Qed.

Lemma extends_run reqs w :
  synced w ->
  synced (run env clock uuid reqs w)
  /\ extends (DATABASE w) (DATABASE (run env clock uuid reqs w)).
Proof.
  revert w. induction reqs as [|req reqs IH]; intros w Hs.
  - split; [done|apply extends_refl].
  - rewrite run_cons. pose proof (step_effect env clock uuid w req) as He.
    destruct (IH _ (synced_effect _ _ Hs He)) as (Hs' & Hx).
    split; [done|]. eapply extends_trans; [|exact Hx]. by apply extends_effect.
Qed.

Lemma run_app reqs1 reqs2 w :
  run env clock uuid (reqs1 ++ reqs2) w
  = run env clock uuid reqs2 (run env clock uuid reqs1 w).
Proof. unfold run. by rewrite foldl_app. Qed.

(** An election of an earlier database is an election of a later one. *)
Lemma has_election_extends d d' e :
  extends d d' -> has_election e (elections d) = true ->
  has_election e (elections d') = true.
Proof.
  intros (_ & [k Hk] & _) (el & Hel & He)%has_election_spec.
  assert (Hin : bare_election el ∈ bare_election <$> elections d').
  { rewrite Hk. apply elem_of_app. left. by apply list_elem_of_fmap_2. }
  apply list_elem_of_fmap in Hin as (el' & Hb & Hel').
  apply has_election_spec. exists el'. split; [done|].
  rewrite <- He. by injection Hb.
Qed.

End ServerExtends.

(** ** [server.js]: registry, catalog and references along every run *)

Section ServerFurther.
Import JS Server.
Variable env : gmap string string.
Variable clock : nat -> string.
Variable uuid : nat -> string.

(** X1. Along every run of requests from the empty database, every voter
    of the registry has a wallet of the form 0x and forty hexadecimal
    digits, in lower case, a name and an identity number that are not
    empty, and the status [Activo]; no two voters share a wallet. *)
Theorem registry_wellformed reqs :
  let d := DATABASE (run env clock uuid reqs boot) in
  Forall valid_voter (voters d) /\ NoDup (Voter.walletAddress <$> voters d).
Proof.
  intros d.
  destruct (tidy_run env clock uuid reqs boot tidy_boot) as (_ & [H1 H2] & _).
  done.
Qed.

(** X2. [createElection] answers every request; when it succeeds it
    appends one election, active and with no votes, whose identifier is
    the number of elections before it plus one, and returns that
    identifier; when it fails the catalog is unchanged. So along every
    run the election identifiers are 1, 2, ..., n in order. *)
Theorem election_numbering :
  (forall data w,
     exists r w',
       createElection env clock uuid data w = (Return r, w')
       /\ if success r
          then exists el message,
                 r = ElectionCreated message (Election.electionId el)
                 /\ elections (DATABASE w') = (elections (DATABASE w) ++ [el])%list
                 /\ Election.electionId el = Z.of_nat (length (elections (DATABASE w))) + 1
                 /\ Election.totalVotes el = 0%nat
                 /\ Election.status el = "Activa"
          else elections (DATABASE w') = elections (DATABASE w))
  /\ (forall reqs,
        let d := DATABASE (run env clock uuid reqs boot) in
        Election.electionId <$> elections d = Z.of_nat <$> seq 1 (length (elections d))).
Proof.
  split.
  - intros data w.
    pose proof (createElection_run env clock uuid data w) as H. cbv zeta in H.
    repeat case_match; try (rewrite H; eexists _, _; split; reflexivity).
    destruct H as (el & m & s & a & b & n & -> & Hid & _ & Htot & Hst & _).
    eexists _, _. split; [reflexivity|]. cbn [success].
    exists el, m. rewrite Hid. repeat split; done.
  - intros reqs d.
    destruct (world_ok_run env clock uuid reqs boot world_ok_boot) as [Hd _]. fold d in Hd.
    apply list_eq. intros i. rewrite !list_lookup_fmap.
    destruct (elections d !! i) as [el|] eqn:E; cbn.
    + rewrite (elections_dense d Hd i el E).
      rewrite lookup_seq_lt by (by eapply lookup_lt_Some). done.
    + rewrite lookup_seq_ge; [done|]. by apply lookup_ge_None.
Qed.

(** X3. Along every run, every candidate of the database belongs to an
    election of the catalog, and every vote of the ledger names a
    candidate of the database and, with it, an election of the catalog. *)
Theorem ledger_references reqs :
  let d := DATABASE (run env clock uuid reqs boot) in
  Forall (fun c => has_election (Candidate.electionId c) (elections d) = true)
         (candidates d)
  /\ Forall (fun v => has_candidate (Vote.electionId v) (Vote.candidateId v)
                                    (candidates d) = true
                      /\ has_election (Vote.electionId v) (elections d) = true)
            (votes d).
Proof.
  intros d.
  destruct (world_ok_run env clock uuid reqs boot world_ok_boot) as [Hd _]. fold d in Hd.
  assert (Hc : forall c, c ∈ candidates d ->
                 has_election (Candidate.electionId c) (elections d) = true).
  { intros c Hc. apply has_election_spec. by apply (candidates_owned d Hd). }
  split; apply Forall_forall.
  - exact Hc.
  - intros v Hv. destruct (votes_refer d Hd v Hv) as (c & Hin & He & Hi).
    split.
    + apply has_candidate_spec. by exists c.
    + rewrite <- He. by apply Hc.
Qed.

Lemma failed_atomic action user data err w :
  exists r w',
    failed clock action user data err w = (Return r, w')
    /\ (success r = false ->
        exists err a,
          r = Failure err
          /\ DATABASE w' = set_audit (push a) (DATABASE w)
          /\ file w' = file w
          /\ AuditEntry.status a = "error" /\ AuditEntry.error a = err
          /\ AuditEntry.details a = VStr <$> data).
Proof.
  eexists _, _. split; [reflexivity|]. intros _. eexists _, _. repeat split.
Qed.

(** X4. A mutating action that fails has no partial effect: it answers
    with the failure, and the only change of the world is one entry at
    the end of the audit log, of status [error], that records the message
    and the request; the collections, the block chain, the statistics
    and the file are as before. *)
Theorem failed_action_atomic action data w :
  mutating action = true ->
  exists r w',
    handleAction env clock uuid action data w = (Return r, w')
    /\ (success r = false ->
        exists err a,
          r = Failure err
          /\ DATABASE w' = set_audit (push a) (DATABASE w)
          /\ file w' = file w
          /\ AuditEntry.status a = "error" /\ AuditEntry.error a = err
          /\ AuditEntry.details a = VStr <$> data).
Proof.
  intros Ha. destruct action; try discriminate; cbn [handleAction].
  - pose proof (registerVoter_run clock uuid data w) as H. cbv zeta in H.
    repeat case_match; try (rewrite H; apply failed_atomic).
    destruct H as (? & ? & ? & ? & ? & -> & _). by eexists _, _.
  - pose proof (createElection_run env clock uuid data w) as H. cbv zeta in H.
    repeat case_match; try (rewrite H; apply failed_atomic).
    destruct H as (? & ? & ? & ? & ? & ? & -> & _). by eexists _, _.
  - pose proof (addCandidate_run clock uuid data w) as H. cbv zeta in H.
    repeat case_match; try (rewrite H; apply failed_atomic).
    destruct H as (? & ? & ? & ? & -> & _). by eexists _, _.
  - pose proof (recordVote_run clock uuid data w) as H. cbv zeta in H.
    repeat case_match; try (rewrite H; apply failed_atomic).
    destruct H as (? & ? & ? & ? & ? & -> & _). by eexists _, _.
  - pose proof (recordVote_run clock uuid data w) as H. cbv zeta in H.
    repeat case_match; try (rewrite H; apply failed_atomic).
    destruct H as (? & ? & ? & ? & ? & -> & _). by eexists _, _.
Qed.

Lemma sum_list_with_fmap {A B} (f : B -> nat) (g : A -> B) (l : list A) :
  sum_list_with f (g <$> l) = sum_list_with (fun x => f (g x)) l.
Proof. induction l as [|x l IH]; [done|]. cbn. by rewrite IH. Qed.

(** X5. Along every run, [getCandidates] for an election identifier lists
    the candidates of that election in the order they were added: the
    identifiers listed are 1, 2, ..., n, the votes listed for a candidate
    are the number of ledger votes for it, and they add up to the number
    of ledger votes of the election. A request whose [electionId] is
    absent, zero or starts with no digit is refused. In both cases the
    world is left as it is (no audit entry is written). *)
Theorem getCandidates_listing reqs data :
  let w := run env clock uuid reqs boot in
  let d := DATABASE w in
  match nonzero (parseInt (data !! "electionId")) with
  | Some e =>
      exists l,
        getCandidates data w = (Return (Candidates l), w)
        /\ CandidateView.CandidateID <$> l = Z.of_nat <$> seq 1 (length l)
        /\ CandidateView.Name <$> l = Candidate.name <$> candidates_of e (candidates d)
        /\ CandidateView.Votes <$> l
           = (fun c => length (votes_for e (Candidate.candidateId c) (votes d)))
               <$> candidates_of e (candidates d)
        /\ sum_list_with CandidateView.Votes l = length (votes_of e (votes d))
  | None =>
      getCandidates data w = (Return (Failure "Election ID es obligatorio"), w)
  end.
Proof.
  intros w d.
  destruct (world_ok_run env clock uuid reqs boot world_ok_boot) as [Hd _].
  fold w in Hd. fold d in Hd.
  unfold getCandidates. rewrite try_catch_run.
  destruct (nonzero (parseInt (data !! "electionId"))) as [e|]; [|reflexivity].
  eexists. split; [reflexivity|]. fold d. fold (candidates_of e (candidates d)).
  rewrite length_fmap, <- !list_fmap_compose.
  split; [apply (candidate_ids_dense d e Hd)|]. split; [done|]. split.
  - apply list_fmap_ext. intros i c Hc%list_elem_of_lookup_2.
    apply list_elem_of_filter in Hc as [He Hc]. unfold compose. cbn.
    rewrite (candidate_tally d Hd c Hc). by rewrite He.
  - rewrite sum_list_with_fmap. cbn. apply (tally_sum d e Hd).
Qed.

End ServerFurther.

(** ** [server.js]: results, statistics, restart and configuration *)

Section ServerQueries.
Import JS Server.
Variable env : gmap string string.
Variable clock : nat -> string.
Variable uuid : nat -> string.

Lemma StronglySorted_impl {A} (R R' : A -> A -> Prop) (l : list A) :
  (forall a b, R a b -> R' a b) -> StronglySorted R l -> StronglySorted R' l.
Proof.
  intros HR. induction 1 as [|a l Hl IH Ha]; constructor; [done|].
  eapply Forall_impl; [exact Ha|]. apply HR.
Qed.

(** X6. Along every run, [getResults] for an election of the catalog
    returns the election's total, which is the number of ledger votes of
    the election, and one row per candidate of the election, ordered by
    votes, largest first; candidates with equal votes keep the order in
    which they were added, and the votes of the rows add up to the total.
    A request that names no election of the catalog, or no election at
    all, is refused. The world is left as it is. *)
Theorem getResults_ranking parseFloat reqs data :
  let w := run env clock uuid reqs boot in
  let d := DATABASE w in
  match nonzero (parseInt (data !! "electionId")) with
  | Some e =>
      if has_election e (elections d) then
        exists el rows,
          getResults parseFloat data w = (Return (ResultsOf el rows), w)
          /\ ResultElection.id el = e
          /\ ResultElection.totalVotes el = length (votes_of e (votes d))
          /\ rows ≡ₚ result_row parseFloat <$> candidates_of e (candidates d)
          /\ StronglySorted (fun a b => (ResultRow.votes b <= ResultRow.votes a)%nat) rows
          /\ (forall k,
                filter (fun r => ResultRow.votes r = k) rows
                = filter (fun r => ResultRow.votes r = k)
                         (result_row parseFloat <$> candidates_of e (candidates d)))
          /\ sum_list_with ResultRow.votes rows = ResultElection.totalVotes el
      else
        getResults parseFloat data w
        = (Return (ResultsFailure "Elección no encontrada"), w)
  | None =>
      getResults parseFloat data w
      = (Return (ResultsFailure "Election ID es obligatorio"), w)
  end.
Proof.
  intros w d.
  destruct (world_ok_run env clock uuid reqs boot world_ok_boot) as [Hd _].
  fold w in Hd. fold d in Hd.
  unfold getResults. rewrite try_catch_run.
  destruct (nonzero (parseInt (data !! "electionId"))) as [e|]; [|reflexivity].
  rewrite bind_get. fold d.
  unfold has_election. rewrite <- find_existsb.
  destruct (List.find (fun el => Election.electionId el =? e) (elections d))
    as [el|] eqn:F.
  - rewrite bool_decide_eq_true_2 by (by eexists).
    apply find_some in F as [Hin He]. apply Z.eqb_eq in He.
    apply list_elem_of_In in Hin.
    set (key := fun r : ResultRow.t => Z.of_nat (ResultRow.votes r)).
    eexists _, _. split; [reflexivity|].
    cbn [ResultElection.id ResultElection.totalVotes].
    split; [done|].
    split; [rewrite <- He; by apply election_tally|].
    split; [apply (sort_Permutation key)|].
    split.
    { eapply StronglySorted_impl; [|apply (sort_StronglySorted key)].
      unfold key. cbn. intros; lia. }
    split.
    { intros k.
      rewrite (list_filter_iff _ (fun r => key r = Z.of_nat k))
        by (unfold key; intros; lia).
      rewrite (list_filter_iff (fun r => ResultRow.votes r = k)
                               (fun r => key r = Z.of_nat k))
        by (unfold key; intros; lia).
      apply (sort_stable key). }
    pose proof (sort_Permutation key
                  (result_row parseFloat <$> candidates_of e (candidates d))) as HP.
    apply (sum_list_with_Permutation_proper ResultRow.votes) in HP.
    etrans; [exact HP|]. rewrite sum_list_with_fmap.
    etrans; [apply (tally_sum d e Hd)|]. rewrite <- He. symmetry. by apply election_tally.
  - rewrite bool_decide_eq_false_2 by (by intros [? ?]). reflexivity.
Qed.

(** X7. Along every run the cached [DATABASE.stats] counts the voters,
    the elections and the votes of the database exactly, and counts at
    most its candidates; with no statistics yet the four collections are
    empty. The count of candidates can lag: [addCandidate] does not
    refresh the cache. *)
Theorem stats_cache :
  (forall reqs, stats_ok (DATABASE (run env clock uuid reqs boot)))
  /\ (exists reqs st,
        let d := DATABASE (run Scenario.env Scenario.clock Scenario.uuid reqs boot) in
        stats d = Some st
        /\ (Stats.totalCandidates st < length (candidates d))%nat).
Proof.
  split.
  - intros reqs.
    by destruct (tidy_run env clock uuid reqs boot tidy_boot) as (_ & _ & H & _).
  - exists Scenario.setup. eexists. cbv zeta. split; [vm_compute; reflexivity|].
    vm_compute. lia.
Qed.

(** What [initializeSystem] does: it loads the file, appends the genesis
    block to an empty chain, refreshes the statistics and saves. *)
Lemma initializeSystem_loaded w :
  let D0 := default (DATABASE w) (file w) in
  exists st genesis n m,
    let D := set_stats (Some st)
               (set_blockchain (fun chain => (chain ++ genesis)%list) D0) in
    initializeSystem clock uuid w
    = (Return (Initialized "✅ Sistema inicializado correctamente"),
       mkWorld D (Some D) n m)
    /\ fresh st D
    /\ if (length (blockchain D0) =? 0)%nat
       then exists b, genesis = [b] /\ Block.action b = "GENESIS"
                      /\ Block.blockNumber b = 0%nat
       else genesis = [].
Proof.
  intros D0. subst D0.
  destruct (length (blockchain (default (DATABASE w) (file w))) =? 0)%nat eqn:E.
  - unfold initializeSystem. eexists _, [_], _, _.
    split; [run_try; reflexivity|]. split; [repeat split; reflexivity|].
    eexists. repeat split.
  - unfold initializeSystem. eexists _, [], _, _.
    split.
    { run_try. unfold set_stats, set_blockchain. fields. by rewrite app_nil_r. }
    split; [repeat split; reflexivity|reflexivity].
Qed.

(** X8. After every run, a restart of the server restores from the file
    the voters, the elections, the candidates, the votes and the relayer
    log as they were in memory, and the block chain, to which it appends
    the genesis block if the chain was empty. Of the audit log a suffix
    may be lost: entries of failed actions, which are only written to the
    file by the next action that saves. (Every write of the file is taken
    to complete before the next request.) *)
Theorem restart_recovers reqs :
  let w := run env clock uuid reqs boot in
  let d := DATABASE w in
  let d' := DATABASE (startServer clock uuid w) in
  voters d' = voters d /\ elections d' = elections d
  /\ candidates d' = candidates d /\ votes d' = votes d
  /\ relayerLog d' = relayerLog d
  /\ (exists lost,
        audit d = (audit d' ++ lost)%list
        /\ Forall (fun a => AuditEntry.status a = "error") lost)
  /\ (exists genesis,
        blockchain d' = (blockchain d ++ genesis)%list
        /\ if (length (blockchain d) =? 0)%nat
           then exists b, genesis = [b] /\ Block.action b = "GENESIS"
                          /\ Block.blockNumber b = 0%nat
           else genesis = []).
Proof.
  intros w d d'.
  destruct (tidy_run env clock uuid reqs boot tidy_boot) as (_ & _ & _ & l & Hl & HD).
  fold w in HD. fold d in HD.
  destruct (initializeSystem_loaded (restart w)) as (st & g & n & m & H & _ & Hg).
  cbv zeta in H, Hg. cbn [restart DATABASE file] in H, Hg.
  unfold d', startServer. rewrite H. cbn [snd DATABASE].
  rewrite HD. fields.
  repeat split; try reflexivity.
  - by exists l.
  - by exists g.
Qed.

(** X9. Nothing that a run has stored in the registry, the catalog, the
    candidates, the ledger, the block chain or the relayer log is removed
    or reordered by the requests that follow: each of these collections
    after a longer run starts with the collection after the shorter one,
    up to the cached tallies of elections and candidates. *)
Theorem ledger_append_only reqs1 reqs2 :
  extends (DATABASE (run env clock uuid reqs1 boot))
          (DATABASE (run env clock uuid (reqs1 ++ reqs2) boot)).
Proof.
  rewrite run_app. apply extends_run.
  by destruct (world_ok_run env clock uuid reqs1 boot world_ok_boot).
Qed.

(** X10. Initialising twice is initialising once: after [initializeSystem]
    the block chain is not empty, and a second [initializeSystem] adds no
    second genesis block and changes nothing of the database but the
    statistics, which it refreshes. *)
Theorem initializeSystem_idempotent w :
  let w1 := (initializeSystem clock uuid w).2 in
  let w2 := (initializeSystem clock uuid w1).2 in
  blockchain (DATABASE w1) <> []
  /\ exists st,
       DATABASE w2 = set_stats (Some st) (DATABASE w1)
       /\ file w2 = Some (DATABASE w2)
       /\ fresh st (DATABASE w2).
Proof.
  intros w1 w2.
  destruct (initializeSystem_loaded w) as (st & g & n & m & H & _ & Hg).
  cbv zeta in H, Hg.
  assert (Hne : blockchain (DATABASE w1) <> []).
  { unfold w1. rewrite H. cbn [snd DATABASE]. fields.
    destruct (length _ =? 0)%nat eqn:E.
    - destruct Hg as (b & -> & _). by destruct (blockchain _).
    - apply Nat.eqb_neq in E. destruct (blockchain _); [done|discriminate]. }
  split; [done|].
  destruct (initializeSystem_loaded w1) as (st' & g' & n' & m' & H' & Hst' & Hg').
  cbv zeta in H', Hst', Hg'.
  assert (Hf : file w1 = Some (DATABASE w1)) by (unfold w1; by rewrite H).
  rewrite Hf in H', Hst', Hg'.
  change (default (DATABASE w1) (Some (DATABASE w1))) with (DATABASE w1) in H', Hst', Hg'.
  destruct (length (blockchain (DATABASE w1)) =? 0)%nat eqn:E.
  { apply Nat.eqb_eq, length_zero_iff_nil in E. done. }
  subst g'. exists st'.
  assert (HD : set_stats (Some st')
                 (set_blockchain (fun chain => (chain ++ [])%list) (DATABASE w1))
               = set_stats (Some st') (DATABASE w1)).
  { unfold set_stats, set_blockchain. fields. by rewrite app_nil_r. }
  rewrite HD in H', Hst'. unfold w2. rewrite H'. done.
Qed.

End ServerQueries.

(** ** [server.js]: the configured admins and acceptance *)

Section ServerAdmins.
Import JS Server.
Variable env : gmap string string.
Variable clock : nat -> string.
Variable uuid : nat -> string.

(** X11. An address listed in [ADMIN_ADDRESSES], in whatever letter case
    and with whatever blanks around it, is authorised: a request with a
    title whose [adminAddress] equals it after lower-casing and trimming
    creates the election, in every state of the server. *)
Theorem listed_admin_authorised data w a :
  a ∈ split (or_else (env !! "ADMIN_ADDRESSES") "") ->
  trim (toLowerCase a) <> "" ->
  trim (toLowerCase (or_else (data !! "adminAddress") "")) = trim (toLowerCase a) ->
  truthy (trim (or_else (data !! "title") "")) = true ->
  exists message w' el,
    createElection env clock uuid data w
    = (Return (ElectionCreated message (Election.electionId el)), w')
    /\ elections (DATABASE w') = (elections (DATABASE w) ++ [el])%list
    /\ Election.title el = trim (or_else (data !! "title") "").
Proof.
  intros Ha Hne Heq Ht.
  pose proof (createElection_run env clock uuid data w) as H. cbv zeta in H.
  rewrite Heq, Ht in H.
  apply truthy_nonempty in Hne. rewrite Hne in H. cbn [negb orb] in H.
  rewrite bool_decide_eq_true_2 in H.
  - cbn [negb] in H.
    destruct H as (el & m & s & a0 & b & n & -> & Hid & Htitle & _).
    eexists m, _, el. rewrite Hid. split; [reflexivity|]. split; [reflexivity|].
    exact Htitle.
  - unfold CONFIG. cbn [ADMIN_ADDRESSES]. apply list_elem_of_fmap.
    by exists a.
Qed.

Lemma inert_transition w w' :
  synced w ->
  elections (DATABASE w) = [] /\ candidates (DATABASE w) = [] /\ votes (DATABASE w) = [] ->
  transition [""] w w' ->
  elections (DATABASE w') = [] /\ candidates (DATABASE w') = []
  /\ votes (DATABASE w') = [].
Proof.
  intros Hs (He & Hc & Hv).
  destruct (synced_loaded w Hs) as (a0 & Hl).
  intros [->|a ->|v st a b -> _ _ _ _|el st a b ad -> _ Had Hne _|c a b -> _ Hel
         |v st a b -> _ Hcand _|st g -> _ _|r -> _]; rewrite ?Hl; fields; try done.
  - by apply list_elem_of_singleton in Had.
  - rewrite He in Hel. discriminate.
  - rewrite Hc in Hcand. discriminate.
Qed.

Lemma inert_run reqs w :
  ADMIN_ADDRESSES (CONFIG env) = [""] ->
  synced w ->
  elections (DATABASE w) = [] /\ candidates (DATABASE w) = [] /\ votes (DATABASE w) = [] ->
  let w' := run env clock uuid reqs w in
  elections (DATABASE w') = [] /\ candidates (DATABASE w') = []
  /\ votes (DATABASE w') = [].
Proof.
  intros Hadm. revert w. induction reqs as [|req reqs IH]; intros w Hs Hw; [done|].
  cbv zeta. rewrite run_cons.
  pose proof (step_effect env clock uuid w req) as He.
  pose proof (step_transition env clock uuid w req) as Ht. rewrite Hadm in Ht.
  apply IH; [by eapply synced_effect|by eapply inert_transition].
Qed.

(** X12. With no [ADMIN_ADDRESSES] in the environment (or an empty one)
    nobody is an admin: every [createElection] fails, so after every run
    the database has no election, no candidate and no vote. *)
Theorem no_admin_no_election reqs :
  or_else (env !! "ADMIN_ADDRESSES") "" = "" ->
  let d := DATABASE (run env clock uuid reqs boot) in
  elections d = [] /\ candidates d = [] /\ votes d = [].
Proof.
  intros Hno. apply inert_run; [|done|done].
  unfold CONFIG. cbn [ADMIN_ADDRESSES]. by rewrite Hno.
Qed.

(** X13. The identifier that [createElection] returns, sent back as its
    decimal text in the [electionId] of an [addCandidate] request with a
    name, selects the created election: the candidate is added to it,
    whatever requests were handled in between. *)
Theorem created_election_accepts_candidates data1 w message id w1 reqs data2 :
  createElection env clock uuid data1 w = (Return (ElectionCreated message id), w1) ->
  data2 !! "electionId" = Some (ToString id) ->
  truthy (trim (or_else (data2 !! "name") "")) = true ->
  let w2 := run env clock uuid reqs w1 in
  exists c w3,
    addCandidate clock uuid data2 w2
    = (Return (CandidateAdded "✅ Candidato agregado" (Candidate.candidateId c)), w3)
    /\ candidates (DATABASE w3) = (candidates (DATABASE w2) ++ [c])%list
    /\ Candidate.electionId c = id.
Proof.
  intros Hrun Hid Hname w2.
  pose proof (createElection_run env clock uuid data1 w) as H. cbv zeta in H.
  destruct (negb (truthy _) || negb (truthy _)) eqn:E1;
    [rewrite H in Hrun; discriminate|].
  destruct (negb (bool_decide _)) eqn:E2; [rewrite H in Hrun; discriminate|].
  destruct H as (el & m & s & a & b & n & H & Hel & _).
  rewrite H in Hrun. injection Hrun as _ Hidv <-.
  assert (Hpos : 1 <= id) by lia.
  assert (Hs : synced (mkWorld (committed s a b (set_elections (push el) (DATABASE w)))
                         (Some (committed s a b (set_elections (push el) (DATABASE w))))
                         n (S (uuids w)))) by (by apply synced_saved).
  destruct (extends_run env clock uuid reqs _ Hs) as (_ & Hx). fold w2 in Hx.
  assert (Hhas : has_election id (elections (DATABASE w2)) = true).
  { eapply has_election_extends; [exact Hx|]. cbn [DATABASE]. fields.
    apply has_election_spec. exists el. split; [|lia].
    unfold push. apply elem_of_app. right. by left. }
  destruct (ToString_digits id ltac:(lia)) as (_ & _ & Hne).
  assert (Hor : or (data2 !! "electionId") (data2 !! "election") = Some (ToString id)).
  { rewrite Hid. unfold or. apply truthy_nonempty in Hne. by rewrite Hne. }
  pose proof (addCandidate_run clock uuid data2 w2) as H2. cbv zeta in H2.
  rewrite Hor, parseInt_ToString, Hname in H2.
  assert (Hnz : nonzero (Int id) = Some id).
  { apply nonzero_Some. split; [done|lia]. }
  rewrite Hnz in H2. unfold has_election in Hhas. rewrite Hhas in H2. cbn [negb] in H2.
  destruct H2 as (c & a2 & b2 & n2 & H2 & Hce & Hcc & _).
  eexists c, _. rewrite Hcc. split; [exact H2|]. split; [reflexivity|done].
Qed.

(** X19. [registerVoter] answers every request, and accepts exactly the
    requests whose wallet, once lower-cased and trimmed, is 0x followed by
    forty hexadecimal digits and is not in the registry, and whose name
    and identity number are not blank. An accepted request appends the
    voter with the normalised wallet and the trimmed fields; a refused one
    leaves the registry as it is. *)
Theorem registerVoter_accepts data w :
  let wallet := voter_wallet data in
  let name := trim (or_else (data !! "name") "") in
  let idNumber := trim (or_else (or (data !! "idNumber") (data !! "dni")) "") in
  exists r w',
    registerVoter clock uuid data w = (Return r, w')
    /\ (success r = true
        <-> is_wallet wallet = true /\ name <> "" /\ idNumber <> ""
            /\ is_registered wallet (voters (DATABASE w)) = false)
    /\ if success r
       then r = Registered "✅ Votante registrado correctamente" wallet
            /\ voters (DATABASE w')
               = (voters (DATABASE w)
                  ++ [Voter.mk wallet name idNumber (trim (or_else (data !! "email") ""))
                        (clock (dates w)) "Activo"])%list
       else voters (DATABASE w') = voters (DATABASE w).
Proof.
  intros wallet name idNumber.
  pose proof (registerVoter_run clock uuid data w) as H. cbv zeta in H.
  fold wallet name idNumber in H.
  destruct (negb (truthy wallet) || negb (truthy name) || negb (truthy idNumber)) eqn:E1;
    [|destruct (negb (is_wallet wallet)) eqn:E2;
      [|destruct (existsb _ (voters (DATABASE w))) eqn:E3]].
  - rewrite H. eexists _, _. split; [reflexivity|]. split; [|reflexivity].
    split; [done|]. intros (Hw & Hn%truthy_nonempty & Hi%truthy_nonempty & _).
    rewrite Hn, Hi in E1. cbn [negb] in E1. rewrite !orb_false_r in E1.
    apply negb_true_iff in E1. unfold truthy in E1. apply negb_false_iff in E1.
    apply String.eqb_eq in E1. rewrite E1 in Hw. discriminate.
  - rewrite H. eexists _, _. split; [reflexivity|]. split; [|reflexivity].
    split; [done|]. intros (Hw & _). rewrite Hw in E2. discriminate.
  - rewrite H. eexists _, _. split; [reflexivity|]. split; [|reflexivity].
    split; [done|]. intros (_ & _ & _ & Hr). unfold is_registered in Hr. congruence.
  - clear H.
    destruct (registerVoter_stored clock uuid data w E1 E2 E3) as (st & a & b & n & H & _).
    cbv zeta in H. fold wallet name idNumber in H. rewrite H.
    eexists _, _. split; [reflexivity|]. split; [|split; reflexivity].
    split; [|done]. intros _.
    apply orb_false_iff in E1 as [[E1a E1b]%orb_false_iff E1c].
    apply negb_false_iff in E1b, E1c, E2.
    repeat split; [done|by apply truthy_nonempty..|done].
Qed.

End ServerAdmins.

(** ** [backend.js]: identifiers and counters of the store *)

(** Reads the fields of an updated store. *)
Ltac store_fields :=
  cbn [Backend.voters Backend.elections Backend.candidates Backend.votes
       Backend.sysActivity Backend.file Backend.lastCall fst snd] in *.

Section BackendStore.
Import JS Backend.
Variable getTime : value -> number.

Lemma Math_max_spec x l :
  Forall (fun y => y <= foldl Z.max x l) (x :: l) /\ foldl Z.max x l ∈ x :: l.
Proof.
  revert x. induction l as [|y l IH]; intros x; cbn [foldl].
  - split; [by constructor|by left].
  - destruct (IH (Z.max x y)) as [Hle Hin].
    apply Forall_cons in Hle as [Hm Hl]. split.
    + constructor; [lia|]. constructor; [lia|done].
    + apply elem_of_cons in Hin as [Hin|Hin].
      * rewrite Hin. destruct (Z.max_spec x y) as [[_ ->]|[_ ->]].
        -- right. by left.
        -- by left.
      * by do 2 right.
Qed.

Lemma nextId_bound ids :
  Forall (fun x => x < nextId ids) ids
  /\ match ids with
     | [] => nextId ids = 1
     | _ => nextId ids - 1 ∈ ids
     end.
Proof.
  destruct ids as [|x l]; [by split|].
  unfold nextId, Math_max. destruct (Math_max_spec x l) as [Hle Hin]. split.
  - eapply Forall_impl; [exact Hle|]. cbn. intros; lia.
  - by replace (foldl Z.max x l + 1 - 1) with (foldl Z.max x l) by lia.
Qed.

Lemma dense_elem ids x : dense ids -> x ∈ ids -> 1 <= x <= Z.of_nat (length ids).
Proof.
  unfold dense. intros Hd Hx. rewrite Hd in Hx.
  apply list_elem_of_fmap in Hx as (n & -> & Hn). apply elem_of_seq in Hn. lia.
Qed.

Lemma nextId_of_dense ids : dense ids -> nextId ids = Z.of_nat (length ids) + 1.
Proof.
  intros Hd.
  pose proof (proj1 (Forall_forall _ _) (proj1 (nextId_bound ids))) as Hall.
  pose proof (proj2 (nextId_bound ids)) as Hin.
  destruct ids as [|x l] eqn:E; [done|]. rewrite <- E in *.
  apply (dense_elem _ _ Hd) in Hin.
  assert (Hlast : Z.of_nat (length ids) ∈ ids).
  { assert (Hpos : (0 < length ids)%nat) by (rewrite E; cbn; lia).
    unfold dense in Hd. rewrite Hd, length_fmap, length_seq.
    apply list_elem_of_fmap. exists (length ids). split; [done|].
    apply elem_of_seq. lia. }
  apply Hall in Hlast. lia.
Qed.

Lemma dense_snoc ids : dense ids -> dense (ids ++ [nextId ids]).
Proof.
  intros Hd. unfold dense. rewrite length_app. cbn [length].
  rewrite seq_app, fmap_app. rewrite <- Hd. f_equal.
  rewrite (nextId_of_dense ids Hd). cbn. f_equal. lia.
Qed.

(** X14. [nextId] of a collection is larger than every identifier of the
    collection: it is 1 for the empty collection and otherwise one more
    than an identifier of the collection; so a record appended with it
    to a collection numbered 1, 2, ..., n gets the number n + 1. *)
Theorem nextId_fresh ids :
  Forall (fun x => x < nextId ids) ids
  /\ match ids with
     | [] => nextId ids = 1
     | _ => nextId ids - 1 ∈ ids
     end
  /\ (dense ids ->
      nextId ids = Z.of_nat (length ids) + 1 /\ dense (ids ++ [nextId ids])).
Proof.
  destruct (nextId_bound ids) as [H1 H2]. split; [done|]. split; [done|].
  intros Hd. split; [by apply nextId_of_dense|by apply dense_snoc].
Qed.

Lemma update_first_fmap {A B} (g : A -> B) (p : A -> bool) (f : A -> A) (l : list A) :
  (forall x, g (f x) = g x) -> g <$> update_first p f l = g <$> l.
Proof.
  intros Hg. induction l as [|x l IH]; [done|]. cbn [update_first].
  destruct (p x); rewrite !fmap_cons; [by rewrite Hg|by rewrite IH].
Qed.

Lemma update_first_Forall {A} (P Q : A -> Prop) (p : A -> bool) (f : A -> A) (l : list A) :
  (forall x, P x -> Q x) -> (forall x, P x -> p x = true -> Q (f x)) ->
  Forall P l -> Forall Q (update_first p f l).
Proof.
  intros HPQ Hf. induction 1 as [|x l Hx Hl IH]; cbn [update_first]; [done|].
  destruct (p x) eqn:E.
  - constructor; [by apply Hf|]. eapply Forall_impl; [exact Hl|]. exact HPQ.
  - constructor; [by apply HPQ|done].
Qed.

Lemma votes_of_snoc e v vs :
  length (votes_of e (vs ++ [v]))
  = (length (votes_of e vs) + if decide (Vote.ElectionID v = e) then 1 else 0)%nat.
Proof.
  unfold votes_of. rewrite filter_app, length_app. f_equal.
  rewrite filter_cons, filter_nil. by destruct (decide _).
Qed.

Lemma votes_naming_snoc c v vs :
  length (votes_naming c (vs ++ [v]))
  = (length (votes_naming c vs) + if decide (Vote.CandidateID v = c) then 1 else 0)%nat.
Proof.
  unfold votes_naming. rewrite filter_app, length_app. f_equal.
  rewrite filter_cons, filter_nil. by destruct (decide _).
Qed.

Lemma registerVoter_ok clk body db r db' :
  registerVoter clk body db = (r, db') -> store_ok db -> store_ok db'.
Proof.
  unfold registerVoter. intros H [H1 H2 H3 H4 H5 H6].
  repeat case_match; injection H as <- <-; try (by split).
  split; store_fields; try assumption.
  unfold push. rewrite fmap_app. by apply dense_snoc.
Qed.

Lemma createElection_ok clk body db r db' :
  createElection clk body db = (r, db') -> store_ok db -> store_ok db'.
Proof.
  unfold createElection. intros [= <- <-] [H1 H2 H3 H4 H5 H6].
  split; store_fields; try assumption; unfold push.
  - rewrite fmap_app. by apply dense_snoc.
  - apply Forall_app. split; [done|]. apply Forall_singleton. cbn. lia.
Qed.

Lemma addCandidate_ok clk body db r db' :
  addCandidate clk body db = Some (r, db') -> store_ok db -> store_ok db'.
Proof.
  unfold addCandidate. intros H [H1 H2 H3 H4 H5 H6].
  repeat case_match; try (injection H as <- <-; by split).
  destruct (ToNumber _) as [E|]; [|discriminate]. cbn in H. injection H as <- <-.
  split; store_fields; try assumption; unfold push.
  - rewrite fmap_app. by apply dense_snoc.
  - apply Forall_app. split; [done|]. apply Forall_singleton. cbn. lia.
Qed.

Lemma castVote_ok clk body db r db' :
  castVote clk body db = Some (r, db') -> store_ok db -> store_ok db'.
Proof.
  unfold castVote. intros H [H1 H2 H3 H4 H5 H6].
  destruct (truthy_value (body !! "walletAddress")) as [wa|];
    [|injection H as <- <-; by split].
  destruct (truthy_value (body !! "electionId")) as [eid|];
    [|injection H as <- <-; by split].
  destruct (truthy_value (body !! "candidateId")) as [cid|];
    [|injection H as <- <-; by split].
  destruct (List.find _ (votes db)); [injection H as <- <-; by split|].
  destruct (ToNumber eid) as [E|] eqn:HE; [|discriminate].
  destruct (ToNumber cid) as [C|] eqn:HC; [|discriminate].
  cbn in H. injection H as <- <-.
  split; store_fields; unfold push.
  - done.
  - by rewrite update_first_fmap.
  - by rewrite update_first_fmap.
  - rewrite fmap_app. by apply dense_snoc.
  - eapply update_first_Forall; [| |exact H5]; cbv beta.
    + intros e He. rewrite votes_of_snoc. lia.
    + intros e He Hp%String.eqb_eq. cbn [Election.TotalVotes Election.ElectionID].
      rewrite votes_of_snoc. cbn [Vote.ElectionID].
      symmetry in Hp. apply ToNumber_String_ in Hp. rewrite HE in Hp. injection Hp as ->.
      rewrite decide_True by done. lia.
  - eapply update_first_Forall; [| |exact H6]; cbv beta.
    + intros c Hc. rewrite votes_naming_snoc. lia.
    + intros c Hc Hp%String.eqb_eq. cbn [Candidate.Votes Candidate.CandidateID].
      rewrite votes_naming_snoc. cbn [Vote.CandidateID].
      symmetry in Hp. apply ToNumber_String_ in Hp. rewrite HC in Hp. injection Hp as ->.
      rewrite decide_True by done. lia.
Qed.

Lemma antiSpam_file clk action w ok w' :
  antiSpam clk action w = (ok, w') -> file w' = file w.
Proof.
  unfold antiSpam. repeat case_match; by intros [= <- <-].
Qed.

Lemma api_ok clk action body w r w' :
  api getTime clk action body w = Some (r, w') ->
  store_ok (file w) -> store_ok (file w').
Proof.
  unfold api. destruct (antiSpam clk action w) as [ok w0] eqn:A.
  apply antiSpam_file in A. rewrite <- A. clear A.
  destruct ok; cbn [negb]; [|intros [= <- <-]; done].
  repeat case_match; try discriminate.
  - destruct (registerVoter _ _ _) as [r1 db1] eqn:E. intros [= <- <-].
    by eapply registerVoter_ok.
  - intros [= <- <-]. done.
  - intros [= <- <-]. done.
  - destruct (createElection _ _ _) as [r1 db1] eqn:E. intros [= <- <-].
    by eapply createElection_ok.
  - destruct (addCandidate _ _ _) as [[r1 db1]|] eqn:E; [|discriminate].
    intros [= <- <-]. by eapply addCandidate_ok.
  - destruct (castVote _ _ _) as [[r1 db1]|] eqn:E; [|discriminate].
    intros [= <- <-]. by eapply castVote_ok.
  - intros [= <- <-]. done.
  - intros [= <- <-]. done.
Qed.

Lemma step_ok clk action body w w' :
  step getTime clk action body w = Some w' ->
  store_ok (file w) -> store_ok (file w').
Proof.
  unfold step. destruct (_ || _).
  - destruct (antiSpam clk action w) as [ok w0] eqn:A. intros [= <-].
    apply antiSpam_file in A. cbn [snd]. by rewrite A.
  - destruct (api getTime clk action body w) as [[r w1]|] eqn:E; [|discriminate].
    intros [= <-]. by eapply api_ok.
Qed.

Lemma run_ok reqs w w' :
  run getTime reqs w = Some w' -> store_ok (file w) -> store_ok (file w').
Proof.
  revert w. induction reqs as [|[[clk action] body] reqs IH]; intros w; cbn [run].
  - by intros [= <-].
  - destruct (step getTime clk action body w) as [w1|] eqn:E; [|discriminate].
    intros Hrun Hw. apply (IH w1 Hrun). by eapply step_ok.
Qed.

Lemma store_ok_boot : store_ok (file boot).
Proof. by split. Qed.

Lemma integer_id_ToNumber x v :
  integer_id x = true -> truthy_value x = Some v -> is_Some (ToNumber v).
Proof.
  intros Hi Hv%truthy_value_Some. subst x. cbn in Hi.
  by destruct (ToNumber v).
Qed.

(** Every request with interpreted identifiers is answered. *)
Lemma step_total clk action body w :
  integer_ids body = true -> is_Some (step getTime clk action body w).
Proof.
  intros [He Hc]%andb_true_iff. unfold step.
  destruct (_ || _) eqn:G; [done|]. apply orb_false_iff in G as [G1 G2].
  unfold api. destruct (antiSpam clk action w) as [ok w0].
  destruct ok; cbn [negb]; [|done].
  repeat case_match; try done; try congruence.
  - unfold addCandidate.
    destruct (truthy_value (body !! "electionId")) as [eid|] eqn:E; [|done].
    destruct (truthy_value (body !! "name")); [|done].
    destruct (integer_id_ToNumber _ _ He E) as [n ->]. done.
  - unfold castVote.
    destruct (truthy_value (body !! "walletAddress")); [|done].
    destruct (truthy_value (body !! "electionId")) as [eid|] eqn:E; [|done].
    destruct (truthy_value (body !! "candidateId")) as [cid|] eqn:C; [|done].
    destruct (List.find _ _); [done|].
    destruct (integer_id_ToNumber _ _ He E) as [n ->].
    destruct (integer_id_ToNumber _ _ Hc C) as [m ->]. done.
Qed.

Lemma run_total reqs w :
  forallb (fun req => integer_ids req.2) reqs = true ->
  is_Some (run getTime reqs w).
Proof.
  revert w. induction reqs as [|[[clk action] body] reqs IH]; intros w; cbn [run forallb].
  - done.
  - intros [Hb Hr]%andb_true_iff.
    destruct (step_total clk action body w Hb) as [w1 ->]. by apply IH.
Qed.

(** No request removes or reorders a stored vote. *)
Lemma registerVoter_votes clk body db r db' :
  registerVoter clk body db = (r, db') -> votes db' = votes db.
Proof.
  unfold registerVoter. intros H. repeat case_match; by injection H as <- <-.
Qed.

Lemma addCandidate_votes clk body db r db' :
  addCandidate clk body db = Some (r, db') -> votes db' = votes db.
Proof.
  unfold addCandidate. intros H.
  repeat case_match; try (by injection H as <- <-).
  destruct (ToNumber _); [|discriminate]. cbn in H. by injection H as <- <-.
Qed.

Lemma castVote_votes clk body db r db' :
  castVote clk body db = Some (r, db') -> votes db `prefix_of` votes db'.
Proof.
  unfold castVote. intros H.
  destruct (truthy_value (body !! "walletAddress")); [|by injection H as <- <-].
  destruct (truthy_value (body !! "electionId")) as [eid|]; [|by injection H as <- <-].
  destruct (truthy_value (body !! "candidateId")) as [cid|]; [|by injection H as <- <-].
  destruct (List.find _ (votes db)); [by injection H as <- <-|].
  destruct (ToNumber eid); [|discriminate].
  destruct (ToNumber cid); [|discriminate].
  cbn in H. injection H as <- <-. store_fields. by apply prefix_app_r.
Qed.

Lemma api_votes clk action body w r w' :
  api getTime clk action body w = Some (r, w') ->
  votes (file w) `prefix_of` votes (file w').
Proof.
  unfold api. destruct (antiSpam clk action w) as [ok w0] eqn:A.
  apply antiSpam_file in A. rewrite <- A. clear A.
  destruct ok; cbn [negb]; [|intros [= <- <-]; done].
  repeat case_match; try discriminate.
  - destruct (registerVoter _ _ _) as [r1 db1] eqn:E. intros [= <- <-].
    store_fields. by rewrite (registerVoter_votes _ _ _ _ _ E).
  - intros [= <- <-]. done.
  - intros [= <- <-]. done.
  - intros [= <- <-]. done.
  - destruct (addCandidate _ _ _) as [[r1 db1]|] eqn:E; [|discriminate].
    intros [= <- <-]. store_fields. by rewrite (addCandidate_votes _ _ _ _ _ E).
  - destruct (castVote _ _ _) as [[r1 db1]|] eqn:E; [|discriminate].
    intros [= <- <-]. store_fields. by eapply castVote_votes.
  - intros [= <- <-]. done.
  - intros [= <- <-]. done.
Qed.

Lemma step_votes clk action body w w' :
  step getTime clk action body w = Some w' ->
  votes (file w) `prefix_of` votes (file w').
Proof.
  unfold step. destruct (_ || _).
  - destruct (antiSpam clk action w) as [ok w0] eqn:A. intros [= <-].
    apply antiSpam_file in A. cbn [snd]. by rewrite A.
  - destruct (api getTime clk action body w) as [[r w1]|] eqn:E; [|discriminate].
    intros [= <-]. by eapply api_votes.
Qed.

Lemma run_votes reqs w w' :
  run getTime reqs w = Some w' -> votes (file w) `prefix_of` votes (file w').
Proof.
  revert w. induction reqs as [|[[clk action] body] reqs IH]; intros w; cbn [run].
  - by intros [= <-].
  - destruct (step getTime clk action body w) as [w1|] eqn:E; [|discriminate].
    intros Hrun. etrans; [by eapply step_votes|by apply IH].
Qed.

(** X15. When the requests reach [/api] one at a time and the identifiers
    they send are integers or strings that read as decimal integers, every
    run from the empty file is answered to the end, whatever the actions,
    and the identifiers of the store are assigned in sequence: the voters,
    the elections, the candidates and the votes are each numbered
    1, 2, ..., n in the order of their creation. *)
Theorem backend_ids_dense reqs :
  forallb (fun req => integer_ids req.2) reqs = true ->
  exists w,
    run getTime reqs boot = Some w
    /\ dense (Voter.VoterID <$> voters (file w))
    /\ dense (Election.ElectionID <$> elections (file w))
    /\ dense (Candidate.CandidateID <$> candidates (file w))
    /\ dense (Vote.VoteID <$> votes (file w)).
Proof.
  intros Hids. destruct (run_total reqs boot Hids) as [w Hrun]. exists w.
  destruct (run_ok reqs boot w Hrun store_ok_boot) as [H1 H2 H3 H4 _ _].
  done.
Qed.

(** X16. When the requests reach [/api] one at a time and the identifiers
    they send are integers or strings that read as decimal integers, the
    counters of the store never run ahead of the votes: after every run
    from the empty file, [TotalVotes] of an election is at most the number
    of stored votes with its [ElectionID], and [Votes] of a candidate is
    at most the number of stored votes with its [CandidateID]. *)
Theorem backend_counters_bounded reqs :
  forallb (fun req => integer_ids req.2) reqs = true ->
  exists w,
    run getTime reqs boot = Some w
    /\ Forall (fun e => (Election.TotalVotes e
                         <= length (votes_of (Election.ElectionID e)
                                             (votes (file w))))%nat)
              (elections (file w))
    /\ Forall (fun c => (Candidate.Votes c
                         <= length (votes_naming (Candidate.CandidateID c)
                                                 (votes (file w))))%nat)
              (candidates (file w)).
Proof.
  intros Hids. destruct (run_total reqs boot Hids) as [w Hrun]. exists w.
  destruct (run_ok reqs boot w Hrun store_ok_boot) as [_ _ _ _ H5 H6].
  done.
Qed.

(** X17. On a store whose candidates have safe integers as [ElectionID],
    and for a request whose [electionId] is absent, a string or a safe
    integer, [getCandidates] compares the decimal text of the stored
    [ElectionID] with the text of the requested one. It lists exactly the
    candidates of election [e] when the request holds the number [e] or
    its decimal text, and nothing when the identifier is absent, is no
    decimal integer, or is an integer written otherwise (as [01] for 1).
    The store is left as it is. *)
Theorem backend_getCandidates_exact body db :
  forallb (fun c => isSafeInteger (Candidate.ElectionID c)) (candidates db) = true ->
  match body !! "electionId" with
  | Some (VNum e) => isSafeInteger e = true
  | _ => True
  end ->
  getCandidates body db
  = (Candidates
       match body !! "electionId" with
       | Some v =>
           match ToNumber v with
           | Some e =>
               if String.eqb (ToString e) (String_ v)
               then candidates_of e (candidates db)
               else []
           | None => []
           end
       | None => []
       end, db).
Proof.
  intros _ _. unfold getCandidates. f_equal. f_equal.
  destruct (body !! "electionId") as [v|]; cbn [fmap option_fmap option_map].
  - destruct (ToNumber v) as [e|] eqn:HN.
    + destruct (String.eqb_spec (ToString e) (String_ v)) as [Heq|Hne].
      * unfold candidates_of. apply list_filter_iff. intros c. split.
        -- intros [= Hc]. rewrite <- Heq in Hc. by apply ToString_inj.
        -- intros ->. by rewrite Heq.
      * apply filter_none. apply Forall_forall. intros c _ [= Hc].
        symmetry in Hc. pose proof (ToNumber_String_ _ _ Hc) as Hn.
        rewrite HN in Hn. injection Hn as ->. done.
    + apply filter_none. apply Forall_forall. intros c _ [= Hc].
      symmetry in Hc. pose proof (ToNumber_String_ _ _ Hc) as Hn. congruence.
  - apply filter_none. apply Forall_forall. intros c _ Hc. discriminate.
Qed.

(** X18. The request filter works per action name, for all clients
    together. Once a request for an action has been let through at a time
    other than 0, every request for the same action that arrives less than
    800 ms after it is answered with [Too many requests] and changes
    nothing, not even the time the filter remembers; a request that
    arrives 800 ms after it or later is let through. (The action name
    [__proto__], which is no key of the table of the code, is left out.) *)
Theorem antiSpam_window clk action w w1 :
  truthy action = true -> action <> "__proto__" ->
  antiSpam clk action w = (true, w1) -> now clk <> 0 ->
  forall clk',
    (now clk' - now clk < LIMIT_MS ->
     antiSpam clk' action w1 = (false, w1)
     /\ forall body, api getTime clk' action body w1 = Some (TooManyRequests, w1))
    /\ (LIMIT_MS <= now clk' - now clk ->
        exists w2, antiSpam clk' action w1 = (true, w2)
                   /\ lastCall w2 !! action = Some (now clk')
                   /\ file w2 = file w1).
Proof.
  intros Ht _ Hpass Hnow clk'.
  assert (Hlast : lastCall w1 !! action = Some (now clk)).
  { unfold antiSpam in Hpass. rewrite Ht in Hpass. cbn [negb] in Hpass.
    repeat case_match; simplify_eq; cbn [lastCall]; apply lookup_insert_eq. }
  assert (Hnz : (now clk =? 0) = false) by (by apply Z.eqb_neq).
  split.
  - intros Hlt.
    assert (Hspam : antiSpam clk' action w1 = (false, w1)).
    { unfold antiSpam. rewrite Ht, Hlast, Hnz. cbn [negb andb].
      by rewrite (proj2 (Z.ltb_lt _ _) Hlt). }
    split; [done|]. intros body. unfold api. by rewrite Hspam.
  - intros Hge. unfold antiSpam. rewrite Ht, Hlast, Hnz. cbn [negb andb].
    rewrite (proj2 (Z.ltb_ge _ _) Hge). eexists. split; [reflexivity|].
    split; [apply lookup_insert_eq|reflexivity].
Qed.

Lemma castVote_stored clk body db v db1 :
  castVote clk body db = Some (VoteCast v, db1) ->
  truthy_value (Some (Vote.Wallet v)) = Some (Vote.Wallet v)
  /\ votes db1 = (votes db ++ [v])%list.
Proof.
  unfold castVote.
  destruct (truthy_value (body !! "walletAddress")) as [wa|] eqn:W; [|done].
  destruct (truthy_value (body !! "electionId")) as [eid|]; [|done].
  destruct (truthy_value (body !! "candidateId")) as [cid|]; [|done].
  destruct (List.find _ (votes db)); [done|].
  destruct (ToNumber eid) as [E|]; [|done].
  destruct (ToNumber cid) as [C|]; [|done].
  cbn. intros [= <- <-]. cbn [Vote.Wallet votes]. split; [|done].
  apply truthy_value_Some in W as W'. by rewrite W' in W.
Qed.

Lemma castVote_refused clk body db v wa eid :
  v ∈ votes db ->
  truthy_value (Some (Vote.Wallet v)) = Some (Vote.Wallet v) ->
  truthy_value (body !! "walletAddress") = Some wa ->
  toLowerCase (String_ wa) = toLowerCase (String_ (Vote.Wallet v)) ->
  truthy_value (body !! "electionId") = Some eid ->
  String_ eid = ToString (Vote.ElectionID v) ->
  is_Some (truthy_value (body !! "candidateId")) ->
  castVote clk body db = Some (Failure "Ya votó", db).
Proof.
  intros Hv Htv Hwa Hlow Heid Htext [cid Hcid]. unfold castVote.
  rewrite Hwa, Heid, Hcid.
  destruct (List.find _ (votes db)) eqn:F; [done|].
  exfalso. apply list_elem_of_In in Hv. eapply find_none in F; [|exact Hv].
  cbv beta in F.
  rewrite (or_value_truthy _ _ Htv), Hlow, Htext, !String.eqb_refl in F. done.
Qed.

(** X20. One vote per wallet and election, when the election is written
    as its number. Once [castVote] has stored a vote of a wallet for an
    election whose identifier is a safe integer [e], then after any
    further requests to [/api] with interpreted identifiers, a [castVote]
    of the same wallet, letter case apart, whose [electionId] is the
    number [e] or its decimal text without sign or leading zeros, and
    that names a candidate, is refused with [Ya votó] and leaves the store
    as it is. *)
Theorem backend_castVote_once clk1 body1 db v db1 calls reqs clk2 body2 wa eid :
  castVote clk1 body1 db = Some (VoteCast v, db1) ->
  isSafeInteger (Vote.ElectionID v) = true ->
  forallb (fun req => integer_ids req.2) reqs = true ->
  truthy_value (body2 !! "walletAddress") = Some wa ->
  toLowerCase (String_ wa) = toLowerCase (String_ (Vote.Wallet v)) ->
  truthy_value (body2 !! "electionId") = Some eid ->
  eid = VNum (Vote.ElectionID v) \/ eid = VStr (ToString (Vote.ElectionID v)) ->
  is_Some (truthy_value (body2 !! "candidateId")) ->
  exists w2,
    run getTime reqs (mkWorld db1 calls) = Some w2
    /\ castVote clk2 body2 (file w2) = Some (Failure "Ya votó", file w2).
Proof.
  intros Hcast _ Hids Hwa Hlow Heid Hform Hcid.
  destruct (run_total reqs (mkWorld db1 calls) Hids) as [w2 Hrun].
  exists w2. split; [done|].
  apply castVote_stored in Hcast as [Htv Hvotes].
  apply run_votes in Hrun as [l Hl]. cbn [file] in Hl.
  apply (castVote_refused clk2 body2 (file w2) v wa eid); try done.
  - rewrite Hl, Hvotes. apply elem_of_app. left. apply elem_of_app. right. by left.
  - by destruct Hform as [->| ->].
Qed.

End BackendStore.

(** ** The further properties at concrete requests *)

Section ConcreteFurther.
Import JS Scenario.

(** X4 at a concrete request: a candidate for an election that does not
    exist is refused, and only the audit log changes. *)
Lemma failed_action_atomic_witness :
  exists w' a,
    Server.handleAction env clock uuid Server.Action.addCandidate add_alice Server.boot
    = (Server.Return (Server.Failure "Elección no encontrada"), w')
    /\ Server.DATABASE w' = Server.set_audit (Server.push a) Server.DATABASE0
    /\ Server.file w' = None.
Proof.
  destruct (failed_action_atomic env clock uuid Server.Action.addCandidate add_alice
              Server.boot eq_refl) as (r & w' & H & Hfail).
  assert (Hr : r = Server.Failure "Elección no encontrada").
  { assert (Hr : (Server.handleAction env clock uuid Server.Action.addCandidate
                    add_alice Server.boot).1 = Server.Return r) by (by rewrite H).
    vm_compute in Hr. injection Hr as <-. reflexivity. }
  subst r. destruct (Hfail eq_refl) as (err & a & _ & HD & Hf & _).
  exists w', a. split; [exact H|]. split; [exact HD|exact Hf].
Defined.

(** X11 at concrete requests: the configured admin, written in capitals in
    the environment, creates the first election. *)
Lemma listed_admin_authorised_witness :
  exists message w' el,
    Server.createElection env clock uuid create_e1 Server.boot
    = (Server.Return (Server.ElectionCreated message (Server.Election.electionId el)), w')
    /\ Server.elections (Server.DATABASE w') = [el]
    /\ Server.Election.title el = "E1".
Proof.
  destruct (listed_admin_authorised env clock uuid create_e1 Server.boot admin)
    as (m & w' & el & H & Hel & Ht).
  - replace (split (or_else (env !! "ADMIN_ADDRESSES") "")) with [admin]
      by (vm_compute; reflexivity).
    by apply list_elem_of_singleton.
  - vm_compute. discriminate.
  - vm_compute. reflexivity.
  - vm_compute. reflexivity.
  - exists m, w', el. split; [exact H|]. split; [exact Hel|].
    rewrite Ht. vm_compute. reflexivity.
Defined.

(** X12 at concrete requests: with an empty environment the requests of
    [setup] create nothing. *)
Lemma no_admin_no_election_witness :
  Server.elections (Server.DATABASE (Server.run ∅ clock uuid setup Server.boot)) = []
  /\ Server.candidates (Server.DATABASE (Server.run ∅ clock uuid setup Server.boot)) = [].
Proof.
  destruct (no_admin_no_election ∅ clock uuid setup) as (He & Hc & _).
  - vm_compute. reflexivity.
  - split; [exact He|exact Hc].
Defined.

(** X13 at concrete requests: the first election is created, a voter
    registers, and a candidate sent with [electionId] 1 as text joins the
    election. *)
Lemma created_election_accepts_candidates_witness :
  exists w1 c w3,
    Server.createElection env clock uuid create_e1 Server.boot
    = (Server.Return
         (Server.ElectionCreated
            ("✅ Elección " ++ Server.quote ++ "E1" ++ Server.quote ++ " creada con ID: 1")
            1), w1)
    /\ Server.addCandidate clock uuid add_alice
         (Server.run env clock uuid [(Server.Action.registerVoter, register_a)] w1)
       = (Server.Return (Server.CandidateAdded "✅ Candidato agregado"
                           (Server.Candidate.candidateId c)), w3)
    /\ Server.Candidate.electionId c = 1.
Proof.
  assert (Hrun : Server.createElection env clock uuid create_e1 Server.boot
                 = (Server.Return
                      (Server.ElectionCreated
                         ("✅ Elección " ++ Server.quote ++ "E1" ++ Server.quote
                            ++ " creada con ID: 1") 1),
                    (Server.createElection env clock uuid create_e1 Server.boot).2))
    by (vm_compute; reflexivity).
  destruct (created_election_accepts_candidates env clock uuid create_e1 Server.boot _ _ _
              [(Server.Action.registerVoter, register_a)] add_alice Hrun)
    as (c & w3 & H & _ & He); [vm_compute; reflexivity..|].
  eexists _, c, w3. split; [exact Hrun|]. split; [exact H|exact He].
Defined.

(** X15 at concrete requests. *)
Lemma backend_ids_dense_witness :
  exists w,
    Backend.run getTime b_requests Backend.boot = Some w
    /\ Backend.dense (Backend.Vote.VoteID <$> Backend.votes (Backend.file w))
    /\ length (Backend.votes (Backend.file w)) = 2%nat.
Proof.
  destruct (backend_ids_dense getTime b_requests) as (w & Hrun & _ & _ & _ & Hd);
    [vm_compute; reflexivity|].
  exists w. split; [exact Hrun|]. split; [exact Hd|].
  assert (Hlen : (fun w => length (Backend.votes (Backend.file w)))
                   <$> Backend.run getTime b_requests Backend.boot = Some 2%nat)
    by (vm_compute; reflexivity).
  rewrite Hrun in Hlen. by injection Hlen.
Defined.

(** X16 at concrete requests: after the two casts the election of the
    store counts one vote, and the store holds two votes for it. *)
Lemma backend_counters_bounded_witness :
  exists w,
    Backend.run getTime b_requests Backend.boot = Some w
    /\ Forall (fun e => (Backend.Election.TotalVotes e
                         <= length (Backend.votes_of (Backend.Election.ElectionID e)
                                                     (Backend.votes (Backend.file w))))%nat)
              (Backend.elections (Backend.file w))
    /\ Backend.Election.TotalVotes <$> Backend.elections (Backend.file w) = [1%nat].
Proof.
  destruct (backend_counters_bounded getTime b_requests) as (w & Hrun & He & _);
    [vm_compute; reflexivity|].
  exists w. split; [exact Hrun|]. split; [exact He|].
  assert (Htot : (fun w => Backend.Election.TotalVotes
                             <$> Backend.elections (Backend.file w))
                   <$> Backend.run getTime b_requests Backend.boot = Some [1%nat])
    by (vm_compute; reflexivity).
  rewrite Hrun in Htot. by injection Htot.
Defined.

(** X17 at concrete requests: election 1 of the store is listed for the
    number 1, and not for the text [01]. *)
Lemma backend_getCandidates_exact_witness :
  exists c,
    Backend.getCandidates (b_get (VNum 1)) b_one_election
    = (Backend.Candidates [c], b_one_election)
    /\ Backend.Candidate.Name c = VStr "Alice"
    /\ Backend.getCandidates (b_get (VStr "01")) b_one_election
       = (Backend.Candidates [], b_one_election).
Proof.
  assert (Hsafe : forallb (fun c => isSafeInteger (Backend.Candidate.ElectionID c))
                          (Backend.candidates b_one_election) = true)
    by (vm_compute; reflexivity).
  eexists. split; [|split].
  - rewrite (backend_getCandidates_exact (b_get (VNum 1)) b_one_election Hsafe);
      [|vm_compute; reflexivity].
    vm_compute. reflexivity.
  - reflexivity.
  - rewrite (backend_getCandidates_exact (b_get (VStr "01")) b_one_election Hsafe);
      [|vm_compute; exact I].
    vm_compute. reflexivity.
Defined.

(** X18 at concrete requests: a second cast in the same millisecond is
    turned away, whoever sends it. *)
Lemma antiSpam_window_witness :
  exists w1,
    Backend.antiSpam clk "castVote" Backend.boot = (true, w1)
    /\ Backend.api getTime clk "castVote" (b_cast (VNum 1) (VNum 1)) w1
       = Some (Backend.TooManyRequests, w1).
Proof.
  assert (Hpass : Backend.antiSpam clk "castVote" Backend.boot
                  = (true, (Backend.antiSpam clk "castVote" Backend.boot).2))
    by (vm_compute; reflexivity).
  destruct (antiSpam_window getTime clk "castVote" Backend.boot _
              eq_refl ltac:(discriminate) Hpass ltac:(discriminate) clk) as [Hnear _].
  destruct Hnear as [_ Hapi]; [vm_compute; reflexivity|].
  eexists. split; [exact Hpass|]. apply Hapi.
Defined.

(** X20 at concrete requests: after the first cast of [b_requests] and
    two further requests, the same wallet casting in election 1, written
    as the text 1, is refused. *)
Lemma backend_castVote_once_witness :
  exists v db1 w2,
    Backend.castVote clk (b_cast (VNum 1) (VNum 1)) b_one_election
    = Some (Backend.VoteCast v, db1)
    /\ Backend.run getTime b_between (Backend.mkWorld db1 ∅) = Some w2
    /\ Backend.castVote later (b_cast (VStr "1") (VNum 1)) (Backend.file w2)
       = Some (Backend.Failure "Ya votó", Backend.file w2).
Proof.
  assert (Hcast : exists v db1,
            Backend.castVote clk (b_cast (VNum 1) (VNum 1)) b_one_election
            = Some (Backend.VoteCast v, db1)
            /\ Backend.Vote.Wallet v = VStr wallet_a
            /\ Backend.Vote.ElectionID v = 1)
    by (vm_compute; eexists _, _; repeat split; reflexivity).
  destruct Hcast as (v & db1 & Hcast & Hw & He).
  destruct (backend_castVote_once getTime clk (b_cast (VNum 1) (VNum 1)) b_one_election
              v db1 ∅ b_between later (b_cast (VStr "1") (VNum 1))
              (VStr wallet_a) (VStr "1") Hcast) as (w2 & Hrun & Hrefused).
  - rewrite He. vm_compute. reflexivity.
  - vm_compute. reflexivity.
  - vm_compute. reflexivity.
  - rewrite Hw. reflexivity.
  - vm_compute. reflexivity.
  - right. rewrite He. vm_compute. reflexivity.
  - vm_compute. by eexists.
  - exists v, db1, w2. split; [exact Hcast|]. split; [exact Hrun|exact Hrefused].
Defined.

End ConcreteFurther.

(** ** Runs of the models on concrete requests *)

Section Runs.
Import JS Scenario.

Example parseInt_prefix : parseInt (Some " 12abc") = Int 12.
Proof. reflexivity. Qed.

Example parseInt_hex : parseInt (Some "0x1f") = Int 31.
Proof. reflexivity. Qed.

Example parseInt_not_a_number : parseInt (Some "abc") = NaN /\ parseInt None = NaN.
Proof. split; reflexivity. Qed.

Example trim_both_ends : trim "  a b  " = "a b".
Proof. reflexivity. Qed.

Example split_commas : split "a,b,,c" = ["a"; "b"; ""; "c"].
Proof. reflexivity. Qed.

Example StringToNumber_leading_zero : StringToNumber "01" = Some 1.
Proof. reflexivity. Qed.

Example toFixed2_thirds :
  Server.percentage_of 1 3 = "33.33%" /\ Server.percentage_of 2 3 = "66.67%"
  /\ Server.percentage_of 1 1 = "100.00%" /\ Server.percentage_of 0 0 = "0%".
Proof. repeat split; vm_compute; reflexivity. Qed.

Example admin_addresses : Server.ADMIN_ADDRESSES (Server.CONFIG env) = [toLowerCase admin].
Proof. vm_compute. reflexivity. Qed.

(** The scenario of the spec on [server.js]: one election, two candidates,
    one vote for the first. *)
Example scenario_tally :
  let d := Server.DATABASE
             (Server.run env clock uuid
                (setup ++ [(Server.Action.castVote, vote_a_alice)]) Server.boot) in
  (fun c => (Server.Candidate.candidateId c, Server.Candidate.votes c,
             Server.Candidate.percentage c)) <$> Server.candidates d
  = [(1, 1%nat, "100.00%"); (2, 0%nat, "0.00%")]
  /\ Server.Election.totalVotes <$> Server.elections d = [1%nat]
  /\ Server.Block.blockNumber <$> Server.blockchain d = [0; 1; 2; 3]%nat.
Proof. vm_compute. repeat split. Qed.

(** Candidate numbers repeat across elections on [server.js]. *)
Example scenario_numbers_repeat :
  let d := Server.DATABASE
             (Server.run env clock uuid
                [ (Server.Action.createElection, create_e1);
                  (Server.Action.createElection, create_e1);
                  (Server.Action.addCandidate, add_alice);
                  (Server.Action.addCandidate, {[ "electionId" := "2"; "name" := "Carla" ]}) ]
                Server.boot) in
  (fun c => (Server.Candidate.electionId c, Server.Candidate.candidateId c))
    <$> Server.candidates d
  = [(1, 1); (2, 1)].
Proof. vm_compute. reflexivity. Qed.

End Runs.
